(** * The persistence gateway of the mood-survey client (services/api.ts)

    A shallow embedding of [createUser], [submitResponse],
    [fetchAllResponses] and [clearLocalData], together with the parts of
    the browser platform they call: [localStorage], [JSON], [Date],
    [fetch] and [Array.prototype.sort]. *)

From Stdlib Require Import ZArith NArith Lia Ascii String List Bool.
From Stdlib Require Import Decimal DecimalFacts DecimalN DecimalString.
From Stdlib Require Import Sorting.Sorted Sorting.Permutation.
From stdpp Require Import base option gmap strings.
Import ListNotations.

Local Open Scope string_scope.
Local Open Scope list_scope.
Local Open Scope Z_scope.

(** ** JavaScript values that JSON can carry

    Strings are byte strings: the UTF-8 encoding of a well-formed
    JavaScript string.  Numbers are integers, the only numbers of the
    data model (ids, scores, epoch milliseconds); they are exact in the
    engine as long as they stay below 2^53 in absolute value.  An
    object is the list of its members as the text has them; reading a
    member takes the last one of that name, as the engine does, which
    keeps only that one. *)

#[warnings="-register-all"]
Inductive json : Type :=
| JNull
| JBool (b : bool)
| JNum (n : Z)
| JStr (s : string)
| JArr (elements : list json)
| JObj (members : list (string * json)).

(** Induction on a value that reaches the elements of its arrays and the
    members of its objects. *)
Section json_induction.
Variable P : json -> Prop.
Hypothesis Hnull : P JNull.
Hypothesis Hbool : forall b, P (JBool b).
Hypothesis Hnum : forall n, P (JNum n).
Hypothesis Hstr : forall s, P (JStr s).
Hypothesis Harr : forall l, Forall P l -> P (JArr l).
Hypothesis Hobj : forall l, Forall (fun kv => P (snd kv)) l -> P (JObj l).

Fixpoint json_nested_ind (v : json) : P v :=
  match v with
  | JNull => Hnull
  | JBool b => Hbool b
  | JNum n => Hnum n
  | JStr s => Hstr s
  | JArr l =>
    Harr l ((fix all (l : list json) : Forall P l :=
               match l with
               | [] => @List.Forall_nil _ _
               | x :: tl => @List.Forall_cons _ _ x tl (json_nested_ind x) (all tl)
               end) l)
  | JObj l =>
    Hobj l ((fix all (l : list (string * json)) : Forall (fun kv => P (snd kv)) l :=
               match l with
               | [] => @List.Forall_nil _ _
               | kv :: tl => @List.Forall_cons _ _ kv tl (json_nested_ind (snd kv)) (all tl)
               end) l)
  end.
End json_induction.

(** A JavaScript value read from a property: [None] is [undefined]. *)
Abbreviation value := (option json).
Abbreviation undefined := (@None json).

Abbreviation dquote := "034"%char.
Abbreviation backslash := "092"%char.

(** [s] without its first character, when that is [c]. *)
Definition take_char (c : ascii) (s : string) : option string :=
  match s with
  | String c' r => if Ascii.eqb c c' then Some r else None
  | EmptyString => None
  end.

Module JSON.

(** *** JSON.stringify *)

Definition hex_digit (n : N) : ascii :=
  ascii_of_N (if (n <? 10)%N then 48 + n else 87 + n)%N.

(** QuoteJSONString, one character at a time. *)
Definition escape_char (c : ascii) : string :=
  let n := N_of_ascii c in
  if (n =? 8)%N then String backslash "b"
  else if (n =? 9)%N then String backslash "t"
  else if (n =? 10)%N then String backslash "n"
  else if (n =? 12)%N then String backslash "f"
  else if (n =? 13)%N then String backslash "r"
  else if (n =? 34)%N then String backslash (String dquote EmptyString)
  else if (n =? 92)%N then String backslash (String backslash EmptyString)
  else if (n <? 32)%N then
    String backslash
      (String "u" (String "0" (String "0"
        (String (hex_digit (n / 16)) (String (hex_digit (n mod 16)) EmptyString)))))
  else String c EmptyString.

Fixpoint escape (s : string) : string :=
  match s with
  | EmptyString => EmptyString
  | String c r => escape_char c +:+ escape r
  end.

Definition quote (s : string) : string :=
  String dquote (escape s +:+ String dquote EmptyString).

Definition number_text (n : Z) : string :=
  match n with
  | Z0 => "0"
  | Zpos p => NilEmpty.string_of_uint (Pos.to_uint p)
  | Zneg p => String "-" (NilEmpty.string_of_uint (Pos.to_uint p))
  end.

Section texts.
Variable text_of : json -> string.

Fixpoint elements_text (l : list json) : string :=
  match l with
  | [] => "]"
  | x :: tl =>
    match tl with
    | [] => text_of x +:+ "]"
    | _ :: _ => text_of x +:+ "," +:+ elements_text tl
    end
  end.

Fixpoint members_text (l : list (string * json)) : string :=
  match l with
  | [] => "}"
  | (k, x) :: tl =>
    match tl with
    | [] => quote k +:+ ":" +:+ text_of x +:+ "}"
    | _ :: _ => quote k +:+ ":" +:+ text_of x +:+ "," +:+ members_text tl
    end
  end.
End texts.

Fixpoint stringify (v : json) : string :=
  match v with
  | JNull => "null"
  | JBool true => "true"
  | JBool false => "false"
  | JNum n => number_text n
  | JStr s => quote s
  | JArr l => String "[" (elements_text stringify l)
  | JObj l => String "{" (members_text stringify l)
  end.

(** *** JSON.parse *)

Definition is_ws (c : ascii) : bool :=
  let n := N_of_ascii c in
  ((n =? 32) || (n =? 9) || (n =? 10) || (n =? 13))%N.

Fixpoint skip_ws (s : string) : string :=
  match s with
  | String c r => if is_ws c then skip_ws r else s
  | EmptyString => s
  end.

Definition hex_val (c : ascii) : option N :=
  let n := N_of_ascii c in
  if ((48 <=? n) && (n <=? 57))%N then Some (n - 48)%N
  else if ((97 <=? n) && (n <=? 102))%N then Some (n - 87)%N
  else if ((65 <=? n) && (n <=? 70))%N then Some (n - 55)%N
  else None.

Definition hex4 (a b c d : ascii) : option N :=
  match hex_val a, hex_val b, hex_val c, hex_val d with
  | Some x, Some y, Some z, Some w => Some (((x * 16 + y) * 16 + z) * 16 + w)%N
  | _, _, _, _ => None
  end.

(** UTF-8 bytes of a code point (a lone surrogate is written as three
    bytes, the way it would be were it a character). *)
Definition utf8 (cp : N) : string :=
  let b (n : N) := ascii_of_N n in
  (if cp <? 128 then String (b cp) EmptyString
   else if cp <? 2048 then
     String (b (192 + cp / 64)) (String (b (128 + cp mod 64)) EmptyString)
   else if cp <? 65536 then
     String (b (224 + cp / 4096))
       (String (b (128 + (cp / 64) mod 64)) (String (b (128 + cp mod 64)) EmptyString))
   else
     String (b (240 + cp / 262144))
       (String (b (128 + (cp / 4096) mod 64))
         (String (b (128 + (cp / 64) mod 64)) (String (b (128 + cp mod 64)) EmptyString))))%N.

Definition is_high_surrogate (u : N) : bool := ((55296 <=? u) && (u <=? 56319))%N.
Definition is_low_surrogate (u : N) : bool := ((56320 <=? u) && (u <=? 57343))%N.

Definition simple_escape (e : ascii) : option ascii :=
  if Ascii.eqb e dquote then Some dquote
  else if Ascii.eqb e backslash then Some backslash
  else if Ascii.eqb e "/" then Some "/"%char
  else if Ascii.eqb e "b" then Some "008"%char
  else if Ascii.eqb e "f" then Some "012"%char
  else if Ascii.eqb e "n" then Some "010"%char
  else if Ascii.eqb e "r" then Some "013"%char
  else if Ascii.eqb e "t" then Some "009"%char
  else None.

Definition prepend (p : string) (k : option (string * string)) : option (string * string) :=
  match k with
  | Some (s, rest) => Some (p +:+ s, rest)
  | None => None
  end.

(** The characters of a string literal after its opening quote: the
    decoded string and the text after the closing quote. *)
Fixpoint parse_chars (s : string) : option (string * string) :=
  match s with
  | EmptyString => None
  | String c r =>
    if Ascii.eqb c dquote then Some (EmptyString, r)
    else if Ascii.eqb c backslash then
      match r with
      | EmptyString => None
      | String e r1 =>
        match simple_escape e with
        | Some d => prepend (String d EmptyString) (parse_chars r1)
        | None =>
          if Ascii.eqb e "u" then
            match r1 with
            | String h1 (String h2 (String h3 (String h4 r2))) =>
              match hex4 h1 h2 h3 h4 with
              | None => None
              | Some hi =>
                if is_high_surrogate hi then
                  match r2 with
                  | String b (String u (String l1 (String l2 (String l3 (String l4 r3))))) =>
                    match (if Ascii.eqb b backslash && Ascii.eqb u "u"
                           then hex4 l1 l2 l3 l4 else None) with
                    | Some lo =>
                      if is_low_surrogate lo
                      then prepend (utf8 (65536 + (hi - 55296) * 1024 + (lo - 56320))%N)
                                   (parse_chars r3)
                      else prepend (utf8 hi) (parse_chars r2)
                    | None => prepend (utf8 hi) (parse_chars r2)
                    end
                  | _ => prepend (utf8 hi) (parse_chars r2)
                  end
                else prepend (utf8 hi) (parse_chars r2)
              end
            | _ => None
            end
          else None
        end
      end
    else if (N_of_ascii c <? 32)%N then None
    else prepend (String c EmptyString) (parse_chars r)
  end.

Definition digit_of (c : ascii) : option (uint -> uint) :=
  let n := N_of_ascii c in
  if (n =? 48)%N then Some D0 else if (n =? 49)%N then Some D1
  else if (n =? 50)%N then Some D2 else if (n =? 51)%N then Some D3
  else if (n =? 52)%N then Some D4 else if (n =? 53)%N then Some D5
  else if (n =? 54)%N then Some D6 else if (n =? 55)%N then Some D7
  else if (n =? 56)%N then Some D8 else if (n =? 57)%N then Some D9
  else None.

(** The longest run of decimal digits at the head of [s]. *)
Fixpoint digits (s : string) : uint * string :=
  match s with
  | EmptyString => (Nil, s)
  | String c r =>
    match digit_of c with
    | Some d => let '(u, rest) := digits r in (d u, rest)
    | None => (Nil, s)
    end
  end.

(** The grammar [int = 0 | [1-9][0-9]*]: no empty run, no leading zero. *)
Definition int_literal (u : uint) : bool :=
  match u with
  | Nil => false
  | D0 Nil => true
  | D0 _ => false
  | _ => true
  end.

Definition starts_fraction_or_exponent (s : string) : bool :=
  match s with
  | String c _ => Ascii.eqb c "." || Ascii.eqb c "e" || Ascii.eqb c "E"
  | EmptyString => false
  end.

(** Integer literals only.  A literal with a fraction or an exponent is
    no number of the data model and is refused here, although it is
    JSON: [parse] answering [None] therefore does not tell that a text
    is not JSON, and no statement below takes it for that (the texts
    that are certainly not JSON are those of [not_json]). *)
Definition parse_number (s : string) : option (json * string) :=
  let '(neg, s1) :=
    match s with
    | String c r => if Ascii.eqb c "-" then (true, r) else (false, s)
    | EmptyString => (false, s)
    end in
  let '(u, rest) := digits s1 in
  if int_literal u && negb (starts_fraction_or_exponent rest) then
    let n := Z.of_N (N.of_uint u) in
    Some (JNum (if neg then - n else n), rest)
  else None.

Fixpoint drop_prefix (word s : string) : option string :=
  match word, s with
  | EmptyString, _ => Some s
  | String a word', String b s' => if Ascii.eqb a b then drop_prefix word' s' else None
  | String _ _, EmptyString => None
  end.

Definition expect (word : string) (v : json) (s : string) : option (json * string) :=
  match drop_prefix word s with
  | Some rest => Some (v, rest)
  | None => None
  end.

Fixpoint parse_value (fuel : nat) (s : string) : option (json * string) :=
  match fuel with
  | O => None
  | S fuel =>
    match skip_ws s with
    | EmptyString => None
    | String c r as s' =>
      if Ascii.eqb c "n" then expect "ull" JNull r
      else if Ascii.eqb c "t" then expect "rue" (JBool true) r
      else if Ascii.eqb c "f" then expect "alse" (JBool false) r
      else if Ascii.eqb c dquote then
        match parse_chars r with
        | Some (str, rest) => Some (JStr str, rest)
        | None => None
        end
      else if Ascii.eqb c "[" then
        match take_char "]" (skip_ws r) with
        | Some rest => Some (JArr [], rest)
        | None =>
          match parse_elements fuel r with
          | Some (l, rest) => Some (JArr l, rest)
          | None => None
          end
        end
      else if Ascii.eqb c "{" then
        match take_char "}" (skip_ws r) with
        | Some rest => Some (JObj [], rest)
        | None =>
          match parse_members fuel r with
          | Some (l, rest) => Some (JObj l, rest)
          | None => None
          end
        end
      else parse_number s'
    end
  end
with parse_elements (fuel : nat) (s : string) : option (list json * string) :=
  match fuel with
  | O => None
  | S fuel =>
    match parse_value fuel s with
    | None => None
    | Some (v, r) =>
      match take_char "," (skip_ws r) with
      | Some r' =>
        match parse_elements fuel r' with
        | Some (vs, rest) => Some (v :: vs, rest)
        | None => None
        end
      | None =>
        match take_char "]" (skip_ws r) with
        | Some rest => Some ([v], rest)
        | None => None
        end
      end
    end
  end
with parse_members (fuel : nat) (s : string) : option (list (string * json) * string) :=
  match fuel with
  | O => None
  | S fuel =>
    match take_char dquote (skip_ws s) with
    | None => None
    | Some r0 =>
      match parse_chars r0 with
      | None => None
      | Some (k, r1) =>
        match take_char ":" (skip_ws r1) with
        | None => None
        | Some r2 =>
          match parse_value fuel r2 with
          | None => None
          | Some (v, r) =>
            match take_char "," (skip_ws r) with
            | Some r' =>
              match parse_members fuel r' with
              | Some (kvs, rest) => Some ((k, v) :: kvs, rest)
              | None => None
              end
            | None =>
              match take_char "}" (skip_ws r) with
              | Some rest => Some ([(k, v)], rest)
              | None => None
              end
            end
          end
        end
      end
    end
  end.

(** [None] is the SyntaxError that JSON.parse throws.  A level of
    nesting takes two units of fuel and has an opening and a closing
    character, and an element takes one and has a separator, so the
    length of the text is fuel enough. *)
Definition parse (s : string) : option json :=
  match parse_value (S (String.length s)) s with
  | Some (v, rest) =>
    match skip_ws rest with
    | EmptyString => Some v
    | _ => None
    end
  | None => None
  end.

(** Nodes of a value, the fuel that parsing its text needs. *)
Fixpoint size (v : json) : nat :=
  match v with
  | JArr l => S (list_sum (List.map (fun x => S (size x)) l))
  | JObj l => S (list_sum (List.map (fun kv => S (size (snd kv))) l))
  | _ => 1
  end.

(** Texts that may follow a number: not a digit, and not the start of a
    fraction or an exponent. *)
Definition ends_number (s : string) : bool :=
  match s with
  | EmptyString => true
  | String c _ =>
    match digit_of c with
    | Some _ => false
    | None => negb (starts_fraction_or_exponent s)
    end
  end.

End JSON.


(** ** Data model (types.ts, and the rows of the report) *)

Module User.
Record t := make
  { id : Z; name : string; avatar : string; grade : string; gender : string }.

(** The object literal [{ id, name, avatar, grade, gender }]. *)
Definition to_json (u : t) : json :=
  JObj [("id", JNum (id u)); ("name", JStr (name u)); ("avatar", JStr (avatar u));
        ("grade", JStr (grade u)); ("gender", JStr (gender u))].
End User.

Module ResponseRecord.
Record t := make
  { id : Z; user_id : Z; question_id : Z; score : Z; timestamp : string }.

(** The object literal [{ id, user_id, question_id, score, timestamp }]. *)
Definition to_json (r : t) : json :=
  JObj [("id", JNum (id r)); ("user_id", JNum (user_id r));
        ("question_id", JNum (question_id r)); ("score", JNum (score r));
        ("timestamp", JStr (timestamp r))].
End ResponseRecord.

(** A row of the report.  Its fields are whatever the stored objects
    held, hence JavaScript values. *)
Module Row.
Record t := make
  { user_id : value; user_name : value; user_avatar : value; user_grade : value;
    user_gender : value; question_id : value; score : value; timestamp : value }.
End Row.

Inductive ReportData :=
| ServerData (data : json)
| LocalRows (rows : list Row.t).

Record Report := { source : string; data : ReportData }.

(** ** The platform *)

Inductive exn :=
| SyntaxError
| TypeError
| AbortError
| Error (message : string).

Inductive result (A : Type) :=
| Returned (a : A)
| Thrown (e : exn).
Arguments Returned {A} a.
Arguments Thrown {A} e.

Record RequestInit := { method : string; headers : list (string * string); body : option string }.

Record Response := { status : Z; text : string }.

Definition ok (res : Response) : bool := (200 <=? status res) && (status res <=? 299).

(** What the network does with a request: a response whose headers
    arrive after [latency] milliseconds, a failure after [latency]
    milliseconds, or nothing at all. *)
Inductive FetchOutcome :=
| Responds (latency : Z) (res : Response)
| Fails (latency : Z)
| Hangs.

(** The world outside the program: the server and the network, the wall
    clock (the k-th reading of it), and the engine's [Date.parse]
    ([None] is NaN). *)
Record Env :=
  { remote : string -> RequestInit -> FetchOutcome;
    clock : nat -> Z;
    Date_parse : string -> option Z }.

(** What the program changes: local storage, and how many times the
    clock has been read. *)
Record State := { localStorage : gmap string string; reads : nat }.

Definition M (A : Type) : Type := State -> result A * State.

Definition ret {A} (a : A) : M A := fun st => (Returned a, st).
Definition throw {A} (e : exn) : M A := fun st => (Thrown e, st).
Definition bind {A B} (m : M A) (k : A -> M B) : M B :=
  fun st =>
    match m st with
    | (Returned a, st') => k a st'
    | (Thrown e, st') => (Thrown e, st')
    end.
Definition try_catch {A} (block : M A) (handler : exn -> M A) : M A :=
  fun st =>
    match block st with
    | (Returned a, st') => (Returned a, st')
    | (Thrown e, st') => handler e st'
    end.

Notation "'let*' x ':=' m 'in' k" := (bind m (fun x => k))
  (at level 10, x name, m at level 100, k at level 200).
Notation "'do' m 'in' k" := (bind m (fun _ => k))
  (at level 10, m at level 100, k at level 200).

(** A promise that has settled, and awaiting it. *)
Definition Promise (A : Type) : Type := result A.
Definition await {A} (p : Promise A) : M A := fun st => (p, st).

(** [a || b] on what [getItem] returns: [null] and the empty string are
    falsy. *)
Definition or_else (a : option string) (b : string) : string :=
  match a with
  | Some (String _ _ as s) => s
  | _ => b
  end.

(** [localStorage].  Storage is there and takes every write: a browser
    that denies storage, or whose quota is full, is outside this model. *)
Module Storage.
Definition getItem (key : string) : M (option string) :=
  fun st => (Returned (localStorage st !! key), st).
Definition setItem (key text : string) : M unit :=
  fun st => (Returned tt, {| localStorage := <[key := text]> (localStorage st); reads := reads st |}).
Definition removeItem (key : string) : M unit :=
  fun st => (Returned tt, {| localStorage := delete key (localStorage st); reads := reads st |}).
End Storage.

Definition JSON_parse (text : string) : M json :=
  match JSON.parse text with
  | Some v => ret v
  | None => throw SyntaxError
  end.

(** The console is not observed. *)
Definition console_warn (message : string) : M unit := ret tt.

(** *** Property access, equality, truthiness *)

Fixpoint lookup_last (key : string) (l : list (string * json)) : value :=
  match l with
  | [] => undefined
  | (k, v) :: tl =>
    match lookup_last key tl with
    | Some w => Some w
    | None => if String.eqb k key then Some v else undefined
    end
  end.

(** [v.key], for the keys this program reads (none of them is a
    property of a string, a number or an array). *)
Definition get (key : string) (v : value) : M value :=
  match v with
  | None | Some JNull => throw TypeError
  | Some (JObj l) => ret (lookup_last key l)
  | Some _ => ret undefined
  end.

(** [a === b]: objects and arrays from two different parses are never
    the same object. *)
Definition strict_eq (a b : value) : bool :=
  match a, b with
  | None, None => true
  | Some JNull, Some JNull => true
  | Some (JBool x), Some (JBool y) => Bool.eqb x y
  | Some (JNum x), Some (JNum y) => (x =? y)%Z
  | Some (JStr x), Some (JStr y) => String.eqb x y
  | _, _ => false
  end.

Definition truthy (v : value) : bool :=
  match v with
  | None | Some JNull => false
  | Some (JBool b) => b
  | Some (JNum n) => negb (n =? 0)%Z
  | Some (JStr EmptyString) => false
  | Some _ => true
  end.

(** *** Arrays *)

Module Array.
(** Reading a method off [a], which comes before the arguments of the
    call are evaluated: [null] has no properties. *)
Definition method_of (a : json) : M unit :=
  match a with
  | JNull => throw TypeError
  | _ => ret tt
  end.

(** [a.push(x)], as the array that [a] is afterwards. *)
Definition push (a x : json) : M json :=
  match a with
  | JArr l => ret (JArr (l ++ [x]))
  | _ => throw TypeError
  end.

Fixpoint find_in (p : json -> M bool) (l : list json) : M value :=
  match l with
  | [] => ret undefined
  | x :: tl => let* b := p x in if (b : bool) then ret (Some x) else find_in p tl
  end.

Definition find (a : json) (p : json -> M bool) : M value :=
  match a with
  | JArr l => find_in p l
  | _ => throw TypeError
  end.

Fixpoint map_in {B} (f : json -> M B) (l : list json) : M (list B) :=
  match l with
  | [] => ret []
  | x :: tl => let* y := f x in let* ys := map_in f tl in ret (y :: ys)
  end.

Definition map {B} (a : json) (f : json -> M B) : M (list B) :=
  match a with
  | JArr l => map_in f l
  | _ => throw TypeError
  end.

Section sort.
Context {A : Type}.
(** The comparator is a function of the program: it returns a number
    ([None] is NaN, which sorting takes as 0) or throws, and what it
    throws leaves the sort. *)
Variable comparefn : A -> A -> M (option Z).

Definition before_or_equal (x y : A) : M bool :=
  let* v := comparefn x y in
  ret match v with
      | Some v => (v <=? 0)%Z
      | None => true
      end.

Fixpoint insert (x : A) (l : list A) : M (list A) :=
  match l with
  | [] => ret [x]
  | y :: tl =>
    let* first := before_or_equal x y in
    if (first : bool) then ret (x :: l)
    else let* rest := insert x tl in ret (y :: rest)
  end.

(** A stable sort.  An array of fewer than two elements is returned
    without a call of the comparator; in a longer one every element is
    compared at least once.  For a consistent comparator every engine
    returns this list; for the others the order is the engine's
    choice. *)
Fixpoint sort (l : list A) : M (list A) :=
  match l with
  | [] => ret []
  | x :: tl => let* sorted := sort tl in insert x sorted
  end.
End sort.
End Array.

(** *** Dates *)

Module Date.
(** Civil date of a day number counted from 1970-01-01. *)
Definition civil_from_days (days : Z) : Z * Z * Z :=
  let z := days + 719468 in
  let era := z / 146097 in
  let doe := z - era * 146097 in
  let yoe := (doe - doe / 1460 + doe / 36524 - doe / 146096) / 365 in
  let doy := doe - (365 * yoe + yoe / 4 - yoe / 100) in
  let mp := (5 * doy + 2) / 153 in
  let d := doy - (153 * mp + 2) / 5 + 1 in
  let m := if mp <? 10 then mp + 3 else mp - 9 in
  let y := yoe + era * 400 in
  (if m <=? 2 then y + 1 else y, m, d).

Definition days_from_civil (y m d : Z) : Z :=
  let y' := if m <=? 2 then y - 1 else y in
  let era := y' / 400 in
  let yoe := y' - era * 400 in
  let mp := if 2 <? m then m - 3 else m + 9 in
  let doy := (153 * mp + 2) / 5 + d - 1 in
  let doe := yoe * 365 + yoe / 4 - yoe / 100 + doy in
  era * 146097 + doe - 719468.

Fixpoint zeros (k : nat) : string :=
  match k with
  | O => EmptyString
  | S k => String "0" (zeros k)
  end.

(** [n >= 0] in decimal, at least [width] digits. *)
Definition padded (width : nat) (n : Z) : string :=
  let digits := JSON.number_text n in
  zeros (width - String.length digits) +:+ digits.

Definition year_text (y : Z) : string :=
  if (0 <=? y) && (y <=? 9999) then padded 4 y
  else if y <? 0 then String "-" (padded 6 (- y))
  else String "+" (padded 6 y).

(** [new Date(t).toISOString()]. *)
Definition toISOString (t : Z) : string :=
  let '(y, m, d) := civil_from_days (t / 86400000) in
  let ms := t mod 86400000 in
  year_text y +:+ "-" +:+ padded 2 m +:+ "-" +:+ padded 2 d +:+ "T"
    +:+ padded 2 (ms / 3600000) +:+ ":" +:+ padded 2 (ms / 60000 mod 60) +:+ ":"
    +:+ padded 2 (ms / 1000 mod 60) +:+ "." +:+ padded 3 (ms mod 1000) +:+ "Z".

(** ToPrimitive and ToString, which the constructor applies to an array
    or an object.  A value that [JSON.parse] made has no callable
    member.  An object with a member "toString" of its own therefore
    has no way to a primitive, and the conversion throws TypeError; any
    other object is "[object Object]".  An array is joined with commas,
    [null] elements giving the empty string. *)
Section join.
Variable text_of : json -> result string.

Definition element_text (x : json) : result string :=
  match x with
  | JNull => Returned EmptyString
  | _ => text_of x
  end.

Fixpoint join_text (l : list json) : result string :=
  match l with
  | [] => Returned EmptyString
  | x :: tl =>
    match element_text x with
    | Thrown e => Thrown e
    | Returned first =>
      match tl with
      | [] => Returned first
      | _ :: _ =>
        match join_text tl with
        | Thrown e => Thrown e
        | Returned rest => Returned (first +:+ "," +:+ rest)
        end
      end
    end
  end.
End join.

Fixpoint ToString (v : json) : result string :=
  match v with
  | JNull => Returned "null"
  | JBool true => Returned "true"
  | JBool false => Returned "false"
  | JNum n => Returned (JSON.number_text n)
  | JStr s => Returned s
  | JArr l => join_text ToString l
  | JObj l =>
    match lookup_last "toString" l with
    | Some _ => Thrown TypeError
    | None => Returned "[object Object]"
    end
  end.

Definition TimeClip (t : Z) : option Z :=
  if Z.abs t <=? 8640000000000000 then Some t else None.

(** [new Date(v).getTime()]; [None] is NaN. *)
Definition getTime (parse : string -> option Z) (v : value) : M (option Z) :=
  match v with
  | None => ret None
  | Some JNull => ret (Some 0)
  | Some (JBool b) => ret (Some (if b then 1 else 0))
  | Some (JNum n) => ret (TimeClip n)
  | Some (JStr s) => ret (parse s)
  | Some (JArr _ as o) | Some (JObj _ as o) =>
    match ToString o with
    | Returned s => ret (parse s)
    | Thrown e => throw e
    end
  end.

(** A [Date.parse] for the sample worlds.  What [Date.parse] reads
    beyond the date-time format of the language is the engine's choice,
    and the theorems take any [Date_parse]; this one reads the full form
    YYYY-MM-DDTHH:mm:ss.sssZ of that format, which [toISOString] writes
    for the years 0000 to 9999, and nothing else.  The elements have the
    bounds of the format (a day from 01 to 31 whatever the month, an
    hour 24 for the end of a day), and a day that its month has not is
    counted on into the next month. *)
Fixpoint take_digits (k : nat) (acc : Z) (s : string) : option (Z * string) :=
  match k with
  | O => Some (acc, s)
  | S k =>
    match s with
    | String c r =>
      let n := Z.of_N (N_of_ascii c) in
      if (48 <=? n) && (n <=? 57) then take_digits k (acc * 10 + (n - 48)) r else None
    | EmptyString => None
    end
  end.

Definition parse_iso (s : string) : option Z :=
  '(y, s) ← take_digits 4 0 s; s ← take_char "-" s;
  '(m, s) ← take_digits 2 0 s; s ← take_char "-" s;
  '(d, s) ← take_digits 2 0 s; s ← take_char "T" s;
  '(h, s) ← take_digits 2 0 s; s ← take_char ":" s;
  '(mi, s) ← take_digits 2 0 s; s ← take_char ":" s;
  '(sec, s) ← take_digits 2 0 s; s ← take_char "." s;
  '(ms, s) ← take_digits 3 0 s; s ← take_char "Z" s;
  match s with
  | EmptyString =>
    if (1 <=? m) && (m <=? 12) && (1 <=? d) && (d <=? 31)
       && ((h <=? 23) || ((h =? 24) && (mi =? 0) && (sec =? 0) && (ms =? 0)))
       && (mi <=? 59) && (sec <=? 59)
    then Some (days_from_civil y m d * 86400000
               + h * 3600000 + mi * 60000 + sec * 1000 + ms)
    else None
  | String _ _ => None
  end.
End Date.

(** ** services/api.ts *)

Definition API_URL : string := "http://localhost:3001/api".

(** The glyph the source gives a row without profile, byte for byte. *)
Definition default_avatar : string := "ðŸ™‚".

Section Gateway.
Variable env : Env.

Definition Date_now : M Z :=
  fun st => (Returned (clock env (reads st)),
             {| localStorage := localStorage st; reads := S (reads st) |}).

(** [fetch] raced against the timer that aborts it.  The timer is
    cleared once the response (its status line) is there.  Every caller
    passes its own [timeout]; the default of 1000 ms is never used. *)
Definition fetchWithTimeout (url : string) (options : RequestInit) (timeout : Z)
  : M Response :=
  match remote env url options with
  | Responds latency res => if latency <? timeout then ret res else throw AbortError
  | Fails latency => if latency <? timeout then throw TypeError else throw AbortError
  | Hangs => throw AbortError
  end.

(** [res.json()]: a promise. *)
Definition Response_json (res : Response) : Promise json :=
  match JSON.parse (text res) with
  | Some v => Returned v
  | None => Thrown SyntaxError
  end.

Definition json_headers : list (string * string) :=
  [("Content-Type", "application/json")].

Definition login_request (name avatar grade gender : string) : RequestInit :=
  {| method := "POST"; headers := json_headers;
     body := Some (JSON.stringify
              (JObj [("name", JStr name); ("avatar", JStr avatar);
                     ("grade", JStr grade); ("gender", JStr gender)])) |}.

(** The [try] block of [createUser].  The promise of [res.json()] is
    returned as it is, not awaited. *)
Definition createUser_try (name avatar grade gender : string) : M (Promise json) :=
  let* res :=
    fetchWithTimeout (API_URL +:+ "/login")
      (login_request name avatar grade gender) 1500 in
  if negb (ok res) then throw (Error "Failed to create user")
  else ret (Response_json res).

(** Its [catch] block. *)
Definition createUser_catch (name avatar grade gender : string) (error : exn)
  : M (Promise json) :=
  do console_warn "Backend unreachable or timed out, falling back to LocalStorage mode." in
  let* stored := Storage.getItem "sel_users" in
  let* users := JSON_parse (or_else stored "[]") in
  let* now := Date_now in
  let newUser := User.to_json (User.make now name avatar grade gender) in
  let* users := Array.push users newUser in
  do Storage.setItem "sel_users" (JSON.stringify users) in
  ret (Returned newUser).

Definition createUser (name avatar grade gender : string) : M json :=
  let* answer :=
    try_catch (createUser_try name avatar grade gender)
              (createUser_catch name avatar grade gender) in
  await answer.

Definition response_request (userId questionId score : Z) : RequestInit :=
  {| method := "POST"; headers := json_headers;
     body := Some (JSON.stringify
              (JObj [("user_id", JNum userId); ("question_id", JNum questionId);
                     ("score", JNum score)])) |}.

Definition submitResponse_try (userId questionId score : Z) : M (Promise json) :=
  let* res :=
    fetchWithTimeout (API_URL +:+ "/response")
      (response_request userId questionId score) 800 in
  if negb (ok res) then throw (Error "Failed to submit response")
  else ret (Response_json res).

Definition submitResponse_catch (userId questionId score : Z) (error : exn)
  : M (Promise json) :=
  let* stored := Storage.getItem "sel_responses" in
  let* responses := JSON_parse (or_else stored "[]") in
  do Array.method_of responses in
  let* id := Date_now in
  let* now := Date_now in
  let* responses :=
    Array.push responses
      (ResponseRecord.to_json
         (ResponseRecord.make id userId questionId score (Date.toISOString now))) in
  do Storage.setItem "sel_responses" (JSON.stringify responses) in
  let* id := Date_now in
  ret (Returned (JObj [("id", JNum id); ("status", JStr "saved_local")])).

Definition submitResponse (userId questionId score : Z) : M json :=
  let* answer :=
    try_catch (submitResponse_try userId questionId score)
              (submitResponse_catch userId questionId score) in
  await answer.

(** [user ? user.key : otherwise]. *)
Definition field_or (user : value) (key : string) (otherwise : json) : M value :=
  if truthy user then get key user else ret (Some otherwise).

(** The callback of [responses.map]. *)
Definition join_row (users r : json) : M Row.t :=
  let* user :=
    Array.find users
      (fun u =>
         let* uid := get "id" (Some u) in
         let* rid := get "user_id" (Some r) in
         ret (strict_eq uid rid)) in
  let* user_id := field_or user "id" (JNum (-1)) in
  let* user_name := field_or user "name" (JStr "Unknown (Local)") in
  let* user_avatar := field_or user "avatar" (JStr default_avatar) in
  let* user_grade := field_or user "grade" (JStr EmptyString) in
  let* user_gender := field_or user "gender" (JStr EmptyString) in
  let* question_id := get "question_id" (Some r) in
  let* score := get "score" (Some r) in
  let* timestamp := get "timestamp" (Some r) in
  ret (Row.make user_id user_name user_avatar user_grade user_gender
                question_id score timestamp).

(** The comparator of the final sort:
    [new Date(b.timestamp).getTime() - new Date(a.timestamp).getTime()]. *)
Definition newest_first (a b : Row.t) : M (option Z) :=
  let* tb := Date.getTime (Date_parse env) (Row.timestamp b) in
  let* ta := Date.getTime (Date_parse env) (Row.timestamp a) in
  ret match tb, ta with
      | Some tb, Some ta => Some (tb - ta)
      | _, _ => None
      end.

(** The empty options [{}]: a GET without headers or body. *)
Definition report_request : RequestInit :=
  {| method := "GET"; headers := []; body := None |}.

Definition fetchAllResponses_try : M Report :=
  let* res :=
    fetchWithTimeout (API_URL +:+ "/admin/responses") report_request 2000 in
  if negb (ok res) then throw (Error "Failed to fetch responses")
  else
    let* data := await (Response_json res) in
    ret {| source := "DB"; data := ServerData data |}.

Definition fetchAllResponses_catch (error : exn) : M Report :=
  do console_warn "Backend unreachable, returning LocalStorage data." in
  let* stored_users := Storage.getItem "sel_users" in
  let* users := JSON_parse (or_else stored_users "[]") in
  let* stored_responses := Storage.getItem "sel_responses" in
  let* responses := JSON_parse (or_else stored_responses "[]") in
  let* joined := Array.map responses (join_row users) in
  let* sorted := Array.sort newest_first joined in
  ret {| source := "LOCAL"; data := LocalRows sorted |}.

Definition fetchAllResponses : M Report :=
  try_catch fetchAllResponses_try fetchAllResponses_catch.

Definition clearLocalData : M unit :=
  do Storage.removeItem "sel_users" in
  Storage.removeItem "sel_responses".

End Gateway.

(** ** Vocabulary of the statements *)

(** Characters a stringified value starts with. *)
Definition value_head (c : ascii) : bool :=
  match JSON.digit_of c with
  | Some _ => true
  | None =>
    Ascii.eqb c "n" || Ascii.eqb c "t" || Ascii.eqb c "f" || Ascii.eqb c dquote
    || Ascii.eqb c "[" || Ascii.eqb c "{" || Ascii.eqb c "-"
  end.

(** Parsing the text of [v] gives [v] back, whatever follows it. *)
Definition reads_back (v : json) : Prop :=
  forall fuel rest, (JSON.size v <= fuel)%nat -> JSON.ends_number rest = true ->
    JSON.parse_value fuel (JSON.stringify v +:+ rest) = Some (v, rest).

(** The remote attempt fails within a bound of [timeout] milliseconds:
    nothing in time (abort), a network error, or a status outside 2xx. *)
Definition remote_failed (timeout : Z) (o : FetchOutcome) : bool :=
  match o with
  | Responds latency res => (timeout <=? latency) || negb (ok res)
  | Fails _ => true
  | Hangs => true
  end.

(** What the three operations ask of the server. *)
Definition login_outcome (env : Env) (name avatar grade gender : string) : FetchOutcome :=
  remote env (API_URL +:+ "/login") (login_request name avatar grade gender).
Definition response_outcome (env : Env) (userId questionId score : Z) : FetchOutcome :=
  remote env (API_URL +:+ "/response") (response_request userId questionId score).
Definition report_outcome (env : Env) : FetchOutcome :=
  remote env (API_URL +:+ "/admin/responses") report_request.

(** The collection stored under [key] is the array [l] (an absent or
    empty entry is the empty array). *)
Definition collection (key : string) (st : State) (l : list json) : Prop :=
  JSON.parse (or_else (localStorage st !! key) "[]") = Some (JArr l).

(** [v.key] of a value that is not [null]. *)
Definition field (key : string) (v : json) : value :=
  match v with
  | JObj l => lookup_last key l
  | _ => undefined
  end.

Definition defined (v : value) : bool :=
  match v with
  | Some _ => true
  | None => false
  end.

(** A text that is not JSON, whatever follows its first character:
    empty or white space only, or beginning, after the white space, with
    a character that no JSON value begins with (as a page of HTML
    does).  [JSON.parse] throws SyntaxError on every such text. *)
Definition not_json (s : string) : bool :=
  match JSON.skip_ws s with
  | EmptyString => true
  | String c _ => negb (value_head c)
  end.

Definition is_array (v : json) : bool :=
  match v with
  | JArr _ => true
  | _ => false
  end.

(** The entry under [key] does not hold an array: it is not JSON, or it
    is JSON for a value that is not an array. *)
Definition not_an_array (key : string) (st : State) : Prop :=
  let entry := or_else (localStorage st !! key) "[]" in
  not_json entry = true
  \/ exists v, JSON.parse entry = Some v /\ is_array v = false.

(** The remote create succeeds: a 2xx response within the bound whose
    body is JSON text for [v]. *)
Definition login_succeeds (o : FetchOutcome) (v : json) : Prop :=
  exists latency res,
    o = Responds latency res /\ latency < 1500 /\ ok res = true
    /\ JSON.parse (text res) = Some v.

(** [m] leaves every key of local storage outside [keys] as it was,
    whatever it returns or throws. *)
Definition writes_within {A} (keys : list string) (m : M A) : Prop :=
  forall st k, ~ In k keys ->
    localStorage (snd (m st)) !! k = localStorage st !! k.

(** The world [base] with another server and network. *)
Definition with_remote (r : string -> RequestInit -> FetchOutcome) (base : Env) : Env :=
  {| remote := r; clock := clock base; Date_parse := Date_parse base |}.

(** The first stored profile whose id is [uid]. *)
Definition profile_of (uid : Z) (us : list User.t) : option User.t :=
  List.find (fun u => User.id u =? uid) us.

(** The row of a stored record in the words of the specification: the
    display fields of its profile (the first one of that id), or the
    placeholders when it has none (with the name the source writes). *)
Definition assembled_row (us : list User.t) (r : ResponseRecord.t) : Row.t :=
  let profile := profile_of (ResponseRecord.user_id r) us in
  let shown (present : User.t -> json) (absent : json) : value :=
    Some match profile with Some u => present u | None => absent end in
  {| Row.user_id := shown (fun u => JNum (User.id u)) (JNum (-1));
     Row.user_name := shown (fun u => JStr (User.name u)) (JStr "Unknown (Local)");
     Row.user_avatar := shown (fun u => JStr (User.avatar u)) (JStr default_avatar);
     Row.user_grade := shown (fun u => JStr (User.grade u)) (JStr EmptyString);
     Row.user_gender := shown (fun u => JStr (User.gender u)) (JStr EmptyString);
     Row.question_id := Some (JNum (ResponseRecord.question_id r));
     Row.score := Some (JNum (ResponseRecord.score r));
     Row.timestamp := Some (JStr (ResponseRecord.timestamp r)) |}.

(** A timestamp that [new Date] takes without throwing: every value but
    an object, or an array, that leads to a member "toString". *)
Definition convertible (v : value) : bool :=
  match v with
  | Some (JArr _ as o) | Some (JObj _ as o) =>
    match Date.ToString o with
    | Returned _ => true
    | Thrown _ => false
    end
  | _ => true
  end.

(** The instant that [new Date] reads in a timestamp; [None] is NaN. *)
Definition instant (env : Env) (v : value) : option Z :=
  match v with
  | None => None
  | Some JNull => Some 0
  | Some (JBool b) => Some (if b then 1 else 0)
  | Some (JNum n) => Date.TimeClip n
  | Some (JStr s) => Date_parse env s
  | Some (JArr _ as o) | Some (JObj _ as o) =>
    match Date.ToString o with
    | Returned s => Date_parse env s
    | Thrown _ => None
    end
  end.

(** The instant of a row, as the sort reads it. *)
Definition row_time (env : Env) (row : Row.t) : option Z :=
  instant env (Row.timestamp row).

(** The number the comparator of the final sort returns for two rows
    whose timestamps are convertible. *)
Definition difference (env : Env) (a b : Row.t) : option Z :=
  match row_time env b, row_time env a with
  | Some tb, Some ta => Some (tb - ta)
  | _, _ => None
  end.

(** The list that [Array.sort] returns when the comparator returns
    [c x y] at every call. *)
Section sorted.
Context {A : Type}.
Variable c : A -> A -> option Z.

Definition goes_first (x y : A) : bool :=
  match c x y with
  | Some v => (v <=? 0)%Z
  | None => true
  end.

Fixpoint inserted (x : A) (l : list A) : list A :=
  match l with
  | [] => [x]
  | y :: tl => if goes_first x y then x :: l else y :: inserted x tl
  end.

Fixpoint sorted (l : list A) : list A :=
  match l with
  | [] => []
  | x :: tl => inserted x (sorted tl)
  end.
End sorted.

Definition defined_time (t : option Z) : bool :=
  match t with
  | Some _ => true
  | None => false
  end.

(** The timestamp of a stored record is one the engine can read. *)
Definition readable (env : Env) (r : ResponseRecord.t) : bool :=
  defined_time (Date_parse env (ResponseRecord.timestamp r)).

(** The row has an instant. *)
Definition timed (env : Env) (a : Row.t) : Prop := row_time env a <> None.

(** [a] is not older than [b]. *)
Definition not_older (env : Env) (a b : Row.t) : Prop :=
  exists ta tb, row_time env a = Some ta /\ row_time env b = Some tb /\ tb <= ta.

(** ** Sample worlds *)

(** No server answers; the clock advances by a millisecond a reading. *)
Definition offline : Env :=
  {| remote := fun _ _ => Hangs;
     clock := fun k => 1700000000000 + Z.of_nat k;
     Date_parse := Date.parse_iso |}.

Definition fresh : State := {| localStorage := ∅; reads := 0 |}.

Definition stored (users responses : string) : State :=
  {| localStorage := <["sel_users" := users]> (<["sel_responses" := responses]> ∅);
     reads := 0 |}.

(** Local storage as the program itself writes it. *)
Definition stored_records (us : list User.t) (rs : list ResponseRecord.t) : State :=
  stored (JSON.stringify (JArr (List.map User.to_json us)))
         (JSON.stringify (JArr (List.map ResponseRecord.to_json rs))).

Definition ann : User.t := User.make 1 "A" "B" "3" "F".

(** A record of a user that has no profile, and three records of [ann],
    the middle one with a timestamp no engine reads. *)
Definition orphan : ResponseRecord.t :=
  ResponseRecord.make 10 999 5 3 "2024-01-01T00:00:00.000Z".
Definition first_answer : ResponseRecord.t :=
  ResponseRecord.make 11 1 1 4 "2024-01-01T00:00:00.000Z".
Definition damaged_answer : ResponseRecord.t :=
  ResponseRecord.make 12 1 2 5 "not a date".
Definition last_answer : ResponseRecord.t :=
  ResponseRecord.make 13 1 3 2 "2024-01-02T00:00:00.000Z".

(** Two stored responses, the first with an object as timestamp that
    has a member "toString". *)
Definition odd_responses : list json :=
  [JObj [("timestamp", JObj [("toString", JNum 1)])]; JObj []].

(** A proxy that answers 200 with a page that is not JSON. *)
Definition garbled_server (url : string) (options : RequestInit) : FetchOutcome :=
  Responds 5 {| status := 200; text := "<html>" |}.


Definition json_is_null (x : json) : bool :=
  match x with
  | JNull => true
  | _ => false
  end.

(** Nothing in [l] is [null]. *)
Definition no_null (l : list json) : Prop := Forall (fun x => x <> JNull) l.

(** ** The callers of the gateway *)

(** The remote attempt succeeds within [timeout] milliseconds: the 2xx
    response it hands to the caller. *)
Definition answer_within (timeout : Z) (o : FetchOutcome) : option Response :=
  match o with
  | Responds latency res => if (latency <? timeout) && ok res then Some res else None
  | _ => None
  end.

(** A run of answers, each submitted after the one before has settled. *)
Fixpoint submit_each (env : Env) (userId : Z) (answers : list (Z * Z)) : M (list json) :=
  match answers with
  | [] => ret []
  | (questionId, score) :: tl =>
    let* ack := submitResponse env userId questionId score in
    let* acks := submit_each env userId tl in
    ret (ack :: acks)
  end.

(** *** String.prototype.trim

    White space and line terminators of the language, in UTF-8: U+0009 to
    U+000D, U+0020, U+00A0, U+1680, U+2000 to U+200A, U+2028, U+2029,
    U+202F, U+205F, U+3000 and U+FEFF. *)
Definition one_byte_space (c : ascii) : bool :=
  let n := N_of_ascii c in
  (((9 <=? n) && (n <=? 13)) || (n =? 32))%N.

Definition e2_80_space (c : ascii) : bool :=
  let n := N_of_ascii c in
  (((128 <=? n) && (n <=? 138)) || (n =? 168) || (n =? 169) || (n =? 175))%N.

Fixpoint trim_start (s : string) : string :=
  match s with
  | EmptyString => s
  | String c r =>
    if one_byte_space c then trim_start r
    else
      match r with
      | String c1 r1 =>
        if Ascii.eqb c "194" && Ascii.eqb c1 "160" then trim_start r1
        else
          match r1 with
          | String c2 r2 =>
            if (Ascii.eqb c "225" && Ascii.eqb c1 "154" && Ascii.eqb c2 "128")
               || (Ascii.eqb c "226" && Ascii.eqb c1 "128" && e2_80_space c2)
               || (Ascii.eqb c "226" && Ascii.eqb c1 "129" && Ascii.eqb c2 "159")
               || (Ascii.eqb c "227" && Ascii.eqb c1 "128" && Ascii.eqb c2 "128")
               || (Ascii.eqb c "239" && Ascii.eqb c1 "187" && Ascii.eqb c2 "191")
            then trim_start r2
            else s
          | EmptyString => s
          end
      | EmptyString => s
      end
  end.

Fixpoint trim_end (s : string) : string :=
  match s with
  | EmptyString => s
  | String c r =>
    match trim_start s with
    | EmptyString => EmptyString
    | String _ _ => String c (trim_end r)
    end
  end.

Definition trim (s : string) : string := trim_end (trim_start s).

(** [!s] of a string. *)
Definition empty (s : string) : bool :=
  match s with
  | EmptyString => true
  | String _ _ => false
  end.

(** The console is not observed. *)
Definition console_error (message : string) : M unit := ret tt.

(** *** components/ProfileSelector.tsx *)

Module ProfileSelector.
Record t := make
  { name : string; grade : string; gender : string; selectedAvatar : string;
    isLoading : bool; error : string }.

Definition setError (message : string) (form : t) : t :=
  make (name form) (grade form) (gender form) (selectedAvatar form) (isLoading form) message.
Definition setIsLoading (b : bool) (form : t) : t :=
  make (name form) (grade form) (gender form) (selectedAvatar form) b (error form).

Definition name_missing : string := "請輸入你的名字喔！ (Please enter your name)".
Definition grade_missing : string := "請選擇你的年級！ (Please select your grade)".
Definition gender_missing : string := "請選擇你的性別！ (Please select your gender)".
Definition error_occurred : string := "發生錯誤，請重試 (Error occurred)".

(** [handleStart]: the form as it is when the handler has settled, and
    the user handed to [onUserCreated], if the handler called it. *)
Definition handleStart (env : Env) (form : t) : M (t * option json) :=
  if empty (trim (name form)) then ret (setError name_missing form, None)
  else if empty (grade form) then ret (setError grade_missing form, None)
  else if empty (gender form) then ret (setError gender_missing form, None)
  else
    let form := setError EmptyString (setIsLoading true form) in
    try_catch
      (let* user := createUser env (name form) (selectedAvatar form) (grade form) (gender form) in
       ret (form, Some user))
      (fun err =>
         let form := setError error_occurred form in
         do console_error "err" in
         ret (setIsLoading false form, None)).
End ProfileSelector.

(** *** components/QuestionCard.tsx *)

Module QuestionCard.
Record t := make { selectedScore : option Z; isSubmitting : bool; imgError : bool }.

(** [handleScoreSelect]: the card as the handler leaves it, and whether
    it has set the timer that calls [onNext].  The submission is not
    awaited; it is run here to its end, which changes nothing the rest
    of the handler reads. *)
Definition handleScoreSelect (env : Env) (userId questionId : Z) (score : Z) (card : t)
  : M (t * bool) :=
  let card := make (Some score) true (imgError card) in
  do try_catch
       (do submitResponse env userId questionId score in ret tt)
       (fun err => console_error "Background save failed") in
  ret (card, true).

(** The [onClick] of an option of the scale:
    [!isSubmitting && handleScoreSelect(option.value)]. *)
Definition onClick (env : Env) (userId questionId : Z) (value : Z) (card : t)
  : M (t * bool) :=
  if negb (isSubmitting card) then handleScoreSelect env userId questionId value card
  else ret (card, false).
End QuestionCard.

(** *** App.tsx *)

Inductive AppState := PROFILE | QUIZ | COMPLETED | ADMIN.

Definition AppState_eqb (a b : AppState) : bool :=
  match a, b with
  | PROFILE, PROFILE | QUIZ, QUIZ | COMPLETED, COMPLETED | ADMIN, ADMIN => true
  | _, _ => false
  end.

Module App.
Record t := make
  { appState : AppState; currentUser : option json; currentQuestionIndex : Z }.

Definition setAppState (a : AppState) (app : t) : t :=
  make a (currentUser app) (currentQuestionIndex app).
Definition setCurrentUser (u : option json) (app : t) : t :=
  make (appState app) u (currentQuestionIndex app).
Definition setCurrentQuestionIndex (f : Z -> Z) (app : t) : t :=
  make (appState app) (currentUser app) (f (currentQuestionIndex app)).

Section App.
(** The questions of constants.ts, which is not among the sources. *)
Context {Question : Type}.
Variable QUESTIONS : list Question.

Definition length_of : Z := Z.of_nat (length QUESTIONS).

(** [QUESTIONS[i]]. *)
Definition question_at (i : Z) : option Question :=
  if i <? 0 then None else nth_error QUESTIONS (Z.to_nat i).

Definition initial : t := make PROFILE None 0.

Definition handleUserCreated (user : json) (app : t) : t :=
  setAppState QUIZ (setCurrentUser (Some user) app).

(** [seen] is the [currentQuestionIndex] of the render the handler was
    made in; the update is applied to the index of the moment. *)
Definition handleNextQuestion (seen : Z) (app : t) : t :=
  if seen <? length_of - 1 then setCurrentQuestionIndex (fun prev => prev + 1) app
  else setAppState COMPLETED app.

Definition resetApp (app : t) : t :=
  setCurrentQuestionIndex (fun _ => 0) (setCurrentUser None (setAppState PROFILE app)).

(** [seen] is the [appState] of the render the handler was made in. *)
Definition handleHashChange (seen : AppState) (hash : string) (app : t) : t :=
  if String.eqb hash "#admin" then setAppState ADMIN app
  else if AppState_eqb seen ADMIN then setAppState PROFILE app
  else app.

(** The effect on [appState]: after a render in which [appState] is not
    what it was ([before]), [handleHashChange] is made anew and called,
    and so on until [appState] stays. *)
Definition effect (hash : string) (before : AppState) (app : t) : t :=
  if AppState_eqb (appState app) before then app
  else
    let app1 := handleHashChange (appState app) hash app in
    if AppState_eqb (appState app1) (appState app) then app1
    else handleHashChange (appState app1) hash app1.

Inductive View :=
| AdminPanel
| CompletedScreen
| QuestionCardView (question : option Question) (userId : value) (progress total : Z)
| ProfileSelectorView.

(** The render logic. *)
Definition render (app : t) : View :=
  match appState app with
  | ADMIN => AdminPanel
  | COMPLETED => CompletedScreen
  | a =>
    match a, currentUser app with
    | QUIZ, Some user =>
      if truthy (Some user)
      then QuestionCardView (question_at (currentQuestionIndex app)) (field "id" user)
                            (currentQuestionIndex app + 1) length_of
      else ProfileSelectorView
    | _, _ => ProfileSelectorView
    end
  end.

(** The page: the component and [window.location.hash]. *)
Record Page := { app : t; hash : string }.

(** Mounting runs the effect once. *)
Definition mount (hash : string) : Page :=
  {| app := let app1 := handleHashChange PROFILE hash initial in
            effect hash PROFILE app1;
     hash := hash |}.

Inductive Event :=
| UserCreated (user : json)
| NextQuestion
| Reset
| HashChange (hash : string).

(** An event reaches the handlers of the latest render. *)
Definition deliver (e : Event) (page : Page) : Page :=
  let now := app page in
  match e with
  | UserCreated user =>
    {| app := effect (hash page) (appState now) (handleUserCreated user now);
       hash := hash page |}
  | NextQuestion =>
    {| app := effect (hash page) (appState now)
                (handleNextQuestion (currentQuestionIndex now) now);
       hash := hash page |}
  | Reset =>
    {| app := effect (hash page) (appState now) (resetApp now); hash := hash page |}
  | HashChange h =>
    {| app := effect h (appState now) (handleHashChange (appState now) h now);
       hash := h |}
  end.

Definition run (events : list Event) (page : Page) : Page :=
  fold_left (fun p e => deliver e p) events page.
End App.

Definition admin_hash (h : string) : bool := String.eqb h "#admin".

(** The state is ADMIN exactly when the hash is "#admin". *)
Definition settled (page : Page) : Prop :=
  AppState_eqb (appState (app page)) ADMIN = admin_hash (hash page).

(** The quiz at its question number [i + 1]. *)
Definition quiz (user : json) (i : Z) (h : string) : Page :=
  {| app := make QUIZ (Some user) i; hash := h |}.
End App.


(** * Facts *)

(** ** Strings *)

Lemma append_cons (x : ascii) (a b : string) : String x a +:+ b = String x (a +:+ b).
Proof. reflexivity. Qed.

Lemma append_nil (b : string) : EmptyString +:+ b = b.
Proof. reflexivity. Qed.

Lemma append_assoc (a b c : string) : (a +:+ b) +:+ c = a +:+ (b +:+ c).
Proof.
  induction a as [|x a IH]; [reflexivity|].
  rewrite !append_cons. f_equal. exact IH.
Qed.

Lemma append_nil_r (a : string) : a +:+ EmptyString = a.
Proof.
  induction a as [|x a IH]; [reflexivity|].
  rewrite append_cons. f_equal. exact IH.
Qed.

Lemma length_append (a b : string) :
  String.length (a +:+ b) = (String.length a + String.length b)%nat.
Proof.
  induction a as [|x a IH]; [reflexivity|].
  rewrite append_cons. simpl. f_equal. exact IH.
Qed.

(** ** The platform on known values *)

Example toISOString_epoch : Date.toISOString 0 = "1970-01-01T00:00:00.000Z".
Proof. reflexivity. Qed.

Example toISOString_leap_day : Date.toISOString 951782400000 = "2000-02-29T00:00:00.000Z".
Proof. reflexivity. Qed.

Example toISOString_before_epoch : Date.toISOString (-1) = "1969-12-31T23:59:59.999Z".
Proof. reflexivity. Qed.

Example toISOString_year_10000 :
  Date.toISOString 253402300800000 = "+010000-01-01T00:00:00.000Z".
Proof. reflexivity. Qed.

Example parse_iso_toISOString :
  Date.parse_iso (Date.toISOString 1700000000123) = Some 1700000000123.
Proof. reflexivity. Qed.

Example stringify_nested :
  JSON.stringify (JArr [JNum 1; JNull; JBool true; JArr []; JObj []; JNum (-12)])
  = "[1,null,true,[],{},-12]".
Proof. reflexivity. Qed.

Example parse_with_spaces :
  JSON.parse " [ 1 , { } , [ ] , true , null , -0 ] "
  = Some (JArr [JNum 1; JObj []; JArr []; JBool true; JNull; JNum 0]).
Proof. reflexivity. Qed.

Example parse_leading_zero : JSON.parse "[01]" = None.
Proof. reflexivity. Qed.

Example parse_trailing_comma : JSON.parse "[1,]" = None.
Proof. reflexivity. Qed.

Example parse_quote_backslashes :
  JSON.parse (JSON.quote "\ud83d\ude42" )
  = Some (JStr "\ud83d\ude42").
Proof. reflexivity. Qed.

Example parse_escaped_pair :
  JSON.parse (String dquote ("\ud83d\ude42" +:+ String dquote EmptyString))
  = Some (JStr (String "240" (String "159" (String "153" (String "130" EmptyString))))).
Proof. reflexivity. Qed.

(** ** JSON.parse after JSON.stringify *)

Lemma parse_chars_escape_char (c : ascii) (t : string) :
  JSON.parse_chars (JSON.escape_char c +:+ t)
  = JSON.prepend (String c EmptyString) (JSON.parse_chars t).
Proof. destruct c as [[] [] [] [] [] [] [] []]; reflexivity. Qed.

Lemma parse_chars_escape (s rest : string) :
  JSON.parse_chars (JSON.escape s +:+ String dquote rest) = Some (s, rest).
Proof.
  induction s as [|c s IH]; [reflexivity|].
  change (JSON.escape (String c s)) with (JSON.escape_char c +:+ JSON.escape s).
  rewrite append_assoc, parse_chars_escape_char, IH. reflexivity.
Qed.

Lemma digits_string_of_uint (u : uint) (rest : string) :
  JSON.ends_number rest = true ->
  JSON.digits (NilEmpty.string_of_uint u +:+ rest) = (u, rest).
Proof.
  intros Hrest.
  induction u as [|u IH|u IH|u IH|u IH|u IH|u IH|u IH|u IH|u IH|u IH];
    try (cbn [NilEmpty.string_of_uint]; rewrite append_cons;
         cbn [JSON.digits]; rewrite IH; reflexivity).
  cbn [NilEmpty.string_of_uint]. rewrite append_nil.
  destruct rest as [|c r]; [reflexivity|].
  cbn [JSON.digits]. unfold JSON.ends_number in Hrest.
  destruct (JSON.digit_of c); [discriminate | reflexivity].
Qed.

Lemma int_literal_normal (u : uint) : unorm u = u -> JSON.int_literal u = true.
Proof.
  intros Hu. destruct u as [|u|u|u|u|u|u|u|u|u|u]; try reflexivity.
  - discriminate Hu.
  - destruct u as [|u|u|u|u|u|u|u|u|u|u]; try reflexivity;
      exfalso; rewrite unorm_D0 in Hu;
      match type of Hu with
      | unorm ?d = _ =>
        assert (Hd : d <> Nil) by discriminate;
        pose proof (nb_digits_unorm d Hd) as Hle;
        rewrite Hu in Hle; cbn [nb_digits] in Hle; lia
      end.
Qed.

Lemma int_literal_to_uint (p : positive) : JSON.int_literal (Pos.to_uint p) = true.
Proof.
  apply int_literal_normal.
  rewrite <- (DecimalPos.Unsigned.to_of (Pos.to_uint p)).
  rewrite DecimalPos.Unsigned.of_to. reflexivity.
Qed.

Lemma ends_number_no_fraction (rest : string) :
  JSON.ends_number rest = true -> JSON.starts_fraction_or_exponent rest = false.
Proof.
  destruct rest as [|c r]; [reflexivity|]. unfold JSON.ends_number.
  destruct (JSON.digit_of c); [discriminate|]. now destruct (JSON.starts_fraction_or_exponent _).
Qed.

(** The text of a literal [u] starts with a digit. *)
Lemma string_of_uint_head (u : uint) :
  u <> Nil ->
  exists c r d, NilEmpty.string_of_uint u = String c r /\ JSON.digit_of c = Some d.
Proof.
  destruct u; [congruence | ..]; intros _; cbn [NilEmpty.string_of_uint]; eauto.
Qed.

Lemma parse_number_unsigned (u : uint) (rest : string) :
  JSON.int_literal u = true -> JSON.ends_number rest = true ->
  JSON.parse_number (NilEmpty.string_of_uint u +:+ rest)
  = Some (JNum (Z.of_N (N.of_uint u)), rest).
Proof.
  intros Hu Hrest. unfold JSON.parse_number.
  assert (Hnil : u <> Nil) by (intros ->; discriminate).
  destruct (string_of_uint_head u Hnil) as (c & r & d & Htext & Hc).
  pose proof (digits_string_of_uint u rest Hrest) as Hd.
  rewrite Htext in *. rewrite append_cons in *.
  assert (Hminus : Ascii.eqb c "-" = false).
  { destruct (Ascii.eqb_spec c "-"); [subst c; discriminate | reflexivity]. }
  rewrite Hminus, Hd, Hu, (ends_number_no_fraction _ Hrest). reflexivity.
Qed.

Lemma parse_number_negative (u : uint) (rest : string) :
  JSON.int_literal u = true -> JSON.ends_number rest = true ->
  JSON.parse_number (String "-" (NilEmpty.string_of_uint u) +:+ rest)
  = Some (JNum (- Z.of_N (N.of_uint u)), rest).
Proof.
  intros Hu Hrest. unfold JSON.parse_number. rewrite append_cons.
  change (Ascii.eqb "-" "-") with true. cbv iota beta.
  rewrite (digits_string_of_uint u rest Hrest), Hu, (ends_number_no_fraction _ Hrest).
  reflexivity.
Qed.

Lemma parse_number_text (n : Z) (rest : string) :
  JSON.ends_number rest = true ->
  JSON.parse_number (JSON.number_text n +:+ rest) = Some (JNum n, rest).
Proof.
  intros Hrest. destruct n as [|p|p]; unfold JSON.number_text.
  - apply (parse_number_unsigned (D0 Nil) rest eq_refl Hrest).
  - rewrite (parse_number_unsigned _ rest (int_literal_to_uint p) Hrest).
    unfold N.of_uint. rewrite DecimalPos.Unsigned.of_to. reflexivity.
  - rewrite (parse_number_negative _ rest (int_literal_to_uint p) Hrest).
    unfold N.of_uint. rewrite DecimalPos.Unsigned.of_to. reflexivity.
Qed.

Lemma skip_ws_head (c : ascii) (r : string) :
  value_head c = true -> JSON.skip_ws (String c r) = String c r.
Proof. destruct c as [[] [] [] [] [] [] [] []]; try discriminate; reflexivity. Qed.

Lemma take_char_head (d c : ascii) (r : string) :
  value_head c = true -> value_head d = false -> take_char d (String c r) = None.
Proof.
  intros Hc Hd. unfold take_char.
  destruct (Ascii.eqb_spec d c); [subst; congruence | reflexivity].
Qed.

Lemma number_text_head (n : Z) :
  exists c r, JSON.number_text n = String c r
              /\ (c = "-"%char \/ exists d, JSON.digit_of c = Some d).
Proof.
  destruct n as [|p|p]; unfold JSON.number_text.
  - exists "0"%char, EmptyString. split; [reflexivity | right; eexists; reflexivity].
  - destruct (string_of_uint_head (Pos.to_uint p)) as (c & r & d & -> & Hd).
    { apply DecimalPos.Unsigned.to_uint_nonnil. }
    exists c, r. eauto.
  - eexists _, _. split; [reflexivity | now left].
Qed.

Lemma parse_value_number (fuel : nat) (c : ascii) (r : string) :
  (c = "-"%char \/ exists d, JSON.digit_of c = Some d) ->
  JSON.parse_value (S fuel) (String c r) = JSON.parse_number (String c r).
Proof.
  intros [-> | [d Hd]]; [reflexivity|].
  destruct c as [[] [] [] [] [] [] [] []]; try discriminate Hd; reflexivity.
Qed.

Lemma parse_value_string (fuel : nat) (r : string) :
  JSON.parse_value (S fuel) (String dquote r)
  = match JSON.parse_chars r with
    | Some (str, rest) => Some (JStr str, rest)
    | None => None
    end.
Proof. reflexivity. Qed.

Lemma parse_value_array (fuel : nat) (r : string) :
  JSON.parse_value (S fuel) (String "[" r)
  = match take_char "]" (JSON.skip_ws r) with
    | Some rest => Some (JArr [], rest)
    | None =>
      match JSON.parse_elements fuel r with
      | Some (l, rest) => Some (JArr l, rest)
      | None => None
      end
    end.
Proof. reflexivity. Qed.

Lemma parse_value_object (fuel : nat) (r : string) :
  JSON.parse_value (S fuel) (String "{" r)
  = match take_char "}" (JSON.skip_ws r) with
    | Some rest => Some (JObj [], rest)
    | None =>
      match JSON.parse_members fuel r with
      | Some (l, rest) => Some (JObj l, rest)
      | None => None
      end
    end.
Proof. reflexivity. Qed.

Lemma stringify_head (v : json) :
  exists c r, JSON.stringify v = String c r /\ value_head c = true.
Proof.
  destruct v as [|[]|n|s|l|l]; try (eexists _, _; split; reflexivity).
  destruct (number_text_head n) as (c & r & Hn & Hc).
  exists c, r. split; [exact Hn|].
  destruct Hc as [-> | [d Hd]]; [reflexivity|]. unfold value_head. now rewrite Hd.
Qed.

Lemma elements_text_head (l : list json) (rest : string) :
  l <> [] ->
  exists c r, JSON.elements_text JSON.stringify l +:+ rest = String c r
              /\ value_head c = true.
Proof.
  destruct l as [|x tl]; [congruence|]. intros _.
  destruct (stringify_head x) as (c & r & Hx & Hc).
  destruct tl; cbn [JSON.elements_text]; rewrite Hx, !append_cons; eauto.
Qed.

Lemma parse_elements_text (l : list json) :
  Forall reads_back l -> l <> [] ->
  forall fuel rest,
    (list_sum (List.map (fun x => S (JSON.size x)) l) <= fuel)%nat ->
    JSON.parse_elements fuel (JSON.elements_text JSON.stringify l +:+ rest)
    = Some (l, rest).
Proof.
  induction 1 as [|x tl Hx Htl IH]; [congruence|]. intros _ fuel rest Hfuel.
  simpl in Hfuel.
  destruct fuel as [|fuel]; [lia|].
  cbn [JSON.parse_elements].
  destruct tl as [|y tl'].
  - cbn [JSON.elements_text]. rewrite append_assoc.
    rewrite (Hx fuel ("]" +:+ rest)); [reflexivity | lia | reflexivity].
  - change (JSON.elements_text JSON.stringify (x :: y :: tl'))
      with (JSON.stringify x +:+ "," +:+ JSON.elements_text JSON.stringify (y :: tl')).
    rewrite !append_assoc.
    rewrite (Hx fuel); [| lia | reflexivity].
    change (take_char "," (JSON.skip_ws ("," +:+ JSON.elements_text JSON.stringify (y :: tl') +:+ rest)))
      with (Some (JSON.elements_text JSON.stringify (y :: tl') +:+ rest)).
    cbv iota beta.
    rewrite IH; [reflexivity | congruence | lia].
Qed.

Lemma parse_members_text (l : list (string * json)) :
  Forall (fun kv => reads_back (snd kv)) l -> l <> [] ->
  forall fuel rest,
    (list_sum (List.map (fun kv => S (JSON.size (snd kv))) l) <= fuel)%nat ->
    JSON.parse_members fuel (JSON.members_text JSON.stringify l +:+ rest)
    = Some (l, rest).
Proof.
  induction 1 as [|[k x] tl Hx Htl IH]; [congruence|]. intros _ fuel rest Hfuel.
  simpl in Hfuel, Hx.
  destruct fuel as [|fuel]; [lia|].
  cbn [JSON.parse_members].
  destruct tl as [|y tl'].
  - change (JSON.members_text JSON.stringify [(k, x)] +:+ rest)
      with (String dquote ((JSON.escape k +:+ String dquote EmptyString)
              +:+ ":" +:+ JSON.stringify x +:+ "}") +:+ rest).
    rewrite append_cons, !append_assoc.
    change (take_char dquote (JSON.skip_ws (String dquote ?t))) with (Some t).
    cbv iota beta.
    change (String dquote EmptyString +:+ ?t) with (String dquote t).
    rewrite parse_chars_escape.
    change (take_char ":" (JSON.skip_ws (":" +:+ ?t))) with (Some t).
    cbv iota beta.
    rewrite (Hx fuel ("}" +:+ rest)); [reflexivity | lia | reflexivity].
  - change (JSON.members_text JSON.stringify ((k, x) :: y :: tl') +:+ rest)
      with (String dquote ((JSON.escape k +:+ String dquote EmptyString)
              +:+ ":" +:+ JSON.stringify x +:+ ","
              +:+ JSON.members_text JSON.stringify (y :: tl')) +:+ rest).
    rewrite append_cons, !append_assoc.
    change (take_char dquote (JSON.skip_ws (String dquote ?t))) with (Some t).
    cbv iota beta.
    change (String dquote EmptyString +:+ ?t) with (String dquote t).
    rewrite parse_chars_escape.
    change (take_char ":" (JSON.skip_ws (":" +:+ ?t))) with (Some t).
    cbv iota beta.
    rewrite (Hx fuel); [| lia | reflexivity].
    change (take_char "," (JSON.skip_ws ("," +:+ ?t))) with (Some t).
    cbv iota beta.
    rewrite IH; [reflexivity | congruence | lia].
Qed.

Lemma parse_value_stringify (v : json) : reads_back v.
Proof.
  induction v as [|b|n|s|l IH|l IH] using json_nested_ind;
    intros fuel rest Hfuel Hrest;
    (destruct fuel as [|fuel]; [simpl in Hfuel; lia|]).
  - reflexivity.
  - destruct b; reflexivity.
  - destruct (number_text_head n) as (c & r & Hn & Hc).
    pose proof (parse_number_text n rest Hrest) as Hparse.
    change (JSON.stringify (JNum n)) with (JSON.number_text n).
    rewrite Hn, append_cons in *.
    rewrite (parse_value_number _ _ _ Hc). exact Hparse.
  - change (JSON.stringify (JStr s) +:+ rest)
      with (String dquote ((JSON.escape s +:+ String dquote EmptyString) +:+ rest)).
    rewrite parse_value_string, append_assoc.
    change (String dquote EmptyString +:+ rest) with (String dquote rest).
    rewrite parse_chars_escape. reflexivity.
  - change (JSON.stringify (JArr l) +:+ rest)
      with (String "[" (JSON.elements_text JSON.stringify l +:+ rest)).
    rewrite parse_value_array.
    destruct l as [|x tl]; [reflexivity|].
    destruct (elements_text_head (x :: tl) rest) as (c & r & Htext & Hc); [congruence|].
    rewrite Htext, (skip_ws_head _ _ Hc), (take_char_head "]" _ _ Hc eq_refl), <- Htext.
    rewrite (parse_elements_text _ IH); [reflexivity | congruence |].
    simpl in Hfuel |- *. lia.
  - change (JSON.stringify (JObj l) +:+ rest)
      with (String "{" (JSON.members_text JSON.stringify l +:+ rest)).
    rewrite parse_value_object.
    destruct l as [|[k x] tl]; [reflexivity|].
    assert (Hhead : exists r,
               JSON.members_text JSON.stringify ((k, x) :: tl) +:+ rest = String dquote r).
    { destruct tl; eexists; reflexivity. }
    destruct Hhead as [r Htext].
    rewrite Htext.
    change (take_char "}" (JSON.skip_ws (String dquote r))) with (@None string).
    cbv iota beta. rewrite <- Htext.
    rewrite (parse_members_text _ IH); [reflexivity | congruence |].
    simpl in Hfuel |- *. lia.
Qed.
Lemma size_le_length (v : json) : (JSON.size v <= String.length (JSON.stringify v))%nat.
Proof.
  induction v as [|b|n|s|l IH|l IH] using json_nested_ind.
  - simpl. lia.
  - destruct b; simpl; lia.
  - destruct (number_text_head n) as (c & r & Hn & _).
    cbn [JSON.stringify JSON.size]. rewrite Hn. simpl. lia.
  - simpl. lia.
  - cbn [JSON.stringify JSON.size String.length]. apply le_n_S.
    induction IH as [|x tl Hx Htl IHl]; [simpl; lia|].
    cbn [List.map list_sum JSON.elements_text].
    destruct tl as [|y tl'].
    + rewrite length_append. simpl in *. lia.
    + rewrite !length_append. simpl in *. lia.
  - cbn [JSON.stringify JSON.size String.length]. apply le_n_S.
    induction IH as [|[k x] tl Hx Htl IHl]; [simpl; lia|].
    cbn [List.map list_sum JSON.members_text].
    destruct tl as [|y tl'].
    + rewrite !length_append. simpl in *. lia.
    + rewrite !length_append. simpl in *. lia.
Qed.

(** What [JSON.stringify] writes, [JSON.parse] reads back. *)
Lemma parse_stringify (v : json) : JSON.parse (JSON.stringify v) = Some v.
Proof.
  unfold JSON.parse.
  rewrite <- (append_nil_r (JSON.stringify v)) at 2.
  rewrite parse_value_stringify; [reflexivity | | reflexivity].
  pose proof (size_le_length v). lia.
Qed.

(** ** The remote attempt *)

Lemma fetch_failed (env : Env) (url : string) (options : RequestInit) (timeout : Z)
      (st : State) :
  remote_failed timeout (remote env url options) = true ->
  (exists e, fetchWithTimeout env url options timeout st = (Thrown e, st))
  \/ (exists res, fetchWithTimeout env url options timeout st = (Returned res, st)
                  /\ ok res = false).
Proof.
  unfold remote_failed, fetchWithTimeout.
  destruct (remote env url options) as [latency res | latency |]; intros H.
  - destruct (Z.ltb_spec latency timeout) as [Hlt | Hge].
    + right. exists res. split; [reflexivity|].
      apply orb_true_iff in H as [H | H]; [apply Z.leb_le in H; lia|].
      now apply negb_true_iff in H.
    + left. eexists. reflexivity.
  - left. destruct (latency <? timeout); eexists; reflexivity.
  - left. eexists. reflexivity.
Qed.

Lemma collection_after_write (key : string) (st : State) (l : list json) :
  collection key
    {| localStorage := <[key := JSON.stringify (JArr l)]> (localStorage st);
       reads := reads st |} l.
Proof.
  unfold collection. cbn [localStorage]. rewrite lookup_insert_eq.
  change (JSON.stringify (JArr l)) with (String "[" (JSON.elements_text JSON.stringify l)).
  cbn [or_else].
  apply (parse_stringify (JArr l)).
Qed.

Lemma createUser_try_fails (env : Env) (name avatar grade gender : string) (st : State) :
  remote_failed 1500 (login_outcome env name avatar grade gender) = true ->
  exists e, createUser_try env name avatar grade gender st = (Thrown e, st).
Proof.
  intros Hfail. unfold createUser_try, bind.
  destruct (fetch_failed env _ _ 1500 st Hfail) as [[e He] | [res [He Hok]]];
    rewrite He; [|rewrite Hok]; eexists; reflexivity.
Qed.

Lemma createUser_catch_stored (env : Env) (name avatar grade gender : string)
      (error : exn) (st : State) (l : list json) :
  collection "sel_users" st l ->
  let newUser := User.to_json (User.make (clock env (reads st)) name avatar grade gender) in
  createUser_catch env name avatar grade gender error st
  = (Returned (Returned newUser),
     {| localStorage :=
          <["sel_users" := JSON.stringify (JArr (l ++ [newUser]))]> (localStorage st);
        reads := S (reads st) |}).
Proof.
  intros Hstored newUser.
  unfold createUser_catch, bind, console_warn, ret, Storage.getItem, JSON_parse.
  unfold collection in Hstored. rewrite Hstored. reflexivity.
Qed.

Lemma createUser_fallback (env : Env) (name avatar grade gender : string)
      (st : State) (l : list json) :
  remote_failed 1500 (login_outcome env name avatar grade gender) = true ->
  collection "sel_users" st l ->
  let newUser := User.to_json (User.make (clock env (reads st)) name avatar grade gender) in
  createUser env name avatar grade gender st
  = (Returned newUser,
     {| localStorage :=
          <["sel_users" := JSON.stringify (JArr (l ++ [newUser]))]> (localStorage st);
        reads := S (reads st) |}).
Proof.
  intros Hfail Hstored newUser.
  destruct (createUser_try_fails env name avatar grade gender st Hfail) as [e He].
  unfold createUser, bind, try_catch. rewrite He.
  rewrite (createUser_catch_stored env name avatar grade gender e st l Hstored).
  reflexivity.
Qed.

Lemma createUser_succeeds (env : Env) (name avatar grade gender : string)
      (st : State) (v : json) :
  login_succeeds (login_outcome env name avatar grade gender) v ->
  createUser env name avatar grade gender st = (Returned v, st).
Proof.
  intros (latency & res & Ho & Hlat & Hok & Hbody).
  unfold login_outcome in Ho.
  unfold createUser, bind, try_catch, createUser_try, bind, fetchWithTimeout.
  rewrite Ho. apply Z.ltb_lt in Hlat. rewrite Hlat. unfold ret. rewrite Hok.
  cbn [negb]. unfold await, Response_json. rewrite Hbody. reflexivity.
Qed.

(** ** createUser *)

(** C3, as the code has it.  Whenever the remote create fails or
    exceeds its bound of 1500 ms, and the stored users are a JSON array
    [l] (the empty one when the entry is absent or empty), [createUser]
    returns a profile whose id is the reading of the clock in that call
    and whose name, avatar, grade and gender are the arguments, and the
    collection read from local storage afterwards is [l] followed by
    that same profile. *)
Theorem createUser_fallback_persists (env : Env) (name avatar grade gender : string)
        (st : State) (l : list json) :
  remote_failed 1500 (login_outcome env name avatar grade gender) = true ->
  collection "sel_users" st l ->
  exists profile st',
    createUser env name avatar grade gender st = (Returned profile, st')
    /\ field "id" profile = Some (JNum (clock env (reads st)))
    /\ field "name" profile = Some (JStr name)
    /\ field "avatar" profile = Some (JStr avatar)
    /\ field "grade" profile = Some (JStr grade)
    /\ field "gender" profile = Some (JStr gender)
    /\ collection "sel_users" st' (l ++ [profile]).
Proof.
  intros Hfail Hstored. eexists _, _. split.
  - apply (createUser_fallback env name avatar grade gender st l Hfail Hstored).
  - repeat (split; [reflexivity|]). apply collection_after_write.
Qed.

Lemma createUser_fallback_persists_witness :
  exists profile st',
    createUser offline "Ann" "A" "3" "F" (stored "[7]" "[]") = (Returned profile, st')
    /\ field "id" profile = Some (JNum 1700000000000)
    /\ field "name" profile = Some (JStr "Ann")
    /\ field "avatar" profile = Some (JStr "A")
    /\ field "grade" profile = Some (JStr "3")
    /\ field "gender" profile = Some (JStr "F")
    /\ collection "sel_users" st' ([JNum 7] ++ [profile]).
Proof.
  apply (createUser_fallback_persists offline "Ann" "A" "3" "F" (stored "[7]" "[]")
           [JNum 7]); reflexivity.
Defined.

(** C3, as stated, fails: with the remote unreachable and an entry
    "sel_users" that holds JSON but no array, [users.push] throws
    TypeError to the caller; no profile is returned and none is
    stored. *)
Lemma createUser_fallback_stores_nothing_in_an_object :
  exists st',
    createUser offline "Ann" "A" "3" "F" (stored "{}" "[]") = (Thrown TypeError, st')
    /\ localStorage st' = localStorage (stored "{}" "[]").
Proof. eexists. split; reflexivity. Qed.

(** C2, as the code has it.  [createUser] returns a profile with a
    defined id, and throws nothing, whenever the remote create succeeds
    within its bound with a body that carries an id, or the remote attempt
    fails (abort, network error, status outside 2xx) and the entry
    "sel_users" is absent, empty or a JSON array. *)
Theorem createUser_returns_profile (env : Env) (name avatar grade gender : string)
        (st : State) :
  (exists v, login_succeeds (login_outcome env name avatar grade gender) v
             /\ defined (field "id" v) = true)
  \/ (remote_failed 1500 (login_outcome env name avatar grade gender) = true
      /\ exists l, collection "sel_users" st l) ->
  exists v st',
    createUser env name avatar grade gender st = (Returned v, st')
    /\ defined (field "id" v) = true.
Proof.
  intros [(v & Hv & Hid) | (Hfail & l & Hstored)].
  - exists v, st. split; [now apply createUser_succeeds | exact Hid].
  - eexists _, _. split.
    + apply (createUser_fallback env name avatar grade gender st l Hfail Hstored).
    + reflexivity.
Qed.

Lemma createUser_returns_profile_witness :
  exists v st',
    createUser offline "Ann" "A" "3" "F" fresh = (Returned v, st')
    /\ defined (field "id" v) = true.
Proof.
  apply (createUser_returns_profile offline "Ann" "A" "3" "F" fresh).
  right. split; [reflexivity|]. exists []. reflexivity.
Defined.

(** C2, as stated, fails: with the remote unreachable and an entry
    "sel_users" that is not JSON, [createUser] throws the SyntaxError of
    [JSON.parse] to its caller. *)
Lemma createUser_throws_on_unreadable_storage :
  fst (createUser offline "Ann" "A" "3" "F" (stored "{not json" "[]"))
  = Thrown SyntaxError.
Proof. vm_compute. reflexivity. Qed.

(** ** submitResponse *)

Lemma submitResponse_try_fails (env : Env) (userId questionId score : Z) (st : State) :
  remote_failed 800 (response_outcome env userId questionId score) = true ->
  exists e, submitResponse_try env userId questionId score st = (Thrown e, st).
Proof.
  intros Hfail. unfold submitResponse_try, bind.
  destruct (fetch_failed env _ _ 800 st Hfail) as [[e He] | [res [He Hok]]];
    rewrite He; [|rewrite Hok]; eexists; reflexivity.
Qed.

Lemma submitResponse_fallback (env : Env) (userId questionId score : Z)
      (st : State) (l : list json) :
  remote_failed 800 (response_outcome env userId questionId score) = true ->
  collection "sel_responses" st l ->
  let record :=
    ResponseRecord.make (clock env (reads st)) userId questionId score
      (Date.toISOString (clock env (S (reads st)))) in
  submitResponse env userId questionId score st
  = (Returned (JObj [("id", JNum (clock env (S (S (reads st)))));
                     ("status", JStr "saved_local")]),
     {| localStorage :=
          <["sel_responses" := JSON.stringify (JArr (l ++ [ResponseRecord.to_json record]))]>
            (localStorage st);
        reads := S (S (S (reads st))) |}).
Proof.
  intros Hfail Hstored record.
  destruct (submitResponse_try_fails env userId questionId score st Hfail) as [e He].
  unfold submitResponse, bind, try_catch. rewrite He.
  unfold submitResponse_catch, bind, ret, Storage.getItem, JSON_parse.
  unfold collection in Hstored. rewrite Hstored. reflexivity.
Qed.

(** C4, as the code has it.  For every call made while the remote is
    unavailable, when the stored responses are a JSON array [l] (the
    empty one when the entry is absent or empty), the call returns an
    acknowledgement whose status is "saved_local", and afterwards the
    collection under "sel_responses" is [l] followed by a record whose
    user_id, question_id and score are the arguments of the call. *)
Theorem submitResponse_fallback_persists (env : Env) (userId questionId score : Z)
        (st : State) (l : list json) :
  remote_failed 800 (response_outcome env userId questionId score) = true ->
  collection "sel_responses" st l ->
  exists ack record st',
    submitResponse env userId questionId score st = (Returned ack, st')
    /\ field "status" ack = Some (JStr "saved_local")
    /\ collection "sel_responses" st' (l ++ [record])
    /\ field "user_id" record = Some (JNum userId)
    /\ field "question_id" record = Some (JNum questionId)
    /\ field "score" record = Some (JNum score).
Proof.
  intros Hfail Hstored. eexists _, _, _. split.
  - apply (submitResponse_fallback env userId questionId score st l Hfail Hstored).
  - split; [reflexivity|]. split; [apply collection_after_write|].
    repeat split.
Qed.

Lemma submitResponse_fallback_persists_witness :
  exists ack record st',
    submitResponse offline 1700000000000 5 3 (stored "[]" "[7]") = (Returned ack, st')
    /\ field "status" ack = Some (JStr "saved_local")
    /\ collection "sel_responses" st' ([JNum 7] ++ [record])
    /\ field "user_id" record = Some (JNum 1700000000000)
    /\ field "question_id" record = Some (JNum 5)
    /\ field "score" record = Some (JNum 3).
Proof.
  apply (submitResponse_fallback_persists offline 1700000000000 5 3 (stored "[]" "[7]")
           [JNum 7]); reflexivity.
Defined.

(** C4, as stated, fails: with the remote unreachable and an entry
    "sel_responses" that holds [null], [responses.push] throws TypeError
    to the caller; nothing is acknowledged and the answer is stored
    nowhere. *)
Lemma submitResponse_fallback_stores_nothing_in_null :
  submitResponse offline 7 5 3 (stored "[]" "null")
  = (Thrown TypeError, stored "[]" "null").
Proof. reflexivity. Qed.

(** C10.  In the fallback of [submitResponse] the id of the record that
    is stored is the first clock reading of the call and the id of the
    acknowledgement is the third: whenever the clock has moved between
    the two, the id returned is not the id of the record that was
    stored. *)
Theorem submitResponse_acknowledges_another_id (env : Env) (userId questionId score : Z)
        (st : State) (l : list json) :
  remote_failed 800 (response_outcome env userId questionId score) = true ->
  collection "sel_responses" st l ->
  clock env (S (S (reads st))) <> clock env (reads st) ->
  exists ack record st',
    submitResponse env userId questionId score st = (Returned ack, st')
    /\ collection "sel_responses" st' (l ++ [record])
    /\ field "id" record = Some (JNum (clock env (reads st)))
    /\ field "id" ack = Some (JNum (clock env (S (S (reads st)))))
    /\ field "id" ack <> field "id" record.
Proof.
  intros Hfail Hstored Hclock. eexists _, _, _. split.
  - apply (submitResponse_fallback env userId questionId score st l Hfail Hstored).
  - split; [apply collection_after_write|]. split; [reflexivity|].
    split; [reflexivity|]. cbn. congruence.
Qed.

Lemma submitResponse_acknowledges_another_id_witness :
  exists ack record st',
    submitResponse offline 7 5 3 fresh = (Returned ack, st')
    /\ collection "sel_responses" st' ([] ++ [record])
    /\ field "id" record = Some (JNum 1700000000000)
    /\ field "id" ack = Some (JNum 1700000000002)
    /\ field "id" ack <> field "id" record.
Proof.
  apply (submitResponse_acknowledges_another_id offline 7 5 3 fresh []);
    [reflexivity | reflexivity | discriminate].
Defined.

(** ** clearLocalData *)

(** C8.  [clearLocalData] always returns; after it both collections are
    absent; and a second call in a row returns as well and leaves the
    state exactly as the first call left it. *)
Theorem clearLocalData_idempotent (st : State) :
  exists st',
    clearLocalData st = (Returned tt, st')
    /\ localStorage st' !! "sel_users" = None
    /\ localStorage st' !! "sel_responses" = None
    /\ clearLocalData st' = (Returned tt, st').
Proof.
  eexists. split; [reflexivity|]. cbn [localStorage].
  split; [|split].
  - rewrite lookup_delete_ne by discriminate. apply lookup_delete_eq.
  - apply lookup_delete_eq.
  - unfold clearLocalData, bind, Storage.removeItem. cbn [localStorage reads].
    do 2 f_equal.
    apply map_eq. intros k.
    rewrite !lookup_delete. repeat case_decide; reflexivity.
Qed.

(** ** What each operation writes *)

Create HintDb frame.

Lemma ww_ret {A} (keys : list string) (a : A) : writes_within keys (ret a).
Proof. intros st k _. reflexivity. Qed.

Lemma ww_throw {A} (keys : list string) (e : exn) : writes_within keys (@throw A e).
Proof. intros st k _. reflexivity. Qed.

Lemma ww_await {A} (keys : list string) (p : Promise A) : writes_within keys (await p).
Proof. intros st k _. reflexivity. Qed.

Lemma ww_bind {A B} (keys : list string) (m : M A) (f : A -> M B) :
  writes_within keys m -> (forall a, writes_within keys (f a)) ->
  writes_within keys (bind m f).
Proof.
  intros Hm Hf st k Hk. unfold bind. specialize (Hm st k Hk).
  destruct (m st) as [[a | e] st1]; cbn [snd] in *; [|exact Hm].
  rewrite (Hf a st1 k Hk). exact Hm.
Qed.

Lemma ww_try_catch {A} (keys : list string) (m : M A) (h : exn -> M A) :
  writes_within keys m -> (forall e, writes_within keys (h e)) ->
  writes_within keys (try_catch m h).
Proof.
  intros Hm Hh st k Hk. unfold try_catch. specialize (Hm st k Hk).
  destruct (m st) as [[a | e] st1]; cbn [snd] in *; [exact Hm|].
  rewrite (Hh e st1 k Hk). exact Hm.
Qed.

Lemma ww_getItem (keys : list string) (key : string) :
  writes_within keys (Storage.getItem key).
Proof. intros st k _. reflexivity. Qed.

Lemma ww_setItem (keys : list string) (key text : string) :
  In key keys -> writes_within keys (Storage.setItem key text).
Proof.
  intros Hin st k Hk. cbn. apply lookup_insert_ne. intros ->. contradiction.
Qed.

Lemma ww_removeItem (keys : list string) (key : string) :
  In key keys -> writes_within keys (Storage.removeItem key).
Proof.
  intros Hin st k Hk. cbn. apply lookup_delete_ne. intros ->. contradiction.
Qed.

Lemma ww_Date_now (keys : list string) (env : Env) : writes_within keys (Date_now env).
Proof. intros st k _. reflexivity. Qed.

Lemma ww_JSON_parse (keys : list string) (text : string) :
  writes_within keys (JSON_parse text).
Proof. intros st k _. unfold JSON_parse. destruct (JSON.parse text); reflexivity. Qed.

Lemma ww_console_warn (keys : list string) (message : string) :
  writes_within keys (console_warn message).
Proof. intros st k _. reflexivity. Qed.

Lemma ww_get (keys : list string) (key : string) (v : value) :
  writes_within keys (get key v).
Proof. intros st k _. destruct v as [[]|]; reflexivity. Qed.

Lemma ww_push (keys : list string) (a x : json) : writes_within keys (Array.push a x).
Proof. intros st k _. destruct a; reflexivity. Qed.

Lemma ww_method_of (keys : list string) (a : json) : writes_within keys (Array.method_of a).
Proof. intros st k _. destruct a; reflexivity. Qed.

Lemma ww_fetchWithTimeout (keys : list string) (env : Env) (url : string)
      (options : RequestInit) (timeout : Z) :
  writes_within keys (fetchWithTimeout env url options timeout).
Proof.
  intros st k _. unfold fetchWithTimeout.
  destruct (remote env url options) as [latency res | latency |];
    try destruct (latency <? timeout); reflexivity.
Qed.

#[local] Hint Resolve ww_ret ww_throw ww_await ww_getItem ww_Date_now ww_JSON_parse
  ww_console_warn ww_get ww_push ww_method_of ww_fetchWithTimeout : frame.

Ltac frame_step :=
  first
    [ apply ww_bind; [|intros ?]
    | apply ww_try_catch; [|intros ?]
    | apply ww_setItem; cbn; tauto
    | apply ww_removeItem; cbn; tauto
    | solve [auto with frame]
    | match goal with
      | |- writes_within _ (match ?x with _ => _ end) => destruct x
      end ].

Ltac frame := repeat frame_step.

Lemma ww_find_in (keys : list string) (p : json -> M bool) (l : list json) :
  (forall x, writes_within keys (p x)) -> writes_within keys (Array.find_in p l).
Proof. intros Hp. induction l as [|x tl IH]; cbn [Array.find_in]; frame. Qed.

Lemma ww_map_in {B} (keys : list string) (f : json -> M B) (l : list json) :
  (forall x, writes_within keys (f x)) -> writes_within keys (Array.map_in f l).
Proof. intros Hf. induction l as [|x tl IH]; cbn [Array.map_in]; frame. Qed.

Lemma ww_join_row (keys : list string) (users r : json) :
  writes_within keys (join_row users r).
Proof.
  unfold join_row, field_or, Array.find. frame.
  apply ww_find_in. intros u. frame.
Qed.

Lemma ww_getTime (keys : list string) (parse : string -> option Z) (v : value) :
  writes_within keys (Date.getTime parse v).
Proof.
  intros st k _. unfold Date.getTime.
  destruct v as [[| | | | l | l]|]; try reflexivity;
    destruct (Date.ToString _); reflexivity.
Qed.

Lemma ww_insert {A} (keys : list string) (comparefn : A -> A -> M (option Z))
      (x : A) (l : list A) :
  (forall a b, writes_within keys (comparefn a b)) ->
  writes_within keys (Array.insert comparefn x l).
Proof.
  intros Hc. induction l as [|y tl IH]; cbn [Array.insert];
    unfold Array.before_or_equal; frame.
Qed.

Lemma ww_sort {A} (keys : list string) (comparefn : A -> A -> M (option Z))
      (l : list A) :
  (forall a b, writes_within keys (comparefn a b)) ->
  writes_within keys (Array.sort comparefn l).
Proof.
  intros Hc. induction l as [|x tl IH]; cbn [Array.sort]; frame.
  apply ww_insert. exact Hc.
Qed.

Lemma ww_createUser (env : Env) (name avatar grade gender : string) :
  writes_within ["sel_users"] (createUser env name avatar grade gender).
Proof. unfold createUser, createUser_try, createUser_catch. frame. Qed.

Lemma ww_submitResponse (env : Env) (userId questionId score : Z) :
  writes_within ["sel_responses"] (submitResponse env userId questionId score).
Proof. unfold submitResponse, submitResponse_try, submitResponse_catch. frame. Qed.

Lemma ww_fetchAllResponses (env : Env) : writes_within [] (fetchAllResponses env).
Proof.
  unfold fetchAllResponses, fetchAllResponses_try, fetchAllResponses_catch, Array.map.
  frame.
  - apply ww_map_in. intros r. apply ww_join_row.
  - apply ww_sort. intros row1 row2. unfold newest_first. frame; apply ww_getTime.
Qed.

(** C9.  Whatever the server does and whatever is stored: [createUser]
    leaves every key but "sel_users" as it was, [submitResponse] every key
    but "sel_responses", [fetchAllResponses] leaves the whole of local
    storage as it was, and [clearLocalData] removes "sel_users" and
    "sel_responses" and leaves every other key as it was. *)
Theorem operations_write_their_own_keys (env : Env) (st : State)
        (name avatar grade gender : string) (userId questionId score : Z) (k : string) :
  (k <> "sel_users" ->
   localStorage (snd (createUser env name avatar grade gender st)) !! k
   = localStorage st !! k)
  /\ (k <> "sel_responses" ->
      localStorage (snd (submitResponse env userId questionId score st)) !! k
      = localStorage st !! k)
  /\ localStorage (snd (fetchAllResponses env st)) = localStorage st
  /\ localStorage (snd (clearLocalData st)) !! k
     = if decide (k = "sel_users" \/ k = "sel_responses") then None
       else localStorage st !! k.
Proof.
  split; [|split; [|split]].
  - intros Hk. apply ww_createUser. cbn. intuition congruence.
  - intros Hk. apply ww_submitResponse. cbn. intuition congruence.
  - apply map_eq. intros k'. apply ww_fetchAllResponses. cbn. tauto.
  - cbn. rewrite !lookup_delete. repeat case_decide; try reflexivity;
      exfalso; intuition congruence.
Qed.

Lemma operations_write_their_own_keys_witness :
  localStorage (snd (createUser offline "Ann" "A" "3" "F" (stored "[]" "[7]")))
    !! "sel_responses" = Some "[7]"
  /\ localStorage (snd (submitResponse offline 1 5 3 (stored "[7]" "[]")))
       !! "sel_users" = Some "[7]".
Proof.
  split.
  - apply (operations_write_their_own_keys offline (stored "[]" "[7]")
             "Ann" "A" "3" "F" 1 5 3 "sel_responses"). discriminate.
  - apply (operations_write_their_own_keys offline (stored "[7]" "[]")
             "Ann" "A" "3" "F" 1 5 3 "sel_users"). discriminate.
Defined.

(** ** The remote attempt of the report *)

Lemma fetchAllResponses_try_fails (env : Env) (st : State) :
  remote_failed 2000 (report_outcome env) = true ->
  exists e, fetchAllResponses_try env st = (Thrown e, st).
Proof.
  intros Hfail. unfold fetchAllResponses_try, bind.
  destruct (fetch_failed env _ _ 2000 st Hfail) as [[e He] | [res [He Hok]]];
    rewrite He; [|rewrite Hok]; eexists; reflexivity.
Qed.

(** ** The final sort *)

Section sorting.
Context {A : Type} (c : A -> A -> option Z).

Lemma inserted_permutation (x : A) (l : list A) :
  Permutation (inserted c x l) (x :: l).
Proof.
  induction l as [|y tl IH]; cbn [inserted]; [reflexivity|].
  destruct (goes_first c x y); [reflexivity|].
  rewrite IH. apply perm_swap.
Qed.

Lemma sorted_permutation (l : list A) : Permutation (sorted c l) l.
Proof.
  induction l as [|x tl IH]; cbn [sorted]; [reflexivity|].
  rewrite inserted_permutation. now apply perm_skip.
Qed.

(** [Array.sort] with a comparator that returns at every call, and with
    one that throws whenever one of its arguments is [bad]. *)
Variable comparefn : A -> A -> M (option Z).
Variable bad : A -> bool.
Variable st : State.
Hypothesis comparefn_returns :
  forall x y, bad x = false -> bad y = false -> comparefn x y st = (Returned (c x y), st).
Hypothesis comparefn_throws :
  forall x y, bad x || bad y = true -> comparefn x y st = (Thrown TypeError, st).

Lemma insert_returns (x : A) (l : list A) :
  bad x = false -> forallb (fun y => negb (bad y)) l = true ->
  Array.insert comparefn x l st = (Returned (inserted c x l), st).
Proof.
  intros Hx. induction l as [|y tl IH]; intros Hl; [reflexivity|].
  cbn [forallb] in Hl. apply andb_true_iff in Hl as [Hy Htl].
  apply negb_true_iff in Hy.
  cbn [Array.insert inserted]. unfold bind at 1, Array.before_or_equal, bind at 1.
  rewrite (comparefn_returns x y Hx Hy). unfold ret at 1. unfold goes_first.
  destruct (match c x y with Some v => v <=? 0 | None => true end); [reflexivity|].
  unfold bind. rewrite (IH Htl). reflexivity.
Qed.

Lemma forallb_permutation (p : A -> bool) (l l' : list A) :
  Permutation l l' -> forallb p l = true -> forallb p l' = true.
Proof.
  intros Hperm. rewrite !forallb_forall. intros H x Hx. apply H.
  apply (Permutation_in x (Permutation_sym Hperm) Hx).
Qed.

Lemma sort_returns (l : list A) :
  forallb (fun y => negb (bad y)) l = true ->
  Array.sort comparefn l st = (Returned (sorted c l), st).
Proof.
  induction l as [|x tl IH]; intros Hl; [reflexivity|].
  cbn [forallb] in Hl. apply andb_true_iff in Hl as [Hx Htl].
  apply negb_true_iff in Hx.
  cbn [Array.sort sorted]. unfold bind. rewrite (IH Htl).
  apply (insert_returns x _ Hx).
  apply (forallb_permutation _ tl); [symmetry; apply sorted_permutation | exact Htl].
Qed.

Lemma insert_throws (x y : A) (l : list A) :
  bad x || bad y = true ->
  Array.insert comparefn x (y :: l) st = (Thrown TypeError, st).
Proof.
  intros Hbad. cbn [Array.insert]. unfold bind at 1, Array.before_or_equal, bind at 1.
  rewrite (comparefn_throws x y Hbad). reflexivity.
Qed.

Lemma sort_throws (l : list A) :
  (2 <= length l)%nat -> existsb bad l = true ->
  Array.sort comparefn l st = (Thrown TypeError, st).
Proof.
  induction l as [|x tl IH]; intros Hlen Hbad; [cbn in Hlen; lia|].
  cbn [Array.sort]. unfold bind.
  destruct (existsb bad tl) eqn:Htl.
  - destruct tl as [|y [|z tl']]; [discriminate Htl | |].
    + cbn [existsb] in Htl. rewrite orb_false_r in Htl.
      cbn [Array.sort]. unfold bind, ret.
      change (Array.insert comparefn y [] st) with (Returned [y], st).
      apply insert_throws. rewrite Htl. apply orb_true_r.
    + rewrite IH; [reflexivity | cbn; lia | reflexivity].
  - cbn [existsb] in Hbad. rewrite Htl, orb_false_r in Hbad.
    assert (Hgood : forallb (fun y => negb (bad y)) tl = true).
    { clear - Htl. induction tl as [|y tl IH]; [reflexivity|].
      cbn [existsb forallb] in *. apply orb_false_iff in Htl as [-> Htl].
      now rewrite IH. }
    rewrite (sort_returns tl Hgood).
    pose proof (sorted_permutation tl) as Hperm.
    destruct (sorted c tl) as [|y rest].
    + apply Permutation_nil in Hperm. subst tl. cbn in Hlen. lia.
    + apply insert_throws. rewrite Hbad. reflexivity.
Qed.
End sorting.

Lemma sorted_lookup {A} (R : A -> A -> Prop) (l : list A) :
  StronglySorted R l ->
  forall i j a b, (i < j)%nat -> l !! i = Some a -> l !! j = Some b -> R a b.
Proof.
  induction 1 as [|x tl Hsorted IH Hx]; intros i j a b Hij Ha Hb.
  - discriminate Ha.
  - destruct j as [|j]; [lia|]. cbn in Hb.
    destruct i as [|i]; cbn in Ha.
    + injection Ha as <-. rewrite List.Forall_forall in Hx. apply Hx.
      apply list_elem_of_In. eapply list_elem_of_lookup_2. exact Hb.
    + apply (IH i j); [lia | assumption..].
Qed.

Section newest_first.
Variable env : Env.

Lemma join_text_TypeError (l : list json) (e : exn) :
  Forall (fun v => Date.ToString v = Thrown e -> e = TypeError) l ->
  Date.join_text Date.ToString l = Thrown e -> e = TypeError.
Proof.
  induction 1 as [|x tl Hx Htl IH]; cbn [Date.join_text]; [discriminate|].
  destruct (Date.element_text Date.ToString x) as [first | e0] eqn:Hfirst.
  - destruct tl as [|y tl']; [discriminate|].
    destruct (Date.join_text Date.ToString (y :: tl')); [discriminate | exact IH].
  - intros [= ->]. apply Hx. destruct x; try exact Hfirst. discriminate Hfirst.
Qed.

Lemma ToString_TypeError (v : json) (e : exn) :
  Date.ToString v = Thrown e -> e = TypeError.
Proof.
  induction v as [| b | n | s | l IH | l IH] using json_nested_ind;
    cbn [Date.ToString]; try discriminate.
  - destruct b; discriminate.
  - apply join_text_TypeError. exact IH.
  - destruct (lookup_last "toString" l); [intros [= <-]; reflexivity | discriminate].
Qed.

Lemma getTime_returns (v : value) (st : State) :
  convertible v = true ->
  Date.getTime (Date_parse env) v st = (Returned (instant env v), st).
Proof.
  unfold convertible, Date.getTime, instant.
  destruct v as [[| | | | l | l]|]; try reflexivity;
    destruct (Date.ToString _); try discriminate; reflexivity.
Qed.

Lemma getTime_throws (v : value) (st : State) :
  convertible v = false ->
  Date.getTime (Date_parse env) v st = (Thrown TypeError, st).
Proof.
  unfold convertible, Date.getTime.
  destruct v as [[| | | | l | l]|]; try discriminate;
    destruct (Date.ToString _) eqn:Ht; try discriminate;
    intros _; rewrite (ToString_TypeError _ _ Ht); reflexivity.
Qed.

Lemma newest_first_returns (a b : Row.t) (st : State) :
  negb (convertible (Row.timestamp a)) = false ->
  negb (convertible (Row.timestamp b)) = false ->
  newest_first env a b st = (Returned (difference env a b), st).
Proof.
  intros Ha Hb. apply negb_false_iff in Ha, Hb.
  unfold newest_first, bind.
  rewrite (getTime_returns _ st Hb), (getTime_returns _ st Ha). reflexivity.
Qed.

Lemma newest_first_throws (a b : Row.t) (st : State) :
  negb (convertible (Row.timestamp a)) || negb (convertible (Row.timestamp b)) = true ->
  newest_first env a b st = (Thrown TypeError, st).
Proof.
  intros Hbad. unfold newest_first, bind.
  destruct (convertible (Row.timestamp b)) eqn:Hb.
  - rewrite (getTime_returns _ st Hb).
    rewrite orb_false_r in Hbad. apply negb_true_iff in Hbad.
    rewrite (getTime_throws _ st Hbad). reflexivity.
  - rewrite (getTime_throws _ st Hb). reflexivity.
Qed.

Lemma goes_first_newest (a b : Row.t) :
  timed env a -> timed env b ->
  if goes_first (difference env) a b
  then not_older env a b else not_older env b a.
Proof.
  unfold timed, goes_first, difference, not_older.
  destruct (row_time env a) as [ta|]; [|congruence].
  destruct (row_time env b) as [tb|]; [|congruence].
  intros _ _. destruct (Z.leb_spec (tb - ta) 0); eexists _, _; repeat split; lia.
Qed.

Lemma not_older_trans (a b c : Row.t) :
  not_older env a b -> not_older env b c -> not_older env a c.
Proof.
  intros (ta & tb & Ha & Hb & Hab) (tb' & tc & Hb' & Hc & Hbc).
  rewrite Hb in Hb'. injection Hb' as <-.
  exists ta, tc. repeat split; [assumption.. | lia].
Qed.

Lemma inserted_sorted (x : Row.t) (l : list Row.t) :
  timed env x -> Forall (timed env) l ->
  StronglySorted (not_older env) l ->
  StronglySorted (not_older env) (inserted (difference env) x l).
Proof.
  intros Hx Hl Hsorted. induction Hsorted as [|y tl Hsorted IH Hy].
  - repeat constructor.
  - cbn [inserted].
    pose proof (goes_first_newest x y Hx (Forall_inv Hl)) as Hxy.
    destruct (goes_first (difference env) x y).
    + constructor; [now constructor|]. constructor; [exact Hxy|].
      eapply Forall_impl; [exact Hy|]. intros z Hz. cbn beta in Hz.
      exact (not_older_trans _ _ _ Hxy Hz).
    + constructor; [apply IH; exact (Forall_inv_tail Hl)|].
      eapply Permutation_Forall; [symmetry; apply inserted_permutation|].
      now constructor.
Qed.

Lemma sorted_sorted (l : list Row.t) :
  Forall (timed env) l -> StronglySorted (not_older env) (sorted (difference env) l).
Proof.
  induction 1 as [|x tl Hx Htl IH]; cbn [sorted]; [constructor|].
  apply inserted_sorted; [exact Hx | | exact IH].
  eapply Permutation_Forall; [symmetry; apply sorted_permutation | exact Htl].
Qed.

(** The sort of rows: it returns when every timestamp is convertible,
    and throws when one is not and there is something to compare. *)
Lemma sort_rows_returns (rows : list Row.t) (st : State) :
  forallb (fun a => convertible (Row.timestamp a)) rows = true ->
  Array.sort (newest_first env) rows st
  = (Returned (sorted (difference env) rows), st).
Proof.
  intros Hrows.
  apply (sort_returns (difference env) (newest_first env)
           (fun a => negb (convertible (Row.timestamp a))) st).
  - intros x y. apply newest_first_returns.
  - rewrite <- Hrows. clear Hrows. induction rows as [|a tl IH]; [reflexivity|].
    cbn [forallb]. rewrite negb_involutive, IH. reflexivity.
Qed.

Lemma sort_rows_throws (rows : list Row.t) (st : State) :
  (2 <= length rows)%nat ->
  existsb (fun a => negb (convertible (Row.timestamp a))) rows = true ->
  Array.sort (newest_first env) rows st = (Thrown TypeError, st).
Proof.
  apply (sort_throws (difference env) (newest_first env)
           (fun a => negb (convertible (Row.timestamp a))) st).
  - intros x y. apply newest_first_returns.
  - intros x y. apply newest_first_throws.
Qed.
End newest_first.

(** ** The report assembled from local storage *)

Lemma find_profile (us : list User.t) (r : ResponseRecord.t) (st : State) :
  Array.find_in
    (fun u =>
       let* uid := get "id" (Some u) in
       let* rid := get "user_id" (Some (ResponseRecord.to_json r)) in
       ret (strict_eq uid rid))
    (List.map User.to_json us) st
  = (Returned (option_map User.to_json (profile_of (ResponseRecord.user_id r) us)), st).
Proof.
  induction us as [|u tl IH]; [reflexivity|].
  cbn [List.map Array.find_in profile_of List.find].
  unfold bind at 1. fold (profile_of (ResponseRecord.user_id r) tl).
  change ((let* uid := get "id" (Some (User.to_json u)) in
           let* rid := get "user_id" (Some (ResponseRecord.to_json r)) in
           ret (strict_eq uid rid)) st)
    with (Returned (User.id u =? ResponseRecord.user_id r), st).
  cbv iota beta.
  destruct (User.id u =? ResponseRecord.user_id r); [reflexivity | exact IH].
Qed.

Lemma join_row_stored (us : list User.t) (r : ResponseRecord.t) (st : State) :
  join_row (JArr (List.map User.to_json us)) (ResponseRecord.to_json r) st
  = (Returned (assembled_row us r), st).
Proof.
  unfold join_row. unfold bind at 1. cbn [Array.find].
  rewrite find_profile. unfold assembled_row.
  destruct (profile_of (ResponseRecord.user_id r) us) as [u|]; reflexivity.
Qed.

Lemma map_join_row_stored (us : list User.t) (rs : list ResponseRecord.t) (st : State) :
  Array.map_in (join_row (JArr (List.map User.to_json us)))
               (List.map ResponseRecord.to_json rs) st
  = (Returned (List.map (assembled_row us) rs), st).
Proof.
  induction rs as [|r tl IH]; [reflexivity|].
  cbn [List.map Array.map_in]. unfold bind at 1. rewrite join_row_stored.
  unfold bind at 1. rewrite IH. reflexivity.
Qed.

Lemma assembled_rows_convertible (us : list User.t) (rs : list ResponseRecord.t) :
  forallb (fun a => convertible (Row.timestamp a)) (List.map (assembled_row us) rs) = true.
Proof. induction rs as [|r tl IH]; [reflexivity | exact IH]. Qed.

Lemma fetchAllResponses_catch_stored (env : Env) (error : exn) (st : State)
      (us : list User.t) (rs : list ResponseRecord.t) :
  collection "sel_users" st (List.map User.to_json us) ->
  collection "sel_responses" st (List.map ResponseRecord.to_json rs) ->
  fetchAllResponses_catch env error st
  = (Returned {| source := "LOCAL";
                 data := LocalRows (sorted (difference env)
                                      (List.map (assembled_row us) rs)) |}, st).
Proof.
  intros Husers Hresponses.
  unfold fetchAllResponses_catch, console_warn, Storage.getItem.
  unfold bind at 1. unfold ret at 1. unfold bind at 1.
  unfold bind at 1. unfold JSON_parse at 1.
  unfold collection in Husers, Hresponses. rewrite Husers.
  unfold ret at 1. unfold bind at 1. unfold bind at 1.
  unfold JSON_parse at 1. rewrite Hresponses.
  unfold ret at 1. unfold bind at 1. cbn [Array.map].
  rewrite map_join_row_stored. unfold bind at 1.
  rewrite (sort_rows_returns env _ st (assembled_rows_convertible us rs)).
  reflexivity.
Qed.

Lemma fetchAllResponses_fallback (env : Env) (st : State)
      (us : list User.t) (rs : list ResponseRecord.t) :
  remote_failed 2000 (report_outcome env) = true ->
  collection "sel_users" st (List.map User.to_json us) ->
  collection "sel_responses" st (List.map ResponseRecord.to_json rs) ->
  fetchAllResponses env st
  = (Returned {| source := "LOCAL";
                 data := LocalRows (sorted (difference env)
                                      (List.map (assembled_row us) rs)) |}, st).
Proof.
  intros Hfail Husers Hresponses.
  destruct (fetchAllResponses_try_fails env st Hfail) as [e He].
  unfold fetchAllResponses, try_catch. rewrite He.
  apply fetchAllResponses_catch_stored; assumption.
Qed.



(** ** fetchAllResponses *)

(** C5.  In degraded mode (the remote attempt failed), for every pair of
    stored collections, [fetchAllResponses] returns the source "LOCAL"
    and as many rows as there are stored response records. *)
Theorem fetchAllResponses_local_length (env : Env) (st : State)
        (us : list User.t) (rs : list ResponseRecord.t) :
  remote_failed 2000 (report_outcome env) = true ->
  collection "sel_users" st (List.map User.to_json us) ->
  collection "sel_responses" st (List.map ResponseRecord.to_json rs) ->
  exists rows,
    fetchAllResponses env st
    = (Returned {| source := "LOCAL"; data := LocalRows rows |}, st)
    /\ length rows = length rs.
Proof.
  intros Hfail Husers Hresponses. eexists. split.
  - apply (fetchAllResponses_fallback env st us rs Hfail Husers Hresponses).
  - rewrite (Permutation_length (sorted_permutation _ _)). apply length_map.
Qed.

Lemma fetchAllResponses_local_length_witness :
  exists rows,
    fetchAllResponses offline (stored_records [ann] [first_answer; last_answer])
    = (Returned {| source := "LOCAL"; data := LocalRows rows |},
       stored_records [ann] [first_answer; last_answer])
    /\ length rows = length [first_answer; last_answer].
Proof.
  apply (fetchAllResponses_local_length offline _ [ann] [first_answer; last_answer]).
  - reflexivity.
  - vm_compute. reflexivity.
  - vm_compute. reflexivity.
Defined.

(** C1, as the code has it.  In degraded mode the rows are, in some
    order, one row for each stored response record: with the display
    fields of the first stored profile whose id is the record's user_id
    when there is one (so user_name is that profile's name), and with
    user_id -1, user_name "Unknown (Local)", empty grade and gender and the
    default avatar glyph when there is none. *)
Theorem fetchAllResponses_joins_profiles (env : Env) (st : State)
        (us : list User.t) (rs : list ResponseRecord.t) :
  remote_failed 2000 (report_outcome env) = true ->
  collection "sel_users" st (List.map User.to_json us) ->
  collection "sel_responses" st (List.map ResponseRecord.to_json rs) ->
  exists rows,
    fetchAllResponses env st
    = (Returned {| source := "LOCAL"; data := LocalRows rows |}, st)
    /\ Permutation rows (List.map (assembled_row us) rs).
Proof.
  intros Hfail Husers Hresponses. eexists. split.
  - apply (fetchAllResponses_fallback env st us rs Hfail Husers Hresponses).
  - apply sorted_permutation.
Qed.

Lemma fetchAllResponses_joins_profiles_witness :
  exists rows,
    fetchAllResponses offline (stored_records [ann] [first_answer; orphan])
    = (Returned {| source := "LOCAL"; data := LocalRows rows |},
       stored_records [ann] [first_answer; orphan])
    /\ Permutation rows (List.map (assembled_row [ann]) [first_answer; orphan]).
Proof.
  apply (fetchAllResponses_joins_profiles offline _ [ann] [first_answer; orphan]).
  - reflexivity.
  - vm_compute. reflexivity.
  - vm_compute. reflexivity.
Defined.

(** C1, as stated, fails: the row of a record without profile is named
    "Unknown (Local)", not "Unknown". *)
Lemma fetchAllResponses_names_orphan_unknown_local :
  exists row,
    fst (fetchAllResponses offline (stored_records [ann] [orphan]))
    = Returned {| source := "LOCAL"; data := LocalRows [row] |}
    /\ Row.user_id row = Some (JNum (-1))
    /\ Row.user_name row = Some (JStr "Unknown (Local)")
    /\ Row.user_name row <> Some (JStr "Unknown").
Proof.
  eexists. split; [vm_compute; reflexivity|].
  split; [reflexivity|]. split; [reflexivity | discriminate].
Qed.

(** C6, as the code has it.  In degraded mode, when the timestamp of
    every stored record is one the engine reads as an instant, then of
    any two rows with instants T1 > T2 the row of T1 comes before the row
    of T2. *)
Theorem fetchAllResponses_newest_first (env : Env) (st : State)
        (us : list User.t) (rs : list ResponseRecord.t) :
  remote_failed 2000 (report_outcome env) = true ->
  collection "sel_users" st (List.map User.to_json us) ->
  collection "sel_responses" st (List.map ResponseRecord.to_json rs) ->
  forallb (readable env) rs = true ->
  exists rows,
    fetchAllResponses env st
    = (Returned {| source := "LOCAL"; data := LocalRows rows |}, st)
    /\ forall i j a b T1 T2,
         rows !! i = Some a -> rows !! j = Some b ->
         row_time env a = Some T1 -> row_time env b = Some T2 ->
         T1 > T2 -> (i < j)%nat.
Proof.
  intros Hfail Husers Hresponses Hreadable. eexists. split.
  - apply (fetchAllResponses_fallback env st us rs Hfail Husers Hresponses).
  - assert (Hsorted : StronglySorted (not_older env)
                        (sorted (difference env) (List.map (assembled_row us) rs))).
    { apply sorted_sorted. apply List.Forall_map.
      rewrite forallb_forall in Hreadable. apply List.Forall_forall.
      intros r Hr. specialize (Hreadable r Hr).
      unfold readable in Hreadable. unfold timed, row_time, assembled_row. cbn.
      destruct (Date_parse env (ResponseRecord.timestamp r)); discriminate. }
    intros i j a b T1 T2 Ha Hb HTa HTb Hgt.
    destruct (Nat.lt_trichotomy i j) as [Hlt | [-> | Hlt]]; [exact Hlt | |].
    + rewrite Ha in Hb. injection Hb as <-. rewrite HTa in HTb.
      injection HTb as <-. lia.
    + destruct (sorted_lookup _ _ Hsorted j i b a Hlt Hb Ha) as (tb & ta & Hb' & Ha' & Hle).
      rewrite HTa in Ha'. rewrite HTb in Hb'.
      injection Ha' as <-. injection Hb' as <-. lia.
Qed.

Lemma fetchAllResponses_newest_first_witness :
  exists rows,
    fetchAllResponses offline (stored_records [ann] [first_answer; last_answer])
    = (Returned {| source := "LOCAL"; data := LocalRows rows |},
       stored_records [ann] [first_answer; last_answer])
    /\ forall i j a b T1 T2,
         rows !! i = Some a -> rows !! j = Some b ->
         row_time offline a = Some T1 -> row_time offline b = Some T2 ->
         T1 > T2 -> (i < j)%nat.
Proof.
  apply (fetchAllResponses_newest_first offline _ [ann] [first_answer; last_answer]).
  - reflexivity.
  - vm_compute. reflexivity.
  - vm_compute. reflexivity.
  - reflexivity.
Defined.

(** C6, as stated, fails: with a record between them whose timestamp is
    no instant, the row of the later instant (2 January) comes after the
    row of the earlier one (1 January). *)
Lemma fetchAllResponses_order_with_damaged_timestamp :
  exists a b rest T1 T2,
    fst (fetchAllResponses offline
           (stored_records [ann] [first_answer; damaged_answer; last_answer]))
    = Returned {| source := "LOCAL"; data := LocalRows (b :: rest ++ [a]) |}
    /\ row_time offline a = Some T1
    /\ row_time offline b = Some T2
    /\ T1 > T2.
Proof.
  exists (assembled_row [ann] last_answer), (assembled_row [ann] first_answer),
         [assembled_row [ann] damaged_answer], 1704153600000, 1704067200000.
  split; [vm_compute; reflexivity|].
  split; [vm_compute; reflexivity|].
  split; [vm_compute; reflexivity | reflexivity].
Qed.

(** ** One fallback for every failure *)

Lemma failed_or_answered (timeout : Z) (o : FetchOutcome) :
  remote_failed timeout o = true \/ exists res, answer_within timeout o = Some res.
Proof.
  destruct o as [latency res | latency |]; cbn; [|now left..].
  destruct (Z.ltb_spec latency timeout) as [Hlt | Hge].
  - destruct (ok res); [right; eexists; reflexivity | left; apply orb_true_r].
  - left. apply orb_true_iff. left. now apply Z.leb_le.
Qed.

Lemma fetch_answered (env : Env) (url : string) (options : RequestInit) (timeout : Z)
      (st : State) (res : Response) :
  answer_within timeout (remote env url options) = Some res ->
  fetchWithTimeout env url options timeout st = (Returned res, st) /\ ok res = true.
Proof.
  unfold answer_within, fetchWithTimeout.
  destruct (remote env url options) as [latency r | latency |]; try discriminate.
  destruct (latency <? timeout); [|discriminate].
  destruct (ok r) eqn:Hok; [|discriminate].
  intros [= <-]. split; [reflexivity | exact Hok].
Qed.



(** ** Further runs of the gateway *)

(** A 2xx answer whose body is not JSON: [createUser] returns the promise
    of [res.json()] without awaiting it, so its rejection is not caught
    and reaches the caller; [fetchAllResponses] awaits it and falls
    back. *)
Example createUser_unawaited_body :
  createUser (with_remote garbled_server offline) "Ann" "A" "3" "F" fresh
  = (Thrown SyntaxError, fresh).
Proof. reflexivity. Qed.

Example fetchAllResponses_awaited_body :
  fetchAllResponses (with_remote garbled_server offline) fresh
  = (Returned {| source := "LOCAL"; data := LocalRows [] |}, fresh).
Proof. reflexivity. Qed.

(** X5.  [clearLocalData] followed by [fetchAllResponses] in degraded
    mode gives an empty report, whatever was stored before, even entries
    that were not JSON. *)
Lemma fetchAllResponses_after_clear (env : Env) (st : State) :
  remote_failed 2000 (report_outcome env) = true ->
  exists st',
    clearLocalData st = (Returned tt, st')
    /\ fetchAllResponses env st'
       = (Returned {| source := "LOCAL"; data := LocalRows [] |}, st').
Proof.
  intros Hfail. eexists. split; [reflexivity|].
  apply (fetchAllResponses_fallback env _ [] [] Hfail);
    unfold collection; cbn [localStorage].
  - rewrite lookup_delete_ne by discriminate. rewrite lookup_delete_eq. reflexivity.
  - rewrite lookup_delete_eq. reflexivity.
Qed.

(** * Further properties of the gateway *)

(** ** An answer in time *)

(** X1.  When the server answers 2xx within the bound and the body is
    JSON for [v], [createUser] and [submitResponse] return [v] itself and
    [fetchAllResponses] returns it tagged "DB"; local storage and the
    clock are left as they were. *)
Theorem server_answer_returned_verbatim (env : Env) (st : State)
        (name avatar grade gender : string) (userId questionId score : Z)
        (res : Response) (v : json) :
  JSON.parse (text res) = Some v ->
  (answer_within 1500 (login_outcome env name avatar grade gender) = Some res ->
   createUser env name avatar grade gender st = (Returned v, st))
  /\ (answer_within 800 (response_outcome env userId questionId score) = Some res ->
      submitResponse env userId questionId score st = (Returned v, st))
  /\ (answer_within 2000 (report_outcome env) = Some res ->
      fetchAllResponses env st
      = (Returned {| source := "DB"; data := ServerData v |}, st)).
Proof.
  intros Hbody. split; [|split]; intros Hanswer;
    destruct (fetch_answered env _ _ _ st res Hanswer) as [Hfetch Hok].
  - unfold createUser, bind, try_catch, createUser_try, bind.
    rewrite Hfetch, Hok. cbn [negb]. unfold ret, await, Response_json.
    rewrite Hbody. reflexivity.
  - unfold submitResponse, bind, try_catch, submitResponse_try, bind.
    rewrite Hfetch, Hok. cbn [negb]. unfold ret, await, Response_json.
    rewrite Hbody. reflexivity.
  - unfold fetchAllResponses, try_catch, fetchAllResponses_try, bind.
    rewrite Hfetch, Hok. cbn [negb]. unfold ret, await, Response_json.
    rewrite Hbody. reflexivity.
Qed.

Lemma server_answer_returned_verbatim_witness :
  fetchAllResponses (with_remote (fun _ _ => Responds 40 {| status := 200; text := "[7]" |})
                       offline) fresh
  = (Returned {| source := "DB"; data := ServerData (JArr [JNum 7]) |}, fresh).
Proof.
  apply (server_answer_returned_verbatim _ fresh "Ann" "A" "3" "F" 1 5 3
           {| status := 200; text := "[7]" |} (JArr [JNum 7])); reflexivity.
Defined.

(** ** An answer that is not JSON *)

Lemma not_json_parse (s : string) : not_json s = true -> JSON.parse s = None.
Proof.
  unfold not_json, JSON.parse. cbn [JSON.parse_value].
  destruct (JSON.skip_ws s) as [|c r]; [reflexivity|].
  unfold value_head. intros H. apply negb_true_iff in H.
  destruct (JSON.digit_of c) eqn:Hdigit; [discriminate H|].
  repeat (apply orb_false_iff in H; destruct H as [H ?]).
  unfold JSON.parse_number.
  repeat match goal with E : Ascii.eqb c _ = false |- _ => rewrite E; clear E end.
  cbn [JSON.digits]. rewrite Hdigit. reflexivity.
Qed.

(** X2.  When the server answers 2xx within the bound with a body that is
    not JSON (a page of HTML, an empty body), [createUser] and
    [submitResponse] throw the SyntaxError of [res.json()] to their
    caller and store nothing: the promise is returned without [await],
    so the [catch] block never sees the rejection.  [fetchAllResponses]
    awaits it and takes its fallback, the report of the stored profiles
    and records. *)
Theorem unreadable_answer_escapes (env : Env) (st : State)
        (name avatar grade gender : string) (userId questionId score : Z)
        (res : Response) (us : list User.t) (rs : list ResponseRecord.t) :
  not_json (text res) = true ->
  (answer_within 1500 (login_outcome env name avatar grade gender) = Some res ->
   createUser env name avatar grade gender st = (Thrown SyntaxError, st))
  /\ (answer_within 800 (response_outcome env userId questionId score) = Some res ->
      submitResponse env userId questionId score st = (Thrown SyntaxError, st))
  /\ (answer_within 2000 (report_outcome env) = Some res ->
      collection "sel_users" st (List.map User.to_json us) ->
      collection "sel_responses" st (List.map ResponseRecord.to_json rs) ->
      exists rows,
        fetchAllResponses env st
        = (Returned {| source := "LOCAL"; data := LocalRows rows |}, st)
        /\ Permutation rows (List.map (assembled_row us) rs)).
Proof.
  intros Hbody. apply not_json_parse in Hbody.
  split; [|split]; intros Hanswer;
    destruct (fetch_answered env _ _ _ st res Hanswer) as [Hfetch Hok].
  - unfold createUser, bind, try_catch, createUser_try, bind.
    rewrite Hfetch, Hok. cbn [negb]. unfold ret, await, Response_json.
    rewrite Hbody. reflexivity.
  - unfold submitResponse, bind, try_catch, submitResponse_try, bind.
    rewrite Hfetch, Hok. cbn [negb]. unfold ret, await, Response_json.
    rewrite Hbody. reflexivity.
  - intros Hus Hrs.
    unfold fetchAllResponses, try_catch, fetchAllResponses_try, bind.
    rewrite Hfetch, Hok. cbn [negb]. unfold await, Response_json.
    rewrite Hbody.
    rewrite (fetchAllResponses_catch_stored env SyntaxError st us rs Hus Hrs).
    eexists. split; [reflexivity | apply sorted_permutation].
Qed.

Lemma unreadable_answer_escapes_witness :
  createUser (with_remote garbled_server offline) "Ann" "A" "3" "F" (stored "[]" "[]")
  = (Thrown SyntaxError, stored "[]" "[]")
  /\ exists rows,
       fetchAllResponses (with_remote garbled_server offline)
         (stored_records [ann] [first_answer])
       = (Returned {| source := "LOCAL"; data := LocalRows rows |},
          stored_records [ann] [first_answer])
       /\ Permutation rows (List.map (assembled_row [ann]) [first_answer]).
Proof.
  split.
  - apply (unreadable_answer_escapes (with_remote garbled_server offline)
             (stored "[]" "[]") "Ann" "A" "3" "F" 1 5 3
             {| status := 200; text := "<html>" |} [] []); reflexivity.
  - apply (unreadable_answer_escapes (with_remote garbled_server offline)
             (stored_records [ann] [first_answer]) "Ann" "A" "3" "F" 1 5 3
             {| status := 200; text := "<html>" |} [ann] [first_answer]);
      vm_compute; reflexivity.
Defined.

(** ** The fallback on every kind of stored entry *)

Lemma createUser_fallback_cases (env : Env) (name avatar grade gender : string)
        (st : State) :
  remote_failed 1500 (login_outcome env name avatar grade gender) = true ->
  let newUser := User.to_json (User.make (clock env (reads st)) name avatar grade gender) in
  createUser env name avatar grade gender st
  = match JSON_parse (or_else (localStorage st !! "sel_users") "[]") st with
    | (Thrown e, _) => (Thrown e, st)
    | (Returned (JArr l), _) =>
      (Returned newUser,
       {| localStorage :=
            <["sel_users" := JSON.stringify (JArr (l ++ [newUser]))]> (localStorage st);
          reads := S (reads st) |})
    | (Returned _, _) =>
      (Thrown TypeError, {| localStorage := localStorage st; reads := S (reads st) |})
    end.
Proof.
  intros Hfail newUser.
  destruct (createUser_try_fails env name avatar grade gender st Hfail) as [e He].
  unfold createUser, bind, try_catch. rewrite He.
  unfold createUser_catch, bind, console_warn, ret, Storage.getItem, JSON_parse.
  destruct (JSON.parse (or_else (localStorage st !! "sel_users") "[]")) as [[]|];
    reflexivity.
Qed.

(** X3.  When the remote create fails, what [createUser] does is decided
    by the entry "sel_users": not JSON, it throws SyntaxError and leaves
    the state as it was; JSON for a value that is not an array, it
    throws TypeError and leaves local storage as it was; JSON for an
    array, it returns the new profile, with the clock reading as id and
    the name given, and the stored collection is that array followed by
    the profile. *)
Theorem createUser_fallback_by_entry (env : Env) (name avatar grade gender : string)
        (st : State) :
  remote_failed 1500 (login_outcome env name avatar grade gender) = true ->
  let entry := or_else (localStorage st !! "sel_users") "[]" in
  (not_json entry = true ->
   createUser env name avatar grade gender st = (Thrown SyntaxError, st))
  /\ (forall v, JSON.parse entry = Some v -> is_array v = false ->
      exists st',
        createUser env name avatar grade gender st = (Thrown TypeError, st')
        /\ localStorage st' = localStorage st)
  /\ (forall l, JSON.parse entry = Some (JArr l) ->
      exists profile st',
        createUser env name avatar grade gender st = (Returned profile, st')
        /\ field "id" profile = Some (JNum (clock env (reads st)))
        /\ field "name" profile = Some (JStr name)
        /\ collection "sel_users" st' (l ++ [profile])).
Proof.
  intros Hfail entry.
  pose proof (createUser_fallback_cases env name avatar grade gender st Hfail) as Hcases.
  cbv zeta in Hcases. fold entry in Hcases. split; [|split].
  - intros Hentry. rewrite Hcases. unfold JSON_parse.
    rewrite (not_json_parse entry Hentry). reflexivity.
  - intros v Hv Harray. rewrite Hcases. unfold JSON_parse. rewrite Hv.
    destruct v; try discriminate Harray; eexists; split; reflexivity.
  - intros l Hl. rewrite Hcases. unfold JSON_parse. rewrite Hl.
    eexists _, _. split; [reflexivity|].
    split; [reflexivity|]. split; [reflexivity | apply collection_after_write].
Qed.

Lemma createUser_fallback_by_entry_witness :
  createUser offline "Ann" "A" "3" "F" (stored "<html>" "[]")
  = (Thrown SyntaxError, stored "<html>" "[]")
  /\ exists st',
       createUser offline "Ann" "A" "3" "F" (stored "{}" "[]") = (Thrown TypeError, st')
       /\ localStorage st' = localStorage (stored "{}" "[]").
Proof.
  split.
  - apply (createUser_fallback_by_entry offline "Ann" "A" "3" "F" (stored "<html>" "[]"));
      reflexivity.
  - destruct (createUser_fallback_by_entry offline "Ann" "A" "3" "F" (stored "{}" "[]")
                eq_refl) as (_ & Hvalue & _).
    apply (Hvalue (JObj [])); reflexivity.
Defined.

Lemma submitResponse_fallback_cases (env : Env) (userId questionId score : Z)
        (st : State) :
  remote_failed 800 (response_outcome env userId questionId score) = true ->
  let record :=
    ResponseRecord.to_json
      (ResponseRecord.make (clock env (reads st)) userId questionId score
         (Date.toISOString (clock env (S (reads st))))) in
  submitResponse env userId questionId score st
  = match JSON_parse (or_else (localStorage st !! "sel_responses") "[]") st with
    | (Thrown e, _) => (Thrown e, st)
    | (Returned JNull, _) => (Thrown TypeError, st)
    | (Returned (JArr l), _) =>
      (Returned (JObj [("id", JNum (clock env (S (S (reads st)))));
                       ("status", JStr "saved_local")]),
       {| localStorage :=
            <["sel_responses" := JSON.stringify (JArr (l ++ [record]))]> (localStorage st);
          reads := S (S (S (reads st))) |})
    | (Returned _, _) =>
      (Thrown TypeError, {| localStorage := localStorage st; reads := S (S (reads st)) |})
    end.
Proof.
  intros Hfail record.
  destruct (submitResponse_try_fails env userId questionId score st Hfail) as [e He].
  unfold submitResponse, bind, try_catch. rewrite He.
  unfold submitResponse_catch, bind, ret, Storage.getItem, JSON_parse.
  destruct (JSON.parse (or_else (localStorage st !! "sel_responses") "[]")) as [[]|];
    reflexivity.
Qed.

(** X4.  When the remote submit fails, what [submitResponse] does is
    decided by the entry "sel_responses": not JSON, it throws
    SyntaxError; [null], it throws TypeError before the clock is read;
    another value that is not an array, it throws TypeError; in all three
    cases local storage stays as it was and the answer is stored
    nowhere.  Only for an array does it store a record with the user,
    question and score of the call and acknowledge "saved_local". *)
Theorem submitResponse_fallback_by_entry (env : Env) (userId questionId score : Z)
        (st : State) :
  remote_failed 800 (response_outcome env userId questionId score) = true ->
  let entry := or_else (localStorage st !! "sel_responses") "[]" in
  (not_json entry = true ->
   submitResponse env userId questionId score st = (Thrown SyntaxError, st))
  /\ (JSON.parse entry = Some JNull ->
      submitResponse env userId questionId score st = (Thrown TypeError, st))
  /\ (forall v, JSON.parse entry = Some v -> is_array v = false ->
      exists st',
        submitResponse env userId questionId score st = (Thrown TypeError, st')
        /\ localStorage st' = localStorage st)
  /\ (forall l, JSON.parse entry = Some (JArr l) ->
      exists ack record st',
        submitResponse env userId questionId score st = (Returned ack, st')
        /\ field "status" ack = Some (JStr "saved_local")
        /\ field "user_id" record = Some (JNum userId)
        /\ field "question_id" record = Some (JNum questionId)
        /\ field "score" record = Some (JNum score)
        /\ collection "sel_responses" st' (l ++ [record])).
Proof.
  intros Hfail entry.
  pose proof (submitResponse_fallback_cases env userId questionId score st Hfail) as Hcases.
  cbv zeta in Hcases. fold entry in Hcases. split; [|split; [|split]].
  - intros Hentry. rewrite Hcases. unfold JSON_parse.
    rewrite (not_json_parse entry Hentry). reflexivity.
  - intros Hnull. rewrite Hcases. unfold JSON_parse. rewrite Hnull. reflexivity.
  - intros v Hv Harray. rewrite Hcases. unfold JSON_parse. rewrite Hv.
    destruct v; try discriminate Harray; eexists; split; reflexivity.
  - intros l Hl. rewrite Hcases. unfold JSON_parse. rewrite Hl.
    eexists _, _, _. split; [reflexivity|].
    split; [reflexivity|]. do 3 (split; [shelve|]). apply collection_after_write.
    Unshelve. all: reflexivity.
Qed.

Lemma submitResponse_fallback_by_entry_witness :
  submitResponse offline 1 5 3 (stored "[]" "null")
  = (Thrown TypeError, stored "[]" "null")
  /\ exists st',
       submitResponse offline 1 5 3 (stored "[]" "7") = (Thrown TypeError, st')
       /\ localStorage st' = localStorage (stored "[]" "7").
Proof.
  split.
  - apply (submitResponse_fallback_by_entry offline 1 5 3 (stored "[]" "null")); reflexivity.
  - destruct (submitResponse_fallback_by_entry offline 1 5 3 (stored "[]" "7") eq_refl)
      as (_ & _ & Hvalue & _).
    apply (Hvalue (JNum 7)); reflexivity.
Defined.

(** ** Clearing *)

Lemma fetchAllResponses_after_clear_witness :
  exists st',
    clearLocalData (stored "{not json" "null") = (Returned tt, st')
    /\ fetchAllResponses offline st'
       = (Returned {| source := "LOCAL"; data := LocalRows [] |}, st').
Proof.
  apply (fetchAllResponses_after_clear offline (stored "{not json" "null")). reflexivity.
Defined.

(** X6.  [clearLocalData] makes any local storage usable again: whatever
    was stored, after it a [createUser] whose remote attempt fails
    returns its profile, and the stored users are that profile alone. *)
Theorem createUser_after_clear (env : Env) (name avatar grade gender : string)
        (st : State) :
  remote_failed 1500 (login_outcome env name avatar grade gender) = true ->
  exists st1 st2 profile,
    clearLocalData st = (Returned tt, st1)
    /\ createUser env name avatar grade gender st1 = (Returned (User.to_json profile), st2)
    /\ User.name profile = name
    /\ collection "sel_users" st2 [User.to_json profile].
Proof.
  intros Hfail. eexists _, _, _. split; [reflexivity|].
  split.
  - apply (createUser_fallback env name avatar grade gender _ [] Hfail).
    unfold collection. cbn [localStorage].
    rewrite lookup_delete_ne by discriminate. rewrite lookup_delete_eq. reflexivity.
  - split; [reflexivity|]. apply (collection_after_write "sel_users" _ [_]).
Qed.

Lemma createUser_after_clear_witness :
  exists st1 st2 profile,
    clearLocalData (stored "{not json" "[]") = (Returned tt, st1)
    /\ createUser offline "Ann" "A" "3" "F" st1 = (Returned (User.to_json profile), st2)
    /\ User.name profile = "Ann"
    /\ collection "sel_users" st2 [User.to_json profile].
Proof.
  apply (createUser_after_clear offline "Ann" "A" "3" "F" (stored "{not json" "[]")).
  reflexivity.
Defined.

(** ** Runs of submissions *)

Lemma collection_frame (key other : string) (text : string) (st : State) (n : nat)
      (l : list json) :
  key <> other ->
  collection key st l ->
  collection key {| localStorage := <[other := text]> (localStorage st); reads := n |} l.
Proof.
  unfold collection. cbn [localStorage]. intros Hne H.
  rewrite lookup_insert_ne by congruence. exact H.
Qed.

Lemma submit_each_stored (env : Env) (userId : Z) (answers : list (Z * Z)) :
  (forall questionId score,
      remote_failed 800 (response_outcome env userId questionId score) = true) ->
  forall (st : State) (l users : list json),
    collection "sel_responses" st l ->
    collection "sel_users" st users ->
    exists acks st' records,
      submit_each env userId answers st = (Returned acks, st')
      /\ collection "sel_responses" st' (l ++ List.map ResponseRecord.to_json records)
      /\ collection "sel_users" st' users
      /\ List.map (fun r => (ResponseRecord.user_id r,
                             (ResponseRecord.question_id r, ResponseRecord.score r))) records
         = List.map (fun a => (userId, a)) answers
      /\ Forall (fun ack => field "status" ack = Some (JStr "saved_local")) acks
      /\ length acks = length answers.
Proof.
  intros Hfail. induction answers as [|[questionId score] tl IH]; intros st l users Hl Hu.
  - exists [], st, []. cbn. rewrite app_nil_r. repeat split; auto.
  - cbn [submit_each]. unfold bind at 1.
    rewrite (submitResponse_fallback env userId questionId score st l (Hfail _ _) Hl).
    set (record := ResponseRecord.make (clock env (reads st)) userId questionId score
                     (Date.toISOString (clock env (S (reads st))))).
    set (st1 := {| localStorage :=
                     <["sel_responses" :=
                         JSON.stringify (JArr (l ++ [ResponseRecord.to_json record]))]>
                       (localStorage st);
                   reads := S (S (S (reads st))) |}).
    destruct (IH st1 (l ++ [ResponseRecord.to_json record]) users)
      as (acks & st' & records & Hrun & Hcoll & Husers & Hrec & Hack & Hlen).
    { apply collection_after_write. }
    { apply collection_frame; [discriminate | exact Hu]. }
    unfold bind at 1. rewrite Hrun.
    eexists (_ :: acks), st', (record :: records).
    split; [reflexivity|].
    split; [cbn [List.map]; rewrite <- app_assoc in Hcoll; exact Hcoll|].
    split; [exact Husers|].
    split; [cbn [List.map]; rewrite Hrec; reflexivity|].
    split; [constructor; [reflexivity | exact Hack] | cbn; now rewrite Hlen].
Qed.

(** X7.  Answers submitted one after the other while the remote is
    unavailable are all stored, in the order of the calls, after what was
    stored before: the collection grows by one record for each answer,
    whose user_id, question_id and score are the user, question and
    score of that answer, every call acknowledges "saved_local", and the
    stored users are not touched. *)
Theorem submit_each_appends (env : Env) (userId : Z) (answers : list (Z * Z)) :
  (forall questionId score,
      remote_failed 800 (response_outcome env userId questionId score) = true) ->
  forall (st : State) (l users : list json),
    collection "sel_responses" st l ->
    collection "sel_users" st users ->
    exists acks records st',
      submit_each env userId answers st = (Returned acks, st')
      /\ collection "sel_responses" st' (l ++ records)
      /\ collection "sel_users" st' users
      /\ Forall2 (fun answer record =>
                    field "user_id" record = Some (JNum userId)
                    /\ field "question_id" record = Some (JNum (fst answer))
                    /\ field "score" record = Some (JNum (snd answer)))
                 answers records
      /\ Forall (fun ack => field "status" ack = Some (JStr "saved_local")) acks
      /\ length acks = length answers.
Proof.
  intros Hfail st l users Hl Hu.
  destruct (submit_each_stored env userId answers Hfail st l users Hl Hu)
    as (acks & st' & records & Hrun & Hstored & Husers & Hrecords & Hacks & Hlen).
  exists acks, (List.map ResponseRecord.to_json records), st'.
  split; [exact Hrun|]. split; [exact Hstored|]. split; [exact Husers|].
  split; [|split; [exact Hacks | exact Hlen]].
  clear - Hrecords. revert answers Hrecords.
  induction records as [|r tl IH]; intros [|[q s] answers] Hrecords;
    try discriminate Hrecords; [constructor|].
  cbn [List.map] in Hrecords. injection Hrecords as Hid Hq Hs Htl.
  cbn [List.map]. constructor; [|exact (IH answers Htl)].
  cbn. rewrite Hid, Hq, Hs. repeat split.
Qed.

Lemma submit_each_appends_witness :
  exists acks records st',
    submit_each offline 7 [(1, 4); (2, 5)] fresh = (Returned acks, st')
    /\ collection "sel_responses" st' ([] ++ records)
    /\ collection "sel_users" st' []
    /\ Forall2 (fun answer record =>
                  field "user_id" record = Some (JNum 7)
                  /\ field "question_id" record = Some (JNum (fst answer))
                  /\ field "score" record = Some (JNum (snd answer)))
               [(1, 4); (2, 5)] records
    /\ Forall (fun ack => field "status" ack = Some (JStr "saved_local")) acks
    /\ length acks = length [(1, 4); (2, 5)].
Proof.
  apply (submit_each_appends offline 7 [(1, 4); (2, 5)]); [intros; reflexivity | ..];
    reflexivity.
Defined.

Lemma profile_of_appended (us : list User.t) (profile : User.t) :
  profile_of (User.id profile) us = None ->
  profile_of (User.id profile) (us ++ [profile]) = Some profile.
Proof.
  unfold profile_of. induction us as [|u tl IH]; cbn [List.find app].
  - rewrite Z.eqb_refl. reflexivity.
  - destruct (User.id u =? User.id profile); [discriminate | exact IH].
Qed.

Lemma assembled_row_of_profile (us : list User.t) (profile : User.t)
      (r : ResponseRecord.t) :
  profile_of (ResponseRecord.user_id r) us = Some profile ->
  let row := assembled_row us r in
  Row.user_id row = Some (JNum (User.id profile))
  /\ Row.user_name row = Some (JStr (User.name profile))
  /\ Row.user_avatar row = Some (JStr (User.avatar profile))
  /\ Row.user_grade row = Some (JStr (User.grade profile))
  /\ Row.user_gender row = Some (JStr (User.gender profile)).
Proof.
  intros Hfound. unfold assembled_row. cbn. rewrite Hfound. repeat split.
Qed.

Lemma offline_quiz_stored (env : Env) (name avatar grade gender : string)
      (answers : list (Z * Z)) (st : State)
      (us : list User.t) (rs : list ResponseRecord.t) :
  let userId := clock env (reads st) in
  let profile := User.make userId name avatar grade gender in
  remote_failed 1500 (login_outcome env name avatar grade gender) = true ->
  (forall questionId score,
      remote_failed 800 (response_outcome env userId questionId score) = true) ->
  remote_failed 2000 (report_outcome env) = true ->
  collection "sel_users" st (List.map User.to_json us) ->
  collection "sel_responses" st (List.map ResponseRecord.to_json rs) ->
  exists st1 acks st2 records rows,
    createUser env name avatar grade gender st = (Returned (User.to_json profile), st1)
    /\ submit_each env userId answers st1 = (Returned acks, st2)
    /\ fetchAllResponses env st2
       = (Returned {| source := "LOCAL"; data := LocalRows rows |}, st2)
    /\ length rows = (length rs + length answers)%nat
    /\ Permutation rows (List.map (assembled_row (us ++ [profile])) (rs ++ records))
    /\ List.map (fun r => (ResponseRecord.question_id r, ResponseRecord.score r)) records
       = answers
    /\ Forall (fun r => ResponseRecord.user_id r = userId) records.
Proof.
  intros userId profile Hlogin Hsubmit Hreport Hus Hrs.
  pose proof (createUser_fallback env name avatar grade gender st _ Hlogin Hus) as Hcreate.
  cbv zeta in Hcreate. fold userId in Hcreate. fold profile in Hcreate.
  match type of Hcreate with _ = (_, ?s) => set (st1 := s) in * end.
  assert (Hus1 : collection "sel_users" st1 (List.map User.to_json (us ++ [profile]))).
  { rewrite List.map_app. apply collection_after_write. }
  assert (Hrs1 : collection "sel_responses" st1 (List.map ResponseRecord.to_json rs)).
  { apply collection_frame; [discriminate | exact Hrs]. }
  destruct (submit_each_stored env userId answers Hsubmit st1 _ _ Hrs1 Hus1)
    as (acks & st2 & records & Hrun & Hrs2 & Hus2 & Hrec & _ & Hlen).
  rewrite <- List.map_app in Hrs2.
  assert (Hlength : length records = length answers).
  { rewrite <- (length_map (fun r => (ResponseRecord.user_id r,
                  (ResponseRecord.question_id r, ResponseRecord.score r))) records).
    rewrite Hrec. apply length_map. }
  exists st1, acks, st2, records. eexists.
  split; [exact Hcreate|]. split; [exact Hrun|].
  split; [apply (fetchAllResponses_fallback env st2 _ _ Hreport Hus2 Hrs2)|].
  split.
  { rewrite (Permutation_length (sorted_permutation _ _)), length_map, length_app. lia. }
  split; [apply sorted_permutation|].
  split.
  { clear - Hrec. revert answers Hrec.
    induction records as [|r tl IH]; intros [|a answers] Hrec; try discriminate Hrec.
    - reflexivity.
    - destruct a as [q s]. cbn [List.map] in *. injection Hrec as _ Hq Hs Htl.
      rewrite (IH answers Htl). congruence. }
  clear - Hrec. revert answers Hrec.
  induction records as [|r tl IH]; intros [|a answers] Hrec; try discriminate Hrec.
  - constructor.
  - cbn [List.map] in Hrec. injection Hrec as Hid _ Htl.
    constructor; [exact Hid | exact (IH answers Htl)].
Qed.

Lemma profile_of_kept (us : list User.t) (uid : Z) (older newer : User.t) :
  profile_of uid us = Some older -> profile_of uid (us ++ [newer]) = Some older.
Proof.
  unfold profile_of. induction us as [|u tl IH]; cbn [List.find app]; [discriminate|].
  destruct (User.id u =? uid); [trivial | exact IH].
Qed.

(** X8.  A quiz taken while the server is unreachable shows in the
    report read while it is unreachable: after [createUser], the answers
    submitted with the id it returned, and [fetchAllResponses], the
    report has one row more for each answer, and the row of each of these
    answers carries the name, avatar, grade and gender given to
    [createUser], provided no stored profile already has the id that the
    clock gives the new one. *)
Theorem offline_quiz_reported (env : Env) (name avatar grade gender : string)
        (answers : list (Z * Z)) (st : State)
        (us : list User.t) (rs : list ResponseRecord.t) :
  let userId := clock env (reads st) in
  let profile := User.make userId name avatar grade gender in
  remote_failed 1500 (login_outcome env name avatar grade gender) = true ->
  (forall questionId score,
      remote_failed 800 (response_outcome env userId questionId score) = true) ->
  remote_failed 2000 (report_outcome env) = true ->
  collection "sel_users" st (List.map User.to_json us) ->
  collection "sel_responses" st (List.map ResponseRecord.to_json rs) ->
  profile_of userId us = None ->
  exists st1 acks st2 records rows,
    createUser env name avatar grade gender st = (Returned (User.to_json profile), st1)
    /\ submit_each env userId answers st1 = (Returned acks, st2)
    /\ fetchAllResponses env st2
       = (Returned {| source := "LOCAL"; data := LocalRows rows |}, st2)
    /\ length rows = (length rs + length answers)%nat
    /\ Permutation rows (List.map (assembled_row (us ++ [profile])) (rs ++ records))
    /\ List.map (fun r => (ResponseRecord.question_id r, ResponseRecord.score r)) records
       = answers
    /\ Forall (fun r =>
                 let row := assembled_row (us ++ [profile]) r in
                 Row.user_id row = Some (JNum userId)
                 /\ Row.user_name row = Some (JStr name)
                 /\ Row.user_avatar row = Some (JStr avatar)
                 /\ Row.user_grade row = Some (JStr grade)
                 /\ Row.user_gender row = Some (JStr gender)) records.
Proof.
  intros userId profile Hlogin Hsubmit Hreport Hus Hrs Hfresh.
  destruct (offline_quiz_stored env name avatar grade gender answers st us rs
              Hlogin Hsubmit Hreport Hus Hrs)
    as (st1 & acks & st2 & records & rows & H1 & H2 & H3 & H4 & H5 & H6 & Hids).
  exists st1, acks, st2, records, rows. repeat (split; [assumption|]).
  eapply Forall_impl; [exact Hids|]. intros r Hr. cbn beta in Hr.
  apply (assembled_row_of_profile (us ++ [profile]) profile r).
  rewrite Hr. apply (profile_of_appended us profile Hfresh).
Qed.

Lemma offline_quiz_reported_witness :
  exists st1 acks st2 records rows,
    createUser offline "Ann" "A" "3" "F" fresh
    = (Returned (User.to_json (User.make 1700000000000 "Ann" "A" "3" "F")), st1)
    /\ submit_each offline 1700000000000 [(1, 4); (2, 5)] st1 = (Returned acks, st2)
    /\ fetchAllResponses offline st2
       = (Returned {| source := "LOCAL"; data := LocalRows rows |}, st2)
    /\ length rows = (length (@nil ResponseRecord.t) + length [(1, 4); (2, 5)])%nat
    /\ Permutation rows
         (List.map (assembled_row ([] ++ [User.make 1700000000000 "Ann" "A" "3" "F"]))
            ([] ++ records))
    /\ List.map (fun r => (ResponseRecord.question_id r, ResponseRecord.score r)) records
       = [(1, 4); (2, 5)]
    /\ Forall (fun r =>
                 let row :=
                   assembled_row ([] ++ [User.make 1700000000000 "Ann" "A" "3" "F"]) r in
                 Row.user_id row = Some (JNum 1700000000000)
                 /\ Row.user_name row = Some (JStr "Ann")
                 /\ Row.user_avatar row = Some (JStr "A")
                 /\ Row.user_grade row = Some (JStr "3")
                 /\ Row.user_gender row = Some (JStr "F")) records.
Proof.
  apply (offline_quiz_reported offline "Ann" "A" "3" "F" [(1, 4); (2, 5)] fresh [] []);
    reflexivity.
Defined.

(** X9.  When a stored profile already has the id that the clock gives
    the new one (two profiles made in the same millisecond), the join
    takes the older profile: the rows of the answers of the new user
    carry the name, avatar, grade and gender of the older one. *)
Theorem offline_quiz_under_older_name (env : Env) (name avatar grade gender : string)
        (answers : list (Z * Z)) (st : State)
        (us : list User.t) (rs : list ResponseRecord.t) (older : User.t) :
  let userId := clock env (reads st) in
  let profile := User.make userId name avatar grade gender in
  remote_failed 1500 (login_outcome env name avatar grade gender) = true ->
  (forall questionId score,
      remote_failed 800 (response_outcome env userId questionId score) = true) ->
  remote_failed 2000 (report_outcome env) = true ->
  collection "sel_users" st (List.map User.to_json us) ->
  collection "sel_responses" st (List.map ResponseRecord.to_json rs) ->
  profile_of userId us = Some older ->
  exists st1 acks st2 records rows,
    createUser env name avatar grade gender st = (Returned (User.to_json profile), st1)
    /\ submit_each env userId answers st1 = (Returned acks, st2)
    /\ fetchAllResponses env st2
       = (Returned {| source := "LOCAL"; data := LocalRows rows |}, st2)
    /\ Permutation rows (List.map (assembled_row (us ++ [profile])) (rs ++ records))
    /\ List.map (fun r => (ResponseRecord.question_id r, ResponseRecord.score r)) records
       = answers
    /\ Forall (fun r =>
                 let row := assembled_row (us ++ [profile]) r in
                 Row.user_name row = Some (JStr (User.name older))
                 /\ Row.user_avatar row = Some (JStr (User.avatar older))
                 /\ Row.user_grade row = Some (JStr (User.grade older))
                 /\ Row.user_gender row = Some (JStr (User.gender older))) records.
Proof.
  intros userId profile Hlogin Hsubmit Hreport Hus Hrs Holder.
  destruct (offline_quiz_stored env name avatar grade gender answers st us rs
              Hlogin Hsubmit Hreport Hus Hrs)
    as (st1 & acks & st2 & records & rows & H1 & H2 & H3 & H4 & H5 & H6 & Hids).
  exists st1, acks, st2, records, rows. repeat (split; [assumption|]).
  eapply Forall_impl; [exact Hids|]. intros r Hr. cbn beta in Hr.
  apply (assembled_row_of_profile (us ++ [profile]) older r).
  rewrite Hr. apply (profile_of_kept us userId older profile Holder).
Qed.

Lemma offline_quiz_under_older_name_witness :
  exists st1 acks st2 records rows,
    createUser offline "Ben" "C" "4" "M"
      (stored_records [User.make 1700000000000 "Ann" "A" "3" "F"] [])
    = (Returned (User.to_json (User.make 1700000000000 "Ben" "C" "4" "M")), st1)
    /\ submit_each offline 1700000000000 [(1, 4)] st1 = (Returned acks, st2)
    /\ fetchAllResponses offline st2
       = (Returned {| source := "LOCAL"; data := LocalRows rows |}, st2)
    /\ Permutation rows
         (List.map (assembled_row ([User.make 1700000000000 "Ann" "A" "3" "F"]
                                     ++ [User.make 1700000000000 "Ben" "C" "4" "M"]))
            ([] ++ records))
    /\ List.map (fun r => (ResponseRecord.question_id r, ResponseRecord.score r)) records
       = [(1, 4)]
    /\ Forall (fun r =>
                 let row :=
                   assembled_row ([User.make 1700000000000 "Ann" "A" "3" "F"]
                                    ++ [User.make 1700000000000 "Ben" "C" "4" "M"]) r in
                 Row.user_name row = Some (JStr "Ann")
                 /\ Row.user_avatar row = Some (JStr "A")
                 /\ Row.user_grade row = Some (JStr "3")
                 /\ Row.user_gender row = Some (JStr "F")) records.
Proof.
  apply (offline_quiz_under_older_name offline "Ben" "C" "4" "M" [(1, 4)]
           (stored_records [User.make 1700000000000 "Ann" "A" "3" "F"] [])
           [User.make 1700000000000 "Ann" "A" "3" "F"] []
           (User.make 1700000000000 "Ann" "A" "3" "F"));
    try reflexivity; vm_compute; reflexivity.
Defined.

(** ** The report on entries of any shape *)

Lemma get_returns (key : string) (x : json) (st : State) :
  x <> JNull -> get key (Some x) st = (Returned (field key x), st).
Proof. destruct x; try reflexivity. congruence. Qed.

Lemma find_in_returns (p : json -> M bool) (l : list json) (st : State) :
  (forall u, In u l -> exists b, p u st = (Returned b, st)) ->
  exists v, Array.find_in p l st = (Returned v, st)
            /\ (v = None \/ exists u, v = Some u /\ In u l).
Proof.
  induction l as [|x tl IH]; intros Hp; cbn [Array.find_in].
  - exists None. split; [reflexivity | now left].
  - unfold bind. destruct (Hp x (or_introl eq_refl)) as [b Hb]. rewrite Hb.
    destruct b.
    + exists (Some x). split; [reflexivity|]. right. exists x. split; [reflexivity | now left].
    + destruct IH as (v & Hv & Hin); [intros u Hu; apply Hp; now right|].
      exists v. split; [exact Hv|]. destruct Hin as [-> | (u & -> & Hu)]; [now left|].
      right. exists u. split; [reflexivity | now right].
Qed.

Lemma field_or_returns (user : value) (key : string) (otherwise : json) (st : State) :
  exists v, field_or user key otherwise st = (Returned v, st).
Proof.
  unfold field_or. destruct (truthy user) eqn:Htruthy; [|eexists; reflexivity].
  destruct user as [x|]; [|discriminate Htruthy].
  rewrite get_returns; [eexists; reflexivity|]. intros ->. discriminate Htruthy.
Qed.

Lemma join_row_returns (lu : list json) (r : json) (st : State) :
  no_null lu -> r <> JNull ->
  exists row, join_row (JArr lu) r st = (Returned row, st)
              /\ Row.timestamp row = field "timestamp" r.
Proof.
  unfold no_null. intros Hlu Hr. unfold join_row. cbn [Array.find].
  destruct (find_in_returns
              (fun u => let* uid := get "id" (Some u) in
                        let* rid := get "user_id" (Some r) in
                        ret (strict_eq uid rid)) lu st) as (user & Hfind & _).
  { intros u Hu. unfold bind.
    rewrite get_returns by (rewrite List.Forall_forall in Hlu; exact (Hlu u Hu)).
    rewrite get_returns by exact Hr. eexists. reflexivity. }
  unfold bind at 1. rewrite Hfind.
  repeat (unfold bind at 1;
          match goal with
          | |- context [field_or ?u ?k ?o st] =>
            let v := fresh "v" in let Hv := fresh "Hv" in
            destruct (field_or_returns u k o st) as [v Hv]; rewrite Hv
          end).
  unfold bind. rewrite !get_returns by exact Hr. eexists. split; reflexivity.
Qed.

Lemma join_row_null (lu : list json) (st : State) :
  no_null lu -> join_row (JArr lu) JNull st = (Thrown TypeError, st).
Proof.
  unfold no_null. intros Hlu. unfold join_row. cbn [Array.find]. unfold bind at 1.
  destruct lu as [|u tl].
  - reflexivity.
  - cbn [Array.find_in]. unfold bind at 1. unfold bind at 1.
    rewrite get_returns by exact (Forall_inv Hlu). reflexivity.
Qed.

Lemma map_join_row_returns (lu lr : list json) (st : State) :
  no_null lu -> no_null lr ->
  exists rows, Array.map_in (join_row (JArr lu)) lr st = (Returned rows, st)
               /\ List.map Row.timestamp rows = List.map (field "timestamp") lr.
Proof.
  intros Hlu Hlr. unfold no_null in Hlr.
  induction Hlr as [|r tl Hr Htl IH]; cbn [Array.map_in].
  - exists []. split; reflexivity.
  - destruct (join_row_returns lu r st Hlu Hr) as (row & Hrow & Htime).
    destruct IH as (rows & Hrows & Htimes).
    unfold bind at 1. rewrite Hrow. unfold bind at 1. rewrite Hrows.
    exists (row :: rows). split; [reflexivity | cbn; now rewrite Htime, Htimes].
Qed.

Lemma json_is_null_true (x : json) : json_is_null x = true -> x = JNull.
Proof. destruct x; try discriminate. reflexivity. Qed.

Lemma map_join_row_null (lu lr : list json) (st : State) :
  no_null lu -> In JNull lr ->
  Array.map_in (join_row (JArr lu)) lr st = (Thrown TypeError, st).
Proof.
  intros Hlu. induction lr as [|r tl IH]; intros Hin; [destruct Hin|].
  cbn [Array.map_in]. unfold bind at 1.
  destruct (json_is_null r) eqn:Hnull.
  - apply json_is_null_true in Hnull. subst r. rewrite (join_row_null lu st Hlu). reflexivity.
  - destruct (join_row_returns lu r st Hlu) as (row & Hrow & _).
    { intros ->. discriminate Hnull. }
    rewrite Hrow. unfold bind at 1.
    rewrite IH; [reflexivity|].
    destruct Hin as [Heq | Hin]; [subst r; discriminate Hnull | exact Hin].
Qed.

Lemma fetchAllResponses_catch_arrays (env : Env) (st : State) (e : exn)
      (lu lr : list json) :
  collection "sel_users" st lu ->
  collection "sel_responses" st lr ->
  fetchAllResponses_catch env e st
  = match Array.map_in (join_row (JArr lu)) lr st with
    | (Returned joined, st') =>
      match Array.sort (newest_first env) joined st' with
      | (Returned rows, st'') =>
        (Returned {| source := "LOCAL"; data := LocalRows rows |}, st'')
      | (Thrown err, st'') => (Thrown err, st'')
      end
    | (Thrown err, st') => (Thrown err, st')
    end.
Proof.
  intros Hlu Hlr.
  unfold fetchAllResponses_catch, console_warn, Storage.getItem.
  unfold bind at 1. unfold ret at 1. unfold bind at 1.
  unfold bind at 1. unfold JSON_parse at 1.
  unfold collection in Hlu, Hlr. rewrite Hlu.
  unfold ret at 1. unfold bind at 1. unfold bind at 1.
  unfold JSON_parse at 1. rewrite Hlr.
  unfold ret at 1. unfold bind at 1. cbn [Array.map].
  destruct (Array.map_in (join_row (JArr lu)) lr st) as [[joined | err] st'];
    [|reflexivity].
  unfold bind.
  destruct (Array.sort (newest_first env) joined st') as [[rows | err] st'']; reflexivity.
Qed.

Lemma forallb_timestamps (rows : list Row.t) (lr : list json) :
  List.map Row.timestamp rows = List.map (field "timestamp") lr ->
  forallb (fun a => convertible (Row.timestamp a)) rows
  = forallb (fun r => convertible (field "timestamp" r)) lr.
Proof.
  revert lr. induction rows as [|a tl IH]; intros [|r lr] H; try discriminate H;
    [reflexivity|].
  cbn [List.map] in H. injection H as Ha Htl. cbn [forallb].
  rewrite Ha, (IH lr Htl). reflexivity.
Qed.

Lemma existsb_timestamps (rows : list Row.t) (lr : list json) :
  List.map Row.timestamp rows = List.map (field "timestamp") lr ->
  existsb (fun a => negb (convertible (Row.timestamp a))) rows
  = existsb (fun r => negb (convertible (field "timestamp" r))) lr.
Proof.
  revert lr. induction rows as [|a tl IH]; intros [|r lr] H; try discriminate H;
    [reflexivity|].
  cbn [List.map] in H. injection H as Ha Htl. cbn [existsb].
  rewrite Ha, (IH lr Htl). reflexivity.
Qed.

(** X10.  In degraded mode, with arrays stored under both keys and no
    [null] among the stored users, [fetchAllResponses] takes stored
    responses of any shape (numbers, strings, objects without the fields
    it reads) and returns a "LOCAL" report with one row for each of
    them, as long as none is [null] and every timestamp is one that
    [new Date] converts.  It throws TypeError to its caller when a
    stored response is [null], and also when there are two or more
    stored responses and the timestamp of one is an object, or an array,
    that leads to a member "toString". *)
Theorem fetchAllResponses_on_any_entries (env : Env) (st : State) (lu lr : list json) :
  remote_failed 2000 (report_outcome env) = true ->
  collection "sel_users" st lu ->
  collection "sel_responses" st lr ->
  no_null lu ->
  (no_null lr ->
   forallb (fun r => convertible (field "timestamp" r)) lr = true ->
   exists rows,
     fetchAllResponses env st
     = (Returned {| source := "LOCAL"; data := LocalRows rows |}, st)
     /\ length rows = length lr)
  /\ (In JNull lr -> fetchAllResponses env st = (Thrown TypeError, st))
  /\ (no_null lr -> (2 <= length lr)%nat ->
      existsb (fun r => negb (convertible (field "timestamp" r))) lr = true ->
      fetchAllResponses env st = (Thrown TypeError, st)).
Proof.
  intros Hfail Hlu Hlr Hnull.
  destruct (fetchAllResponses_try_fails env st Hfail) as [e He].
  unfold fetchAllResponses, try_catch. rewrite He.
  rewrite (fetchAllResponses_catch_arrays env st e lu lr Hlu Hlr).
  split; [|split].
  - intros Hrows Htimes.
    destruct (map_join_row_returns lu lr st Hnull Hrows) as (rows & -> & Hstamps).
    rewrite (sort_rows_returns env rows st)
      by (rewrite (forallb_timestamps rows lr Hstamps); exact Htimes).
    eexists. split; [reflexivity|].
    rewrite (Permutation_length (sorted_permutation _ _)).
    rewrite <- (length_map Row.timestamp rows), Hstamps. apply length_map.
  - intros Hin. rewrite (map_join_row_null lu lr st Hnull Hin). reflexivity.
  - intros Hrows Hlen Htimes.
    destruct (map_join_row_returns lu lr st Hnull Hrows) as (rows & -> & Hstamps).
    rewrite (sort_rows_throws env rows st); [reflexivity | |].
    + rewrite <- (length_map Row.timestamp rows), Hstamps, length_map. exact Hlen.
    + rewrite (existsb_timestamps rows lr Hstamps). exact Htimes.
Qed.

Lemma fetchAllResponses_on_any_entries_witness :
  (exists rows,
     fetchAllResponses offline (stored "[7]" "[{},true]")
     = (Returned {| source := "LOCAL"; data := LocalRows rows |}, stored "[7]" "[{},true]")
     /\ length rows = length [JObj []; JBool true])
  /\ fetchAllResponses offline (stored "[7]" "[{},null]")
     = (Thrown TypeError, stored "[7]" "[{},null]")
  /\ fetchAllResponses offline (stored "[7]" (JSON.stringify (JArr odd_responses)))
     = (Thrown TypeError, stored "[7]" (JSON.stringify (JArr odd_responses))).
Proof.
  assert (Husers : no_null [JNum 7]) by (repeat constructor; discriminate).
  split; [|split].
  - destruct (fetchAllResponses_on_any_entries offline (stored "[7]" "[{},true]")
                [JNum 7] [JObj []; JBool true] eq_refl eq_refl eq_refl Husers)
      as (Hrows & _ & _).
    apply Hrows; [repeat constructor; discriminate | reflexivity].
  - destruct (fetchAllResponses_on_any_entries offline (stored "[7]" "[{},null]")
                [JNum 7] [JObj []; JNull] eq_refl eq_refl eq_refl Husers)
      as (_ & Hnull & _).
    apply Hnull. right. left. reflexivity.
  - destruct (fetchAllResponses_on_any_entries offline
                (stored "[7]" (JSON.stringify (JArr odd_responses)))
                [JNum 7] odd_responses eq_refl eq_refl eq_refl Husers)
      as (_ & _ & Hthrows).
    apply Hthrows; [repeat constructor; discriminate | cbn; lia | reflexivity].
Defined.

(** * components/ProfileSelector.tsx *)

Example trim_spaces : trim "  Ann Lee 	" = "Ann Lee".
Proof. reflexivity. Qed.

Example trim_wide_space :
  trim (String "227" (String "128" (String "128" "A"))) = "A".
Proof. reflexivity. Qed.


(** X12.  [handleStart] calls [createUser] only for a complete form: when
    the name is blank (empty or white space only), or no grade or no
    gender is chosen, it hands no user to [onUserCreated], shows the
    message of the first missing field and leaves local storage, the
    clock and the button as they were; so a user it hands over always
    comes with a name that is not blank. *)
Theorem handleStart_validates (env : Env) (form : ProfileSelector.t) (st : State) :
  (empty (trim (ProfileSelector.name form)) = true ->
   ProfileSelector.handleStart env form st
   = (Returned (ProfileSelector.setError ProfileSelector.name_missing form, None), st))
  /\ (empty (trim (ProfileSelector.name form)) = false ->
      empty (ProfileSelector.grade form) = true ->
      ProfileSelector.handleStart env form st
      = (Returned (ProfileSelector.setError ProfileSelector.grade_missing form, None), st))
  /\ (empty (trim (ProfileSelector.name form)) = false ->
      empty (ProfileSelector.grade form) = false ->
      empty (ProfileSelector.gender form) = true ->
      ProfileSelector.handleStart env form st
      = (Returned (ProfileSelector.setError ProfileSelector.gender_missing form, None), st))
  /\ (forall form' user st',
         ProfileSelector.handleStart env form st = (Returned (form', Some user), st') ->
         empty (trim (ProfileSelector.name form)) = false
         /\ empty (ProfileSelector.grade form) = false
         /\ empty (ProfileSelector.gender form) = false).
Proof.
  unfold ProfileSelector.handleStart.
  split; [intros ->; reflexivity|].
  split; [intros -> ->; reflexivity|].
  split; [intros -> -> ->; reflexivity|].
  intros form' user st'.
  destruct (empty (trim (ProfileSelector.name form))); [discriminate|].
  destruct (empty (ProfileSelector.grade form)); [discriminate|].
  destruct (empty (ProfileSelector.gender form)); [discriminate|].
  intros _. repeat split.
Qed.

Lemma handleStart_validates_witness :
  ProfileSelector.handleStart offline
    (ProfileSelector.make (String "227" (String "128" (String "128" " "))) "3" "F" "A"
       false EmptyString) fresh
  = (Returned
       (ProfileSelector.setError ProfileSelector.name_missing
          (ProfileSelector.make (String "227" (String "128" (String "128" " "))) "3" "F" "A"
             false EmptyString), None), fresh).
Proof.
  apply (handleStart_validates offline
           (ProfileSelector.make (String "227" (String "128" (String "128" " "))) "3" "F" "A"
              false EmptyString) fresh).
  reflexivity.
Defined.

(** X13.  With a complete form, a remote create that fails and stored
    users that are a JSON array, [handleStart] hands [onUserCreated] the
    profile made locally: its id is the clock reading and its name is
    the name as typed (not trimmed), with the chosen avatar, grade and
    gender; that profile is stored after the users stored before, the
    error is cleared and the button stays disabled. *)
Theorem handleStart_offline (env : Env) (form : ProfileSelector.t) (st : State)
        (l : list json) :
  empty (trim (ProfileSelector.name form)) = false ->
  empty (ProfileSelector.grade form) = false ->
  empty (ProfileSelector.gender form) = false ->
  remote_failed 1500
    (login_outcome env (ProfileSelector.name form) (ProfileSelector.selectedAvatar form)
       (ProfileSelector.grade form) (ProfileSelector.gender form)) = true ->
  collection "sel_users" st l ->
  exists user st',
    ProfileSelector.handleStart env form st
    = (Returned
         (ProfileSelector.make (ProfileSelector.name form) (ProfileSelector.grade form)
            (ProfileSelector.gender form) (ProfileSelector.selectedAvatar form)
            true EmptyString,
          Some user), st')
    /\ field "id" user = Some (JNum (clock env (reads st)))
    /\ field "name" user = Some (JStr (ProfileSelector.name form))
    /\ field "avatar" user = Some (JStr (ProfileSelector.selectedAvatar form))
    /\ field "grade" user = Some (JStr (ProfileSelector.grade form))
    /\ field "gender" user = Some (JStr (ProfileSelector.gender form))
    /\ collection "sel_users" st' (l ++ [user]).
Proof.
  intros Hname Hgrade Hgender Hfail Hstored.
  unfold ProfileSelector.handleStart. rewrite Hname, Hgrade, Hgender.
  unfold try_catch, bind. cbn [ProfileSelector.name ProfileSelector.grade
    ProfileSelector.gender ProfileSelector.selectedAvatar ProfileSelector.setError
    ProfileSelector.setIsLoading ProfileSelector.isLoading].
  rewrite (createUser_fallback env _ _ _ _ st l Hfail Hstored).
  eexists _, _. split; [reflexivity|].
  repeat (split; [reflexivity|]). apply collection_after_write.
Qed.

Lemma handleStart_offline_witness :
  exists user st',
    ProfileSelector.handleStart offline
      (ProfileSelector.make " Ann " "3" "F" "A" false "old message") fresh
    = (Returned (ProfileSelector.make " Ann " "3" "F" "A" true EmptyString, Some user), st')
    /\ field "id" user = Some (JNum 1700000000000)
    /\ field "name" user = Some (JStr " Ann ")
    /\ field "avatar" user = Some (JStr "A")
    /\ field "grade" user = Some (JStr "3")
    /\ field "gender" user = Some (JStr "F")
    /\ collection "sel_users" st' ([] ++ [user]).
Proof.
  apply (handleStart_offline offline
           (ProfileSelector.make " Ann " "3" "F" "A" false "old message") fresh []);
    reflexivity.
Defined.

(** X14.  With a complete form and a remote create that fails, when the
    entry "sel_users" does not hold an array (it is not JSON, or JSON
    for another value) [handleStart] catches what [createUser] throws:
    no user is handed over, the message "Error occurred" is shown, the
    button is enabled again and local storage is left as it was. *)
Theorem handleStart_catches (env : Env) (form : ProfileSelector.t) (st : State) :
  empty (trim (ProfileSelector.name form)) = false ->
  empty (ProfileSelector.grade form) = false ->
  empty (ProfileSelector.gender form) = false ->
  remote_failed 1500
    (login_outcome env (ProfileSelector.name form) (ProfileSelector.selectedAvatar form)
       (ProfileSelector.grade form) (ProfileSelector.gender form)) = true ->
  not_an_array "sel_users" st ->
  exists st',
    ProfileSelector.handleStart env form st
    = (Returned
         (ProfileSelector.make (ProfileSelector.name form) (ProfileSelector.grade form)
            (ProfileSelector.gender form) (ProfileSelector.selectedAvatar form)
            false ProfileSelector.error_occurred, None), st')
    /\ localStorage st' = localStorage st.
Proof.
  intros Hname Hgrade Hgender Hfail Hdamaged.
  unfold ProfileSelector.handleStart. rewrite Hname, Hgrade, Hgender.
  unfold try_catch, bind. cbn [ProfileSelector.name ProfileSelector.grade
    ProfileSelector.gender ProfileSelector.selectedAvatar ProfileSelector.setError
    ProfileSelector.setIsLoading ProfileSelector.isLoading].
  rewrite (createUser_fallback_cases env _ _ _ _ st Hfail). unfold JSON_parse.
  destruct Hdamaged as [Htext | (v & Hv & Harray)].
  - rewrite (not_json_parse _ Htext). eexists. split; reflexivity.
  - rewrite Hv. destruct v; try discriminate Harray; eexists; split; reflexivity.
Qed.

Lemma handleStart_catches_witness :
  exists st',
    ProfileSelector.handleStart offline
      (ProfileSelector.make "Ann" "3" "F" "A" false EmptyString) (stored "<html>" "[]")
    = (Returned
         (ProfileSelector.make "Ann" "3" "F" "A" false ProfileSelector.error_occurred, None),
       st')
    /\ localStorage st' = localStorage (stored "<html>" "[]").
Proof.
  apply (handleStart_catches offline
           (ProfileSelector.make "Ann" "3" "F" "A" false EmptyString)
           (stored "<html>" "[]")); try reflexivity.
  left. reflexivity.
Defined.

(** * components/QuestionCard.tsx *)

Lemma submitResponse_thrown_stores_nothing (env : Env) (userId questionId score : Z)
      (st st' : State) (e : exn) :
  submitResponse env userId questionId score st = (Thrown e, st') ->
  localStorage st' = localStorage st.
Proof.
  unfold submitResponse, submitResponse_try, submitResponse_catch, bind, try_catch,
    fetchWithTimeout, await, ret, throw, Response_json, Storage.getItem, JSON_parse,
    Array.method_of, Array.push, Date_now, Storage.setItem.
  destruct (remote env _ _) as [latency res | latency |];
    try destruct (latency <? 800); try destruct (ok res); cbn [negb];
    try destruct (JSON.parse (text res));
    try destruct (JSON.parse (or_else (localStorage st !! "sel_responses") "[]")) as [[]|];
    cbn; intros H; inversion H; reflexivity.
Qed.

Lemma handleScoreSelect_settles (env : Env) (userId questionId score : Z)
      (card : QuestionCard.t) (st : State) :
  exists st',
    QuestionCard.handleScoreSelect env userId questionId score card st
    = (Returned (QuestionCard.make (Some score) true (QuestionCard.imgError card), true), st').
Proof.
  unfold QuestionCard.handleScoreSelect, bind, try_catch.
  destruct (submitResponse env userId questionId score st) as [[ack | e] st1];
    eexists; reflexivity.
Qed.

(** X15.  [handleScoreSelect] never throws and always sets the timer that
    moves the quiz on, with the chosen score shown and the scale locked;
    and when the submission fails altogether (it throws), the failure is
    only logged: local storage is as it was, so that answer is stored
    nowhere. *)
Theorem handleScoreSelect_moves_on (env : Env) (userId questionId score : Z)
        (card : QuestionCard.t) (st : State) :
  exists st',
    QuestionCard.handleScoreSelect env userId questionId score card st
    = (Returned (QuestionCard.make (Some score) true (QuestionCard.imgError card), true), st')
    /\ (forall e st1,
           submitResponse env userId questionId score st = (Thrown e, st1) ->
           localStorage st' = localStorage st).
Proof.
  unfold QuestionCard.handleScoreSelect, bind, try_catch.
  destruct (submitResponse env userId questionId score st) as [[ack | e] st1] eqn:Hsubmit.
  - eexists. split; [reflexivity|]. intros e st2 H. discriminate H.
  - eexists. split; [reflexivity|]. intros e' st2 _. cbn.
    exact (submitResponse_thrown_stores_nothing _ _ _ _ _ _ _ Hsubmit).
Qed.

(** X16.  The scale is locked by the first click: from a card that is not
    submitting, a click stores at most through one [submitResponse] and
    sets one timer, and any further click on the card it leaves changes
    neither the card nor the state and sets no timer. *)
Theorem onClick_once (env : Env) (userId questionId first second : Z)
        (card : QuestionCard.t) (st : State) :
  QuestionCard.isSubmitting card = false ->
  exists card1 st1,
    QuestionCard.onClick env userId questionId first card st = (Returned (card1, true), st1)
    /\ QuestionCard.selectedScore card1 = Some first
    /\ QuestionCard.onClick env userId questionId second card1 st1
       = (Returned (card1, false), st1).
Proof.
  intros Hfree. unfold QuestionCard.onClick at 1. rewrite Hfree. cbn [negb].
  destruct (handleScoreSelect_settles env userId questionId first card st) as [st1 H1].
  rewrite H1. eexists _, st1. split; [reflexivity|]. split; reflexivity.
Qed.

Lemma onClick_once_witness :
  exists card1 st1,
    QuestionCard.onClick offline 7 1 4 (QuestionCard.make None false false) fresh
    = (Returned (card1, true), st1)
    /\ QuestionCard.selectedScore card1 = Some 4
    /\ QuestionCard.onClick offline 7 1 5 card1 st1 = (Returned (card1, false), st1).
Proof.
  apply (onClick_once offline 7 1 4 5 (QuestionCard.make None false false) fresh).
  reflexivity.
Defined.

Lemma handleScoreSelect_moves_on_witness :
  exists st',
    QuestionCard.handleScoreSelect offline 7 1 4 (QuestionCard.make None false false)
      (stored "[]" "{not json")
    = (Returned (QuestionCard.make (Some 4) true false, true), st')
    /\ localStorage st' = localStorage (stored "[]" "{not json").
Proof.
  destruct (handleScoreSelect_moves_on offline 7 1 4 (QuestionCard.make None false false)
              (stored "[]" "{not json")) as (st' & Hrun & Hlost).
  exists st'. split; [exact Hrun|].
  apply (Hlost SyntaxError (stored "[]" "{not json")). reflexivity.
Defined.

(** * App.tsx *)

Section App_facts.
Context {Question : Type}.
Variable QUESTIONS : list Question.

Lemma effect_settles (h : string) (before : AppState) (app : App.t) :
  (App.appState app = before -> AppState_eqb before ADMIN = App.admin_hash h) ->
  AppState_eqb (App.appState (App.effect h before app)) ADMIN = App.admin_hash h.
Proof.
  unfold App.effect, App.handleHashChange, App.admin_hash.
  destruct app as [a u i]. cbn [App.appState App.setAppState].
  destruct (String.eqb h "#admin") eqn:Hh; destruct a, before; cbn;
    intros H; try reflexivity; try (apply H; reflexivity); try (symmetry; apply H; reflexivity).
Qed.

Lemma mount_settled (h : string) : App.settled (App.mount h).
Proof.
  unfold App.settled, App.mount. cbn [App.app App.hash].
  apply effect_settles. unfold App.handleHashChange, App.initial, App.admin_hash.
  destruct (String.eqb h "#admin"); cbn; [discriminate | reflexivity].
Qed.

Lemma deliver_settled (e : App.Event) (page : App.Page) :
  App.settled page -> App.settled (App.deliver QUESTIONS e page).
Proof.
  unfold App.settled. destruct page as [app h]. cbn [App.app App.hash]. intros Hpage.
  destruct e as [user | | | h']; cbn [App.deliver App.app App.hash];
    apply effect_settles.
  - intros _. exact Hpage.
  - intros _. exact Hpage.
  - intros _. exact Hpage.
  - unfold App.handleHashChange, App.admin_hash. destruct app as [a u i].
    cbn [App.appState App.setAppState].
    destruct (String.eqb h' "#admin"); [intros <-; reflexivity|].
    destruct a; cbn; intros H; try reflexivity; discriminate H.
Qed.

Lemma run_settled (events : list App.Event) (page : App.Page) :
  App.settled page -> App.settled (App.run QUESTIONS events page).
Proof.
  revert page. induction events as [|e tl IH]; intros page Hpage; [exact Hpage|].
  cbn [App.run fold_left]. apply IH. apply deliver_settled. exact Hpage.
Qed.

Lemma render_admin (app : App.t) :
  App.render QUESTIONS app = App.AdminPanel <-> App.appState app = ADMIN.
Proof.
  unfold App.render. destruct app as [a [u|] i]; cbn [App.appState App.currentUser];
    destruct a; try destruct (truthy (Some u)); split; intros H;
    try reflexivity; discriminate H.
Qed.

(** X17.  The admin panel is on the screen exactly when the hash is
    "#admin": after the page is mounted and after every event delivered
    to the handlers of the latest render. *)
Theorem admin_panel_iff_hash (h0 : string) (events : list App.Event) :
  let page := App.run QUESTIONS events (App.mount h0) in
  App.render QUESTIONS (App.app page) = App.AdminPanel <-> App.hash page = "#admin".
Proof.
  intros page. rewrite render_admin.
  pose proof (run_settled events (App.mount h0) (mount_settled h0)) as H.
  fold page in H. unfold App.settled, App.admin_hash in H.
  rewrite <- String.eqb_eq, <- H.
  destruct (App.appState (App.app page)); cbn; split; intros E;
    try reflexivity; discriminate E.
Qed.

Lemma effect_index (h : string) (before : AppState) (app : App.t) :
  App.currentQuestionIndex (App.effect h before app) = App.currentQuestionIndex app
  /\ App.currentUser (App.effect h before app) = App.currentUser app.
Proof.
  unfold App.effect, App.handleHashChange. destruct app as [a u i].
  cbn [App.appState App.setAppState].
  destruct (String.eqb h "#admin"); destruct a, before; cbn; split; reflexivity.
Qed.

Lemma next_question_step (user : json) (k : nat) (h : string) :
  (S k < length QUESTIONS)%nat ->
  App.deliver QUESTIONS App.NextQuestion (App.quiz user (Z.of_nat k) h)
  = App.quiz user (Z.of_nat (S k)) h.
Proof.
  intros Hk. unfold App.deliver, App.quiz, App.handleNextQuestion, App.length_of.
  cbn [App.app App.hash App.appState App.currentQuestionIndex].
  destruct (Z.ltb_spec (Z.of_nat k) (Z.of_nat (length QUESTIONS) - 1)) as [_ | Hge]; [|lia].
  unfold App.setCurrentQuestionIndex. cbn [App.appState App.currentUser
    App.currentQuestionIndex].
  unfold App.effect. cbn [App.appState AppState_eqb].
  do 2 f_equal. lia.
Qed.

Lemma next_question_run (user : json) (k : nat) (h : string) :
  (k < length QUESTIONS)%nat ->
  App.run QUESTIONS (repeat App.NextQuestion k) (App.quiz user 0 h)
  = App.quiz user (Z.of_nat k) h.
Proof.
  induction k as [|k IH]; intros Hk; [reflexivity|].
  change (repeat App.NextQuestion (S k)) with (App.NextQuestion :: repeat App.NextQuestion k).
  rewrite repeat_cons. unfold App.run in *. rewrite fold_left_app.
  rewrite IH by lia. cbn [fold_left]. apply next_question_step. exact Hk.
Qed.

Lemma next_question_last (user : json) (k : nat) (h : string) :
  App.admin_hash h = false ->
  S k = length QUESTIONS ->
  App.deliver QUESTIONS App.NextQuestion (App.quiz user (Z.of_nat k) h)
  = {| App.app := App.make COMPLETED (Some user) (Z.of_nat k); App.hash := h |}.
Proof.
  intros Hh Hk. unfold App.deliver, App.quiz, App.handleNextQuestion, App.length_of.
  cbn [App.app App.hash App.appState App.currentQuestionIndex].
  destruct (Z.ltb_spec (Z.of_nat k) (Z.of_nat (length QUESTIONS) - 1)) as [Hlt | _]; [lia|].
  unfold App.effect, App.handleHashChange, App.setAppState. unfold App.admin_hash in Hh.
  cbn [App.appState App.currentUser App.currentQuestionIndex AppState_eqb].
  rewrite Hh. reflexivity.
Qed.

(** X18.  A quiz runs through the questions in order: once a user is
    created (the hash not being "#admin"), the card on the screen after k
    calls of [onNext] shows question k + 1 of [QUESTIONS] with that
    user's id, and after as many calls as there are questions the
    completion screen is shown. *)
Theorem quiz_runs_through (user : json) (h : string) :
  truthy (Some user) = true ->
  App.admin_hash h = false ->
  QUESTIONS <> [] ->
  App.deliver QUESTIONS (App.UserCreated user) (App.mount h) = App.quiz user 0 h
  /\ (forall k, (k < length QUESTIONS)%nat ->
        App.render QUESTIONS
          (App.app (App.run QUESTIONS (repeat App.NextQuestion k) (App.quiz user 0 h)))
        = App.QuestionCardView (nth_error QUESTIONS k) (field "id" user)
            (Z.of_nat k + 1) (App.length_of QUESTIONS))
  /\ App.render QUESTIONS
       (App.app (App.run QUESTIONS (repeat App.NextQuestion (length QUESTIONS))
                   (App.quiz user 0 h)))
     = App.CompletedScreen.
Proof.
  intros Huser Hh Hsome. split; [|split].
  - unfold App.deliver, App.mount, App.quiz, App.handleUserCreated, App.effect,
      App.handleHashChange, App.initial.
    unfold App.admin_hash in Hh.
    cbn [App.app App.hash App.appState App.setAppState App.setCurrentUser
         App.currentUser App.currentQuestionIndex AppState_eqb].
    rewrite Hh.
    cbn [App.app App.hash App.appState App.setAppState App.setCurrentUser
         App.currentUser App.currentQuestionIndex AppState_eqb].
    rewrite ?Hh. reflexivity.
  - intros k Hk. rewrite (next_question_run user k h Hk).
    unfold App.render, App.quiz. cbn [App.app App.appState App.currentUser
      App.currentQuestionIndex]. rewrite Huser.
    unfold App.question_at. destruct (Z.ltb_spec (Z.of_nat k) 0) as [Hneg | _]; [lia|].
    rewrite Nat2Z.id. reflexivity.
  - destruct (length QUESTIONS) as [|n] eqn:Hn.
    { destruct QUESTIONS; [congruence | discriminate Hn]. }
    change (repeat App.NextQuestion (S n)) with (App.NextQuestion :: repeat App.NextQuestion n).
    rewrite repeat_cons. unfold App.run. rewrite fold_left_app.
    fold (App.run QUESTIONS (repeat App.NextQuestion n) (App.quiz user 0 h)).
    rewrite (next_question_run user n h) by lia.
    cbn [fold_left]. rewrite (next_question_last user n h Hh) by congruence.
    reflexivity.
Qed.

(** X19.  A visit to the admin panel in the middle of a quiz does not
    reset the quiz: the hash set to "#admin" shows the admin panel, the
    hash set to anything else then shows the profile form, and the user
    created there is shown the question the interrupted quiz had reached,
    not the first one. *)
Theorem admin_visit_keeps_question (user newcomer : json) (i : Z) (h h' : string) :
  truthy (Some newcomer) = true ->
  App.admin_hash h' = false ->
  let page1 := App.deliver QUESTIONS (App.HashChange "#admin") (App.quiz user i h) in
  let page2 := App.deliver QUESTIONS (App.HashChange h') page1 in
  let page3 := App.deliver QUESTIONS (App.UserCreated newcomer) page2 in
  App.render QUESTIONS (App.app page1) = App.AdminPanel
  /\ App.render QUESTIONS (App.app page2) = App.ProfileSelectorView
  /\ App.render QUESTIONS (App.app page3)
     = App.QuestionCardView (App.question_at QUESTIONS i) (field "id" newcomer)
         (i + 1) (App.length_of QUESTIONS).
Proof.
  intros Hnew Hh'. unfold App.admin_hash in Hh'.
  assert (H1 : App.deliver QUESTIONS (App.HashChange "#admin") (App.quiz user i h)
               = {| App.app := App.make ADMIN (Some user) i; App.hash := "#admin" |})
    by reflexivity.
  assert (H2 : App.deliver QUESTIONS (App.HashChange h')
                 {| App.app := App.make ADMIN (Some user) i; App.hash := "#admin" |}
               = {| App.app := App.make PROFILE (Some user) i; App.hash := h' |}).
  { unfold App.deliver, App.effect, App.handleHashChange.
    cbn [App.app App.hash App.appState App.setAppState AppState_eqb].
    rewrite Hh'.
    cbn [App.app App.hash App.appState App.setAppState AppState_eqb App.currentUser
         App.currentQuestionIndex].
    rewrite ?Hh'. reflexivity. }
  assert (H3 : App.deliver QUESTIONS (App.UserCreated newcomer)
                 {| App.app := App.make PROFILE (Some user) i; App.hash := h' |}
               = {| App.app := App.make QUIZ (Some newcomer) i; App.hash := h' |}).
  { unfold App.deliver, App.effect, App.handleHashChange, App.handleUserCreated.
    cbn [App.app App.hash App.appState App.setAppState App.setCurrentUser AppState_eqb
         App.currentUser App.currentQuestionIndex].
    rewrite ?Hh'. reflexivity. }
  cbv zeta. rewrite H1, H2, H3.
  split; [reflexivity|]. split; [reflexivity|].
  unfold App.render. cbn [App.app App.appState App.currentUser App.currentQuestionIndex].
  rewrite Hnew. reflexivity.
Qed.

Lemma deliver_index_bound (e : App.Event) (page : App.Page) :
  QUESTIONS <> [] ->
  0 <= App.currentQuestionIndex (App.app page) < App.length_of QUESTIONS ->
  0 <= App.currentQuestionIndex (App.app (App.deliver QUESTIONS e page))
  < App.length_of QUESTIONS.
Proof.
  intros Hsome Hpage.
  assert (Hlen : 0 < App.length_of QUESTIONS).
  { unfold App.length_of. destruct QUESTIONS; [congruence | cbn; lia]. }
  destruct page as [app h]. cbn [App.app App.hash] in *.
  destruct e as [user | | | h']; cbn [App.deliver App.app App.hash];
    rewrite (proj1 (effect_index _ _ _)).
  - exact Hpage.
  - unfold App.handleNextQuestion.
    destruct (Z.ltb_spec (App.currentQuestionIndex app) (App.length_of QUESTIONS - 1));
      cbn; lia.
  - cbn. lia.
  - unfold App.handleHashChange.
    destruct (String.eqb h' "#admin"); [exact Hpage|].
    destruct (AppState_eqb (App.appState app) ADMIN); exact Hpage.
Qed.

(** X20.  Whenever a question card is on the screen it has a question to
    show: after the page is mounted and after every event delivered to
    the handlers of the latest render, a card that is rendered gets an
    element of [QUESTIONS], a progress between 1 and the number of
    questions, and that number as total ([QUESTIONS] not being empty). *)
Theorem question_card_has_question (h0 : string) (events : list App.Event)
        (q : option Question) (userId : value) (progress total : Z) :
  QUESTIONS <> [] ->
  App.render QUESTIONS (App.app (App.run QUESTIONS events (App.mount h0)))
  = App.QuestionCardView q userId progress total ->
  (exists question, q = Some question /\ In question QUESTIONS)
  /\ 1 <= progress <= total
  /\ total = Z.of_nat (length QUESTIONS).
Proof.
  intros Hsome.
  assert (Hbound : 0 <= App.currentQuestionIndex
                          (App.app (App.run QUESTIONS events (App.mount h0)))
                   < App.length_of QUESTIONS).
  { assert (Hmount : 0 <= App.currentQuestionIndex (App.app (App.mount h0))
                     < App.length_of QUESTIONS).
    { unfold App.mount. cbn [App.app]. rewrite (proj1 (effect_index _ _ _)).
      unfold App.handleHashChange, App.initial, App.length_of.
      destruct (String.eqb h0 "#admin"); cbn; destruct QUESTIONS; try congruence; cbn; lia. }
    revert Hmount. generalize (App.mount h0). unfold App.run.
    induction events as [|e tl IH]; intros page Hpage; [exact Hpage|].
    cbn [fold_left]. apply IH. apply deliver_index_bound; assumption. }
  revert Hbound. generalize (App.app (App.run QUESTIONS events (App.mount h0))).
  intros [a u i]. cbn [App.currentQuestionIndex]. intros Hi.
  unfold App.render. cbn [App.appState App.currentUser App.currentQuestionIndex].
  destruct a; try discriminate; destruct u as [user|]; try discriminate.
  destruct (truthy (Some user)); [|discriminate].
  intros [= <- <- <- <-]. unfold App.length_of in *.
  split; [|split; [lia | reflexivity]].
  unfold App.question_at. destruct (Z.ltb_spec i 0) as [Hneg | _]; [lia|].
  destruct (nth_error QUESTIONS (Z.to_nat i)) as [question|] eqn:Hnth.
  - exists question. split; [reflexivity|]. exact (nth_error_In _ _ Hnth).
  - apply nth_error_None in Hnth. lia.
Qed.
(** X21.  The button of the completion screen starts over: [resetApp]
    shows the profile form, and the user created next is shown the
    first question. *)
Theorem reset_restarts (page : App.Page) (newcomer : json) :
  truthy (Some newcomer) = true ->
  App.admin_hash (App.hash page) = false ->
  let page1 := App.deliver QUESTIONS App.Reset page in
  let page2 := App.deliver QUESTIONS (App.UserCreated newcomer) page1 in
  App.render QUESTIONS (App.app page1) = App.ProfileSelectorView
  /\ App.render QUESTIONS (App.app page2)
     = App.QuestionCardView (App.question_at QUESTIONS 0) (field "id" newcomer)
         1 (App.length_of QUESTIONS).
Proof.
  intros Hnew Hh. destruct page as [[a u i] h].
  unfold App.admin_hash in Hh. cbn [App.app App.hash App.appState] in Hh.
  assert (H1 : App.deliver QUESTIONS App.Reset
                 {| App.app := App.make a u i; App.hash := h |}
               = {| App.app := App.make PROFILE None 0; App.hash := h |}).
  { unfold App.deliver, App.effect, App.handleHashChange, App.resetApp.
    cbn [App.app App.hash App.appState App.setAppState App.setCurrentUser
         App.setCurrentQuestionIndex App.currentUser App.currentQuestionIndex].
    rewrite Hh. destruct a; cbn; rewrite ?Hh; reflexivity. }
  assert (H2 : App.deliver QUESTIONS (App.UserCreated newcomer)
                 {| App.app := App.make PROFILE None 0; App.hash := h |}
               = {| App.app := App.make QUIZ (Some newcomer) 0; App.hash := h |}).
  { unfold App.deliver, App.effect, App.handleHashChange, App.handleUserCreated.
    cbn [App.app App.hash App.appState App.setAppState App.setCurrentUser AppState_eqb
         App.currentUser App.currentQuestionIndex].
    rewrite ?Hh. reflexivity. }
  cbv zeta. rewrite H1, H2. split; [reflexivity|].
  unfold App.render. cbn [App.app App.appState App.currentUser App.currentQuestionIndex].
  rewrite Hnew. reflexivity.
Qed.
End App_facts.

Lemma quiz_runs_through_witness :
  App.render ["q1"; "q2"; "q3"]
    (App.app (App.run ["q1"; "q2"; "q3"] (repeat App.NextQuestion 3)
                (App.quiz (User.to_json ann) 0 "#")))
  = App.CompletedScreen.
Proof.
  apply (quiz_runs_through ["q1"; "q2"; "q3"] (User.to_json ann) "#");
    [reflexivity | reflexivity | discriminate].
Defined.

Lemma admin_visit_keeps_question_witness :
  App.render ["q1"; "q2"; "q3"]
    (App.app (App.deliver ["q1"; "q2"; "q3"] (App.UserCreated (User.to_json ann))
                (App.deliver ["q1"; "q2"; "q3"] (App.HashChange "#")
                   (App.deliver ["q1"; "q2"; "q3"] (App.HashChange "#admin")
                      (App.quiz (JObj [("id", JNum 9)]) 2 "#")))))
  = App.QuestionCardView (App.question_at ["q1"; "q2"; "q3"] 2)
      (field "id" (User.to_json ann)) (2 + 1) (App.length_of ["q1"; "q2"; "q3"]).
Proof.
  apply (admin_visit_keeps_question ["q1"; "q2"; "q3"] (JObj [("id", JNum 9)])
           (User.to_json ann) 2 "#" "#"); reflexivity.
Defined.

Lemma question_card_has_question_witness :
  (exists question, Some "q2" = Some question /\ In question ["q1"; "q2"; "q3"])
  /\ 1 <= 2 <= 3
  /\ 3 = Z.of_nat (length ["q1"; "q2"; "q3"]).
Proof.
  apply (question_card_has_question ["q1"; "q2"; "q3"] "#"
           [App.UserCreated (User.to_json ann); App.NextQuestion]
           (Some "q2") (Some (JNum 1)) 2 3); [discriminate | reflexivity].
Defined.

Lemma reset_restarts_witness :
  App.render ["q1"; "q2"; "q3"]
    (App.app (App.deliver ["q1"; "q2"; "q3"] (App.UserCreated (User.to_json ann))
                (App.deliver ["q1"; "q2"; "q3"] App.Reset
                   {| App.app := App.make COMPLETED (Some (JObj [("id", JNum 9)])) 2;
                      App.hash := "#" |})))
  = App.QuestionCardView (App.question_at ["q1"; "q2"; "q3"] 0)
      (field "id" (User.to_json ann)) 1 (App.length_of ["q1"; "q2"; "q3"]).
Proof.
  apply (reset_restarts ["q1"; "q2"; "q3"]
           {| App.app := App.make COMPLETED (Some (JObj [("id", JNum 9)])) 2;
              App.hash := "#" |} (User.to_json ann)); reflexivity.
Defined.
